(** * VOTS: the text-file catalogue services

    A shallow embedding of the story catalogue of the VOTS web site:
    [FileScannerService] (scanTextFiles, getTextFilesFromFolder, getFileInfo,
    extractTitle, generateFileInfo), [TextFileReaderService] (readTextFile,
    readMultipleTextFiles), the [Stories] page loader (loadStories) and the
    text heuristics shared with [ManifestUpdater].

    Modelling conventions.
    - A JavaScript string is a [string]: a sequence of 8-bit characters.  The
      built-in string methods are modelled on the ASCII range: [toUpperCase]
      and [toLowerCase] map a-z and A-Z onto each other and leave every other
      character alone, and the white space of [trim] and of the regular
      expression class \s is tab, line feed, vertical tab, form feed,
      carriage return and space.
    - [length] is a [nat]; numbers are printed in decimal.
    - The network and the clock are an explicit environment [Env]: [fetch]
      maps a location to the outcome of the request, [now] is what
      [new Date().toISOString()] returns.
    - [throw] inside [try { ... } catch] is the error monad [Exc]; the
      [catch] block turns the exception into the failure record.
    - A static method that reaches a sibling through [this] takes its
      receiver as a parameter [This]: the class when it is called as a
      member of the class, undefined when it is called through the named
      export of its module, where reading a member of [this] throws a
      TypeError. *)

From Stdlib Require Import String Ascii List Arith Bool Lia PeanoNat.
From Stdlib Require Import DecimalString.
Import ListNotations.
Open Scope list_scope.
Open Scope string_scope.
Open Scope nat_scope.

(** ** JavaScript string primitives *)

Module Js.

Definition code (c : ascii) : nat := nat_of_ascii c.

Definition between (lo hi : nat) (c : ascii) : bool :=
  (lo <=? code c) && (code c <=? hi).

(** [A-Z], [a-z] and \d. *)
Definition isUpperAZ (c : ascii) : bool := between 65 90 c.
Definition isLowerAZ (c : ascii) : bool := between 97 122 c.
Definition isDigit (c : ascii) : bool := between 48 57 c.

(** \s, and the characters [trim] removes. *)
Definition isSpace (c : ascii) : bool :=
  between 9 13 c || (code c =? 32).

Definition upperChar (c : ascii) : ascii :=
  if isLowerAZ c then ascii_of_nat (code c - 32) else c.

Definition lowerChar (c : ascii) : ascii :=
  if isUpperAZ c then ascii_of_nat (code c + 32) else c.

Fixpoint mapChars (f : ascii -> ascii) (s : string) : string :=
  match s with
  | EmptyString => EmptyString
  | String c r => String (f c) (mapChars f r)
  end.

Definition toUpperCase : string -> string := mapChars upperChar.
Definition toLowerCase : string -> string := mapChars lowerChar.

(** [s.startsWith(p)]. *)
Fixpoint startsWith (s p : string) {struct p} : bool :=
  match p, s with
  | EmptyString, _ => true
  | String a p', String b s' => Ascii.eqb a b && startsWith s' p'
  | String _ _, EmptyString => false
  end.

(** [s.includes(sub)]. *)
Fixpoint includes (s sub : string) : bool :=
  startsWith s sub ||
  match s with
  | EmptyString => false
  | String _ r => includes r sub
  end.

(** [s.endsWith(suf)]: some suffix of [s] is [suf]. *)
Fixpoint endsWith (s suf : string) : bool :=
  String.eqb s suf ||
  match s with
  | EmptyString => false
  | String _ r => endsWith r suf
  end.

Fixpoint trimStart (s : string) : string :=
  match s with
  | EmptyString => EmptyString
  | String c r => if isSpace c then trimStart r else s
  end.

Fixpoint trimEnd (s : string) : string :=
  match s with
  | EmptyString => EmptyString
  | String c r =>
      match trimEnd r with
      | EmptyString => if isSpace c then EmptyString else String c EmptyString
      | r' => String c r'
      end
  end.

(** [s.trim()]. *)
Definition trim (s : string) : string := trimEnd (trimStart s).

(** Puts a character in front of the first piece of a split. *)
Definition consHead (c : ascii) (l : list string) : list string :=
  match l with
  | [] => [String c EmptyString]
  | t :: ts => String c t :: ts
  end.

(** [s.split(d)] for a one-character separator [d]: never empty, the empty
    string gives one empty piece. *)
Fixpoint splitChar (d : ascii) (s : string) : list string :=
  match s with
  | EmptyString => [EmptyString]
  | String c r =>
      if Ascii.eqb c d then EmptyString :: splitChar d r
      else consHead c (splitChar d r)
  end.

(** [s.split(/[class]+/)]: the pieces between the maximal runs of separator
    characters.  A run at the start or at the end leaves an empty piece
    there; the empty string gives one empty piece.  [inRun] says that the
    character before [s] belongs to a run that has already been cut. *)
Fixpoint splitRunsFrom (sep : ascii -> bool) (inRun : bool) (s : string)
  : list string :=
  match s with
  | EmptyString => [EmptyString]
  | String c r =>
      if sep c then
        if inRun then splitRunsFrom sep true r
        else EmptyString :: splitRunsFrom sep true r
      else consHead c (splitRunsFrom sep false r)
  end.

Definition splitRuns (sep : ascii -> bool) (s : string) : list string :=
  splitRunsFrom sep false s.

(** [l.join(sep)]. *)
Definition join (sep : string) (l : list string) : string :=
  String.concat sep l.

(** [s.charAt(0)] and [s.slice(1)]. *)
Definition charAt0 (s : string) : string :=
  match s with
  | EmptyString => EmptyString
  | String c _ => String c EmptyString
  end.

Definition slice1 (s : string) : string :=
  match s with
  | EmptyString => EmptyString
  | String _ r => r
  end.

(** [s.replace(pat, "")] for a string pattern: the first occurrence of
    [pat] is removed. *)
Fixpoint dropChars (n : nat) (s : string) : string :=
  match n, s with
  | O, _ => s
  | S n', String _ r => dropChars n' r
  | S _, EmptyString => EmptyString
  end.

Fixpoint removeFirst (pat s : string) : string :=
  if startsWith s pat then dropChars (String.length pat) s
  else
    match s with
    | EmptyString => EmptyString
    | String c r => String c (removeFirst pat r)
    end.

(** [l.pop()] on the result of a split, which is never empty; [undefined]
    shows as the empty string and is never reached. *)
Definition pop (l : list string) : string := List.last l EmptyString.

(** [String(n)] for a non-negative integer. *)
Definition numberToString (n : nat) : string :=
  NilZero.string_of_uint (Nat.to_uint n).

(** A string is truthy when it is not empty. *)
Definition truthy (s : string) : bool :=
  match s with
  | EmptyString => false
  | String _ _ => true
  end.

End Js.

Import Js.

(** ** The text analyser: extractTitle and generateFileInfo *)

(** The class [-_\s] of the file-name splitter. *)
Definition isNameSep (c : ascii) : bool :=
  Ascii.eqb c "-" || Ascii.eqb c "_" || isSpace c.

(** /^[A-Z]/.test(s) *)
Definition testLeadingCapital (s : string) : bool :=
  match s with
  | EmptyString => false
  | String c _ => isUpperAZ c
  end.

(** word => word.charAt(0).toUpperCase() + word.slice(1).toLowerCase() *)
Definition titleCaseWord (word : string) : string :=
  toUpperCase (charAt0 word) ++ toLowerCase (slice1 word).

Definition extractTitle (firstLine fileName : string) : string :=
  if truthy firstLine
     && (String.length firstLine <? 100)
     && (0 <? String.length firstLine)
     && testLeadingCapital firstLine
     && negb (includes firstLine "http")
     && negb (includes firstLine "www")
  then firstLine
  else join " " (map titleCaseWord (splitRuns isNameSep fileName)).

Definition newline : ascii := "010"%char.

(** /\d{4}-\d{2}-\d{2}/ matched at the start of [s]. *)
Definition dateAt (s : string) : bool :=
  match s with
  | String y1 (String y2 (String y3 (String y4 (String h1
      (String m1 (String m2 (String h2 (String d1 (String d2 _))))))))) =>
      isDigit y1 && isDigit y2 && isDigit y3 && isDigit y4
      && Ascii.eqb h1 "-" && isDigit m1 && isDigit m2
      && Ascii.eqb h2 "-" && isDigit d1 && isDigit d2
  | _ => false
  end.

(** content.match(/\d{4}-\d{2}-\d{2}/) is not null. *)
Fixpoint matchesDate (s : string) : bool :=
  dateAt s ||
  match s with
  | EmptyString => false
  | String _ r => matchesDate r
  end.

(** content.split('\n') *)
Definition linesOf (content : string) : list string :=
  splitChar newline content.

(** content.trim().split(/\s+/).filter(word => word.length > 0) *)
Definition wordsOf (content : string) : list string :=
  filter (fun word => 0 <? String.length word)
         (splitRuns isSpace (trim content)).

Definition generateFileInfo (content fileName : string) : string :=
  let lines := linesOf content in
  let words := wordsOf content in
  let info :=
    if List.length lines <=? 1 then "Single line text file"
    else if List.length lines <=? 10 then
      "Short story with " ++ numberToString (List.length lines) ++ " lines"
    else if List.length lines <=? 50 then
      "Medium story with " ++ numberToString (List.length lines) ++ " lines"
    else
      "Long story with " ++ numberToString (List.length lines) ++ " lines" in
  let info := info ++ " (" ++ numberToString (List.length words) ++ " words)" in
  let info :=
    if includes content "http" || includes content "www"
    then info ++ " - Contains links" else info in
  let info :=
    if includes content "@"
    then info ++ " - Contains email addresses" else info in
  let info :=
    if matchesDate content
    then info ++ " - Contains dates" else info in
  info.

(** ** Exceptions, results and the environment *)

(** A thrown [Error]: its [name] and [message]. *)
Record Exn : Type := mkExn { exnName : string; exnMessage : string }.

(** A computation inside a [try] block: it throws or it yields a value. *)
Definition Exc (A : Type) : Type := (Exn + A)%type.

Definition ret {A : Type} (a : A) : Exc A := inr a.

(** throw new Error(message) *)
Definition throwError {A : Type} (message : string) : Exc A :=
  inl (mkExn "Error" message).

Definition bind {A B : Type} (c : Exc A) (k : A -> Exc B) : Exc B :=
  match c with
  | inl e => inl e
  | inr a => k a
  end.

Notation "x <- c ;; k" := (bind c (fun x => k))
  (at level 61, c at next level, right associativity).

(** The object every service returns from its [catch] block. *)
Record ErrorInfo : Type := mkErrorInfo {
  message : string;
  type : string;
  timestamp : string
}.

(** { success: true, ... } or { success: false, error, data: null }. *)
Inductive Result (A : Type) : Type :=
| Success (data : A)
| Failure (error : ErrorInfo).
Arguments Success {A} data.
Arguments Failure {A} error.

Definition success {A : Type} (r : Result A) : bool :=
  match r with
  | Success _ => true
  | Failure _ => false
  end.

(** An entry of the manifest or of the built-in list. *)
Module Entry.
Record t : Type := mk { path : string; title : string; info : string }.
End Entry.

(** file-manifest.json as the scanner reads it: [textFiles] may be missing. *)
Record Manifest : Type := mkManifest {
  textFiles : option (list Entry.t)
}.

(** What the code reads of a fetch [Response]. [text] and [json] may
    reject. *)
Record Response : Type := mkResponse {
  ok : bool;
  status : nat;
  statusText : string;
  text : Exc string;
  json : Exc Manifest;
  lastModifiedHeader : option string
}.

Record Env : Type := mkEnv {
  fetch : string -> Exc Response;
  now : string
}.

(** try { body } catch (error) { return { success: false, ... } } *)
Definition tryCatch {A : Type} (env : Env) (body : Exc A) : Result A :=
  match body with
  | inr data => Success data
  | inl error =>
      Failure (mkErrorInfo (exnMessage error) (exnName error) (now env))
  end.

(** ** The receiver of a static method *)

(** What [this] is inside a static method.  It is the class when the method
    is called on the class (TextFileReaderService.readMultipleTextFiles(...)),
    and undefined when the method is called through the named export of its
    module (export const { ... } = TextFileReaderService), since a class
    body is strict code. *)
Inductive This : Type :=
| ThisClass
| ThisUndefined.

(** The TypeError of reading [member] of undefined, with the message V8
    gives it. *)
Definition undefinedMember (member : string) : Exn :=
  mkExn "TypeError"
    ("Cannot read properties of undefined (reading '" ++ member ++ "')").

(** this.member(...), where [call] is what the method of the class
    returns. *)
Definition viaThis {A : Type} (this : This) (member : string) (call : A)
  : Exc A :=
  match this with
  | ThisClass => ret call
  | ThisUndefined => inl (undefinedMember member)
  end.

(** array.map(callback) for a callback that may throw: the first exception
    ends the map. *)
Fixpoint mapExc {A B : Type} (callback : A -> Exc B) (array : list A)
  : Exc (list B) :=
  match array with
  | [] => ret []
  | a :: rest =>
      b <- callback a ;;
      bs <- mapExc callback rest ;;
      ret (b :: bs)
  end.

(** ** FileScannerService *)

(** The [data] of a successful getFileInfo. *)
Module Doc.
Record t : Type := mk {
  path : string;
  title : string;
  info : string;
  fileName : string;
  fileSize : nat;
  lineCount : nat;
  wordCount : nat;
  characterCount : nat;
  firstLine : string;
  content : string;
  timestamp : string
}.
End Doc.

Definition getFileInfo (env : Env) (filePath : string) : Result Doc.t :=
  tryCatch env
    (if negb (truthy filePath) then throwError "Invalid file path provided"
     else if negb (endsWith (toLowerCase filePath) ".txt")
     then throwError "File must have .txt extension"
     else
       contentResponse <- fetch env filePath ;;
       if negb (ok contentResponse) then
         throwError ("Failed to access file: "
                     ++ numberToString (status contentResponse) ++ " "
                     ++ statusText contentResponse)
       else
         content <- text contentResponse ;;
         let lines := linesOf content in
         let firstLine := trim (hd EmptyString lines) in
         let fileName := removeFirst ".txt" (pop (splitChar "/" filePath)) in
         let title := extractTitle firstLine fileName in
         let info := generateFileInfo content fileName in
         ret (Doc.mk filePath title info fileName
                (String.length content)
                (List.length lines)
                (List.length (wordsOf content))
                (String.length content)
                firstLine content (now env))).

(** The built-in list of getTextFilesFromFolder. *)
Definition knownTextFiles (folderPath : string) : list Entry.t :=
  [ Entry.mk (folderPath ++ "example.txt") "Example Text File"
      "Sample text file for testing the TextFileReaderService" ].

(** The callback of manifest.textFiles.filter. *)
Definition isStoryEntry (file : Entry.t) : bool :=
  let fileName := toLowerCase (Entry.path file) in
  negb (includes fileName "readme")
  && negb (includes fileName "manifest")
  && negb (includes fileName "license")
  && negb (includes fileName "changelog")
  && negb (includes fileName "contributing")
  && endsWith (toLowerCase (Entry.path file)) ".txt".

(** manifest.textFiles?.filter(...) || [] *)
Definition storyFilesOf (manifest : Manifest) : list Entry.t :=
  match textFiles manifest with
  | Some files => filter isStoryEntry files
  | None => []
  end.

(** The [try] block of getTextFilesFromFolder: [Some l] is [return l], [None]
    leaves the block without returning. *)
Definition manifestAttempt (env : Env) (folderPath : string)
  : Exc (option (list Entry.t)) :=
  manifestResponse <- fetch env (folderPath ++ "file-manifest.json") ;;
  if ok manifestResponse then
    manifest <- json manifestResponse ;;
    let storyFiles := storyFilesOf manifest in
    ret (Some (if 0 <? List.length storyFiles then storyFiles
               else knownTextFiles folderPath))
  else ret None.

Definition getTextFilesFromFolder (env : Env) (folderPath : string)
  : list Entry.t :=
  match manifestAttempt env folderPath with
  | inr (Some files) => files
  | inr None => knownTextFiles folderPath
  | inl _ => knownTextFiles folderPath
  end.

(** The [data] and [metadata] of a successful scanTextFiles. *)
Module Scan.
Record t : Type := mk {
  folderPath : string;
  totalFiles : nat;
  files : list Entry.t;
  scanTimestamp : string;
  scanMethod : string;
  environment : string
}.
End Scan.

(** folderPath.endsWith('/') ? folderPath : folderPath + '/' *)
Definition normalizePath (folderPath : string) : string :=
  if endsWith folderPath "/" then folderPath else folderPath ++ "/".

Definition scanTextFiles (env : Env) (folderPath : string) : Result Scan.t :=
  tryCatch env
    (if negb (truthy folderPath) then throwError "Invalid folder path provided"
     else
       let normalizedPath := normalizePath folderPath in
       let files := getTextFilesFromFolder env normalizedPath in
       ret (Scan.mk normalizedPath (List.length files) files (now env)
              "folder-scan" "browser")).

(** ** The Stories page: loadStories *)

Module Stories.

(** The component state behind useState. *)
Record state : Type := mk {
  stories : list Doc.t;
  loading : bool;
  error : option string
}.

Definition initial : state := mk [] true None.

Definition setStories (v : list Doc.t) (st : state) : state :=
  mk v (loading st) (error st).
Definition setLoading (v : bool) (st : state) : state :=
  mk (stories st) v (error st).
Definition setError (v : option string) (st : state) : state :=
  mk (stories st) (loading st) v.

(** The folder the page scans. *)
Definition storyFolder : string := "./src/StoryTxt/".

(** async (file) => { const fileInfo = await getFileInfo(file.path);
    return fileInfo.success ? fileInfo.data : null; } *)
Definition detail (env : Env) (file : Entry.t) : option Doc.t :=
  match getFileInfo env (Entry.path file) with
  | Success data => Some data
  | Failure _ => None
  end.

(** detailedStories.filter(story => story !== null) *)
Fixpoint notNull {A : Type} (l : list (option A)) : list A :=
  match l with
  | [] => []
  | Some a :: r => a :: notNull r
  | None :: r => notNull r
  end.

Definition loadStories (env : Env) (st : state) : state :=
  let st := setLoading true st in
  let st := setError None st in
  let body : Exc state :=
    match scanTextFiles env storyFolder with
    | Success data =>
        let detailedStories := map (detail env) (Scan.files data) in
        let validStories := notNull detailedStories in
        ret (setStories validStories st)
    | Failure err => ret (setError (Some (message err)) st)
    end in
  let st :=
    match body with
    | inr st' => st'
    | inl err => setError (Some (exnMessage err)) st
    end in
  setLoading false st.

End Stories.

(** ** TextFileReaderService *)

(** The [data] and [metadata] of a successful readTextFile. *)
Module Read.
Record t : Type := mk {
  content : string;
  filePath : string;
  fileName : string;
  fileSize : nat;
  lineCount : nat;
  wordCount : nat;
  characterCount : nat;
  timestamp : string;
  encoding : string;
  mimeType : string;
  lastModified : option string
}.
End Read.

(** response.headers.get('last-modified') || null *)
Definition orNull (v : option string) : option string :=
  match v with
  | Some s => if truthy s then Some s else None
  | None => None
  end.

Definition readTextFile (env : Env) (filePath : string) : Result Read.t :=
  tryCatch env
    (if negb (truthy filePath) then throwError "Invalid file path provided"
     else if negb (endsWith (toLowerCase filePath) ".txt")
     then throwError "File must have .txt extension"
     else
       response <- fetch env filePath ;;
       if negb (ok response) then
         throwError ("Failed to fetch file: "
                     ++ numberToString (status response) ++ " "
                     ++ statusText response)
       else
         textContent <- text response ;;
         ret (Read.mk textContent filePath
                (pop (splitChar "/" filePath))
                (String.length textContent)
                (List.length (linesOf textContent))
                (List.length (wordsOf textContent))
                (String.length textContent)
                (now env) "UTF-8" "text/plain"
                (orNull (lastModifiedHeader response)))).

(** The argument of readMultipleTextFiles: an array of paths, or anything
    else. *)
Inductive PathsArg : Type :=
| PathArray (filePaths : list string)
| NotAnArray.

(** An entry of the array Promise.allSettled resolves to. *)
Inductive Settled (A : Type) : Type :=
| Fulfilled (value : A)
| Rejected (reason : Exn).
Arguments Fulfilled {A} value.
Arguments Rejected {A} reason.

Module Multi.

Record failed : Type := mkFailed { filePath : string; error : string }.

Record t : Type := mk {
  successfulReads : list (Result Read.t);
  failedReads : list failed;
  totalFiles : nat;
  successfulCount : nat;
  failedCount : nat;
  timestamp : string
}.

(** filePaths.map(filePath => this.readTextFile(filePath)): what the
    promises resolve to.  The arrow function takes [this] from the method,
    so with an undefined receiver the first call throws.  readTextFile is an
    async function whose whole body is inside [try]: its promise always
    fulfils. *)
Definition promises (env : Env) (this : This) (filePaths : list string)
  : Exc (list (Result Read.t)) :=
  mapExc
    (fun filePath => viaThis this "readTextFile" (readTextFile env filePath))
    filePaths.

(** Promise.allSettled on promises that all fulfil. *)
Definition allSettled (fulfilled : list (Result Read.t))
  : list (Settled (Result Read.t)) :=
  map Fulfilled fulfilled.

(** The callback of results.forEach((result, index) => ...), on the two
    arrays it pushes to. *)
Definition collect (filePaths : list string)
  (acc : list (Result Read.t) * list failed)
  (item : nat * Settled (Result Read.t))
  : list (Result Read.t) * list failed :=
  let '(successfulReads, failedReads) := acc in
  let '(index, result) := item in
  match result with
  | Fulfilled (Success data) =>
      ((successfulReads ++ [Success data])%list, failedReads)
  | Fulfilled (Failure err) =>
      (successfulReads,
       (failedReads
          ++ [mkFailed (nth index filePaths EmptyString) (message err)])%list)
  | Rejected reason =>
      (successfulReads,
       (failedReads
          ++ [mkFailed (nth index filePaths EmptyString)
                (exnMessage reason)])%list)
  end.

Definition forEach (filePaths : list string)
  (results : list (Settled (Result Read.t)))
  : list (Result Read.t) * list failed :=
  fold_left (collect filePaths)
    (combine (seq 0 (List.length results)) results) ([], []).

End Multi.

Definition readMultipleTextFiles (env : Env) (this : This) (arg : PathsArg)
  : Result Multi.t :=
  tryCatch env
    (match arg with
     | NotAnArray => throwError "filePaths must be an array"
     | PathArray filePaths =>
         fulfilled <- Multi.promises env this filePaths ;;
         let results := Multi.allSettled fulfilled in
         let '(successfulReads, failedReads) :=
           Multi.forEach filePaths results in
         ret (Multi.mk successfulReads failedReads
                (List.length filePaths)
                (List.length successfulReads)
                (List.length failedReads)
                (now env))
     end).

(** ** ManifestUpdater *)

(** ManifestUpdater.extractTitle and ManifestUpdater.generateFileInfo are,
    statement for statement, [extractTitle] and [generateFileInfo] above. *)

(** isStoryFile(fileName, firstLine, content): the same administrative words,
    looked for in the file name, and at least two non-blank lines. *)
Definition isStoryFile (fileName firstLine content : string) : bool :=
  let fileNameLower := toLowerCase fileName in
  if includes fileNameLower "readme"
     || includes fileNameLower "manifest"
     || includes fileNameLower "license"
     || includes fileNameLower "changelog"
     || includes fileNameLower "contributing"
  then false
  else
    let lines :=
      filter (fun line => 0 <? String.length (trim line))
             (splitChar newline content) in
    if List.length lines <? 2 then false else true.

(** ** Sample environments *)

Module Fixture.

Definition clock : string := "2025-01-01T00:00:00.000Z".

Definition notJson : Exn := mkExn "SyntaxError" "Unexpected token".

(** A 200 response with a text body. *)
Definition textResponse (body : string) : Response :=
  mkResponse true 200 "OK" (inr body) (inl notJson) None.

(** A 200 response whose body parses to [m]. *)
Definition manifestResponse (m : Manifest) : Response :=
  mkResponse true 200 "OK" (inr "") (inr m) None.

Definition notFound : Response :=
  mkResponse false 404 "Not Found" (inr "") (inl notJson) None.

Definition alpha : Entry.t := Entry.mk "./src/StoryTxt/alpha.txt" "Alpha" "".
Definition beta : Entry.t := Entry.mk "./src/StoryTxt/beta.txt" "Beta" "".
Definition gamma : Entry.t := Entry.mk "./src/StoryTxt/gamma.txt" "Gamma" "".
Definition readme : Entry.t := Entry.mk "./docs/README.txt" "README File" "".

Definition alphaText : string :=
  "The Long Night" ++ String newline "It was dark.".
Definition gammaText : string :=
  "once upon a time" ++ String newline "the end".

(** A server whose manifest lists [entries]; alpha.txt and gamma.txt are
    there, every other location answers 404. *)
Definition server (entries : list Entry.t) : Env :=
  mkEnv
    (fun url =>
       if String.eqb url "./src/StoryTxt/file-manifest.json"
       then inr (manifestResponse (mkManifest (Some entries)))
       else if String.eqb url "./src/StoryTxt/alpha.txt"
       then inr (textResponse alphaText)
       else if String.eqb url "./src/StoryTxt/gamma.txt"
       then inr (textResponse gammaText)
       else inr notFound)
    clock.

(** No manifest, but example.txt is there. *)
Definition bare : Env :=
  mkEnv
    (fun url =>
       if String.eqb url "./src/StoryTxt/example.txt"
       then inr (textResponse ("Example" ++ String newline "text"))
       else inr notFound)
    clock.

(** No network: every fetch rejects. *)
Definition offline : Env :=
  mkEnv (fun _ => inl (mkExn "TypeError" "Failed to fetch")) clock.

End Fixture.

(** * Properties *)

(** ** The primitives on small inputs *)

Example split_runs_inner : splitRuns isNameSep "a--b_ c" = ["a"; "b"; "c"].
Proof. reflexivity. Qed.

Example split_runs_edges : splitRuns isNameSep "-a-" = [""; "a"; ""].
Proof. reflexivity. Qed.

Example split_runs_empty : splitRuns isNameSep "" = [""].
Proof. reflexivity. Qed.

Example split_char_lines :
  splitChar newline (String "a" (String newline (String newline "b")))
  = ["a"; ""; "b"].
Proof. reflexivity. Qed.

Example trim_both_sides : trim "  a b  " = "a b".
Proof. reflexivity. Qed.

Example words_of_blank : wordsOf "   " = [].
Proof. reflexivity. Qed.

Example words_of_text : wordsOf " one  two three " = ["one"; "two"; "three"].
Proof. reflexivity. Qed.

Example title_case_word : titleCaseWord "sTORY" = "Story".
Proof. reflexivity. Qed.

Example file_name_of_path :
  removeFirst ".txt" (pop (splitChar "/" "./src/StoryTxt/my-story.txt"))
  = "my-story".
Proof. reflexivity. Qed.

Example number_to_string : numberToString 0 = "0" /\ numberToString 51 = "51".
Proof. split; reflexivity. Qed.

Example blurb_of_text :
  generateFileInfo (String "a" (String newline "b c")) "f"
  = "Short story with 2 lines (3 words)".
Proof. reflexivity. Qed.

(** ** Substrings, prefixes and suffixes *)

(** [sub] occurs in [s]. *)
Definition Contains (s sub : string) : Prop :=
  exists pre post, s = pre ++ sub ++ post.

(** [s] ends with [suf]. *)
Definition EndsWith (s suf : string) : Prop :=
  exists pre, s = pre ++ suf.

(** Every character of [s] satisfies [p]. *)
Fixpoint allChars (p : ascii -> bool) (s : string) : bool :=
  match s with
  | EmptyString => true
  | String c r => p c && allChars p r
  end.

Section StringFacts.

Lemma append_nil_r (s : string) : s ++ "" = s.
Proof. induction s; simpl; congruence. Qed.

Lemma append_assoc (a b c : string) : (a ++ b) ++ c = a ++ b ++ c.
Proof. induction a; simpl; congruence. Qed.

Lemma length_append (a b : string) :
  String.length (a ++ b) = String.length a + String.length b.
Proof. induction a; simpl; congruence. Qed.

Lemma startsWith_iff (s p : string) :
  startsWith s p = true <-> exists post, s = p ++ post.
Proof.
  revert s; induction p as [|a p IH]; intros s; simpl.
  - split; [intros _; now exists s | reflexivity].
  - destruct s as [|b s].
    + split; [discriminate | intros [post H]; discriminate].
    + rewrite andb_true_iff, Ascii.eqb_eq, IH. split.
      * intros [-> [post ->]]. now exists post.
      * intros [post H]. injection H as -> ->.
        split; [reflexivity | now exists post].
Qed.

Lemma includes_iff (s sub : string) :
  includes s sub = true <-> Contains s sub.
Proof.
  unfold Contains. induction s as [|c s IH].
  - simpl. rewrite orb_false_r, startsWith_iff. split.
    + intros [post H]. now exists "", post.
    + intros [pre [post H]]. destruct pre; [now exists post | discriminate].
  - cbn [includes]. rewrite orb_true_iff, IH, startsWith_iff. split.
    + intros [[post H] | [pre [post H]]].
      * now exists "", post.
      * exists (String c pre), post. simpl. now rewrite H.
    + intros [pre [post H]]. destruct pre as [|d pre].
      * left. now exists post.
      * right. simpl in H. injection H as _ H. now exists pre, post.
Qed.

Lemma includes_false_iff (s sub : string) :
  includes s sub = false <-> ~ Contains s sub.
Proof.
  rewrite <- includes_iff. destruct (includes s sub); split; congruence.
Qed.

Lemma endsWith_iff (s suf : string) :
  endsWith s suf = true <-> EndsWith s suf.
Proof.
  unfold EndsWith. induction s as [|c s IH].
  - simpl. rewrite orb_false_r. split.
    + destruct suf; [now exists "" | discriminate].
    + intros [pre H]. destruct pre; simpl in H; [now subst | discriminate].
  - cbn [endsWith]. rewrite orb_true_iff, IH, String.eqb_eq. split.
    + intros [<- | [pre ->]]; [now exists "" | now exists (String c pre)].
    + intros [pre H]. destruct pre as [|d pre]; simpl in H.
      * now left.
      * right. injection H as _ ->. now exists pre.
Qed.

Lemma endsWith_false_iff (s suf : string) :
  endsWith s suf = false <-> ~ EndsWith s suf.
Proof.
  rewrite <- endsWith_iff. destruct (endsWith s suf); split; congruence.
Qed.

Lemma truthy_iff (s : string) : truthy s = true <-> s <> "".
Proof. destruct s; simpl; split; congruence. Qed.

Lemma allChars_append (p : ascii -> bool) (a b : string) :
  allChars p (a ++ b) = allChars p a && allChars p b.
Proof.
  induction a as [|c a IH]; simpl; [reflexivity|].
  now rewrite IH, andb_assoc.
Qed.

End StringFacts.

(** ** Splitting on runs of separators *)

(** [t] has no separator; [run] has only separators; [rest] does not begin
    with one. *)
Definition noSep (sep : ascii -> bool) (t : string) : Prop :=
  allChars (fun c => negb (sep c)) t = true.

Definition allSep (sep : ascii -> bool) (run : string) : Prop :=
  allChars sep run = true.

Definition headNotSep (sep : ascii -> bool) (rest : string) : Prop :=
  match rest with
  | EmptyString => True
  | String c _ => sep c = false
  end.

(** [Pieces sep s ps]: [s] is [p0 run1 p1 ... runN pN] where the pieces [ps]
    hold no separator and every run is a non-empty, maximal run of
    separators. *)
Inductive Pieces (sep : ascii -> bool) : string -> list string -> Prop :=
| Pieces_last (t : string) :
    noSep sep t -> Pieces sep t [t]
| Pieces_cut (t run rest : string) (ps : list string) :
    noSep sep t -> run <> "" -> allSep sep run -> headNotSep sep rest ->
    Pieces sep rest ps ->
    Pieces sep (t ++ run ++ rest) (t :: ps).

(** The leading run of separators and what follows it. *)
Fixpoint leadingRun (sep : ascii -> bool) (s : string) : string :=
  match s with
  | EmptyString => EmptyString
  | String c r => if sep c then String c (leadingRun sep r) else EmptyString
  end.

Fixpoint afterRun (sep : ascii -> bool) (s : string) : string :=
  match s with
  | EmptyString => EmptyString
  | String c r => if sep c then afterRun sep r else s
  end.

Section SplitRuns.

Variable sep : ascii -> bool.

Lemma leadingRun_afterRun (s : string) :
  s = leadingRun sep s ++ afterRun sep s.
Proof.
  induction s as [|c s IH]; simpl; [reflexivity|].
  destruct (sep c); simpl; congruence.
Qed.

Lemma leadingRun_allSep (s : string) : allSep sep (leadingRun sep s).
Proof.
  unfold allSep. induction s as [|c s IH]; simpl; [reflexivity|].
  destruct (sep c) eqn:E; simpl; [now rewrite E|reflexivity].
Qed.

Lemma afterRun_headNotSep (s : string) : headNotSep sep (afterRun sep s).
Proof.
  induction s as [|c s IH]; simpl; [exact I|].
  destruct (sep c) eqn:E; simpl; assumption.
Qed.

Lemma Pieces_consHead (c : ascii) (s : string) (ps : list string) :
  sep c = false -> Pieces sep s ps -> Pieces sep (String c s) (consHead c ps).
Proof.
  intros Hc H.
  destruct H as [t Ht | t run rest ps Ht Hne Hrun Hrest Hps]; simpl.
  - apply Pieces_last. unfold noSep in *. simpl. now rewrite Hc.
  - change (String c (t ++ run ++ rest)) with (String c t ++ run ++ rest).
    apply Pieces_cut; try assumption.
    unfold noSep in *. simpl. now rewrite Hc.
Qed.

(** The split yields the pieces, whether or not a run is being skipped. *)
Lemma splitRunsFrom_Pieces (s : string) :
  Pieces sep s (splitRunsFrom sep false s)
  /\ Pieces sep (afterRun sep s) (splitRunsFrom sep true s).
Proof.
  induction s as [|c s [IH1 IH2]]; simpl.
  - split; apply Pieces_last; reflexivity.
  - destruct (sep c) eqn:E.
    + split; [|assumption].
      replace (String c s)
        with ("" ++ String c (leadingRun sep s) ++ afterRun sep s)
        by (simpl; now rewrite <- leadingRun_afterRun).
      apply Pieces_cut.
      * reflexivity.
      * discriminate.
      * unfold allSep. simpl. rewrite E. apply leadingRun_allSep.
      * apply afterRun_headNotSep.
      * assumption.
    + split; now apply Pieces_consHead.
Qed.

Lemma splitRuns_Pieces (s : string) : Pieces sep s (splitRuns sep s).
Proof. apply splitRunsFrom_Pieces. Qed.

(** A stretch of characters satisfying [p], followed by something that does
    not begin with such a character, is determined by the whole. *)
Lemma span_unique (p : ascii -> bool) (t1 t2 r1 r2 : string) :
  allChars p t1 = true -> allChars p t2 = true ->
  headNotSep p r1 -> headNotSep p r2 ->
  t1 ++ r1 = t2 ++ r2 -> t1 = t2 /\ r1 = r2.
Proof.
  revert t2. induction t1 as [|a t1 IH]; intros t2 H1 H2 S1 S2 E.
  - destruct t2 as [|b t2]; [now split|].
    simpl in *. subst r1. simpl in S1.
    apply andb_true_iff in H2 as [H2 _]. congruence.
  - destruct t2 as [|b t2].
    + simpl in *. subst r2. simpl in S2.
      apply andb_true_iff in H1 as [H1 _]. congruence.
    + simpl in *. injection E as -> E.
      apply andb_true_iff in H1 as [_ H1]. apply andb_true_iff in H2 as [_ H2].
      destruct (IH t2 H1 H2 S1 S2 E) as [-> ->]. now split.
Qed.

Lemma run_head (run rest : string) :
  run <> "" -> allSep sep run ->
  headNotSep (fun c => negb (sep c)) (run ++ rest).
Proof.
  intros Hne Hrun. destruct run as [|c run]; [congruence|].
  unfold allSep in Hrun. simpl in *.
  apply andb_true_iff in Hrun as [-> _]. reflexivity.
Qed.

(** The pieces of a string are unique. *)
Lemma Pieces_unique (s : string) (ps1 ps2 : list string) :
  Pieces sep s ps1 -> Pieces sep s ps2 -> ps1 = ps2.
Proof.
  intros H1. revert ps2.
  induction H1 as [t Ht | t run rest ps Ht Hne Hrun Hrest Hps IH];
    intros ps2 H2;
    inversion H2
      as [t' Ht' | t' run' rest' ps' Ht' Hne' Hrun' Hrest' Hps' E];
    subst.
  - reflexivity.
  - exfalso. unfold noSep in Ht. rewrite !allChars_append in Ht.
    apply andb_true_iff in Ht as [_ Ht]. apply andb_true_iff in Ht as [Ht _].
    destruct run' as [|c run']; [congruence|].
    unfold allSep in Hrun'. simpl in *.
    apply andb_true_iff in Hrun' as [Hc _]. rewrite Hc in Ht. discriminate.
  - exfalso. unfold noSep in Ht'. rewrite !allChars_append in Ht'.
    apply andb_true_iff in Ht' as [_ Ht'].
    apply andb_true_iff in Ht' as [Ht' _].
    destruct run as [|c run]; [congruence|].
    unfold allSep in Hrun. simpl in *.
    apply andb_true_iff in Hrun as [Hc _]. rewrite Hc in Ht'. discriminate.
  - destruct (span_unique (fun c => negb (sep c)) t' t
                (run' ++ rest') (run ++ rest))
      as [-> E']; try assumption; try (now apply run_head).
    destruct (span_unique sep run' run rest' rest) as [-> ->]; try assumption.
    f_equal. now apply IH.
Qed.

End SplitRuns.

(** ** extractTitle *)

(** The first character is one of A to Z. *)
Definition StartsUppercase (s : string) : Prop :=
  exists c rest, s = String c rest /\ 65 <= code c <= 90.

(** The first line is taken as the title: it is not empty, shorter than 100
    characters, starts with an uppercase letter, and holds neither "http" nor
    "www". *)
Definition LooksLikeTitle (firstLine : string) : Prop :=
  firstLine <> ""
  /\ String.length firstLine < 100
  /\ StartsUppercase firstLine
  /\ ~ Contains firstLine "http"
  /\ ~ Contains firstLine "www".

(** A token with its first character in upper case and the rest in lower
    case. *)
Definition titleCased (token : string) : string :=
  match token with
  | EmptyString => EmptyString
  | String c rest => String (upperChar c) (toLowerCase rest)
  end.

(** The condition of the [if] in extractTitle. *)
Definition titleGuard (firstLine : string) : bool :=
  truthy firstLine
  && (String.length firstLine <? 100)
  && (0 <? String.length firstLine)
  && testLeadingCapital firstLine
  && negb (includes firstLine "http")
  && negb (includes firstLine "www").

Lemma testLeadingCapital_iff (s : string) :
  testLeadingCapital s = true <-> StartsUppercase s.
Proof.
  unfold StartsUppercase. destruct s as [|c r]; simpl.
  - split; [discriminate | intros [c [r [H _]]]; discriminate].
  - unfold isUpperAZ, between.
    rewrite andb_true_iff, !Nat.leb_le. split.
    + intros H. now exists c, r.
    + intros [c' [r' [H1 H2]]]. now injection H1 as -> ->.
Qed.

Lemma titleGuard_iff (firstLine : string) :
  titleGuard firstLine = true <-> LooksLikeTitle firstLine.
Proof.
  unfold titleGuard, LooksLikeTitle.
  rewrite !andb_true_iff, !negb_true_iff, !includes_false_iff,
    truthy_iff, testLeadingCapital_iff, !Nat.ltb_lt.
  split.
  - intros [[[[[H1 H2] H3] H4] H5] H6]. now repeat split.
  - intros [H1 [H2 [H3 [H4 H5]]]]. repeat split; try assumption.
    destruct firstLine; [congruence | simpl; lia].
Qed.

Lemma titleCaseWord_titleCased (word : string) :
  titleCaseWord word = titleCased word.
Proof. destruct word; reflexivity. Qed.

Lemma extractTitle_unfold (firstLine fileName : string) :
  extractTitle firstLine fileName =
  if titleGuard firstLine then firstLine
  else join " " (map titleCaseWord (splitRuns isNameSep fileName)).
Proof. reflexivity. Qed.

(** An uppercase letter: A to Z or, the characters above 127 being read as
    Latin-1, one of the accented capitals (192 to 214 and 216 to 222). *)
Definition IsUppercaseLetter (c : ascii) : Prop :=
  65 <= code c <= 90 \/ 192 <= code c <= 214 \/ 216 <= code c <= 222.

(** The condition of C1 as it is worded: any uppercase letter will do. *)
Definition WordedAsTitle (firstLine : string) : Prop :=
  firstLine <> ""
  /\ String.length firstLine < 100
  /\ (exists c rest, firstLine = String c rest /\ IsUppercaseLetter c)
  /\ ~ Contains firstLine "http"
  /\ ~ Contains firstLine "www".

(** The first line "Elan vital" with an accented capital E (code 201). *)
Definition elanVital : string := String "201" "lan vital".

(** C1, as worded, fails for a first line that starts with an uppercase
    letter outside A to Z: the line meets every condition of the claim, but
    /^[A-Z]/ does not match it and extractTitle returns the title made from
    the file name. *)
Lemma accented_capital_is_not_a_title :
  WordedAsTitle elanVital
  /\ extractTitle elanVital "ch1" = "Ch1"
  /\ extractTitle elanVital "ch1" <> elanVital.
Proof.
  split; [|split].
  - unfold WordedAsTitle. split; [discriminate|]. split; [vm_compute; lia|].
    split.
    + exists "201"%char, "lan vital". split; [reflexivity|].
      right. left. vm_compute. lia.
    + split; apply includes_false_iff; reflexivity.
  - reflexivity.
  - discriminate.
Qed.

(** C1 (amended). extractTitle returns the first line verbatim when it is
    non-empty, shorter than 100 characters, starts with one of the letters A
    to Z and holds neither "http" nor "www"; otherwise it returns the pieces of the file
    name between its runs of hyphens, underscores and white space, each with
    its first character in upper case and the rest in lower case, joined by
    single spaces (the empty string for the empty file name).  The two
    examples of the specification hold. *)
Theorem extractTitle_spec (firstLine fileName : string) :
  (LooksLikeTitle firstLine -> extractTitle firstLine fileName = firstLine)
  /\ (~ LooksLikeTitle firstLine ->
      forall pieces, Pieces isNameSep fileName pieces ->
        extractTitle firstLine fileName = join " " (map titleCased pieces))
  /\ (exists pieces, Pieces isNameSep fileName pieces)
  /\ (~ LooksLikeTitle firstLine -> extractTitle firstLine "" = "")
  /\ extractTitle "The Long Night" "ch1" = "The Long Night"
  /\ extractTitle "http://x" "my-story" = "My Story".
Proof.
  rewrite <- titleGuard_iff, !extractTitle_unfold.
  destruct (titleGuard firstLine) eqn:G.
  - repeat split; try congruence.
    exists (splitRuns isNameSep fileName). apply splitRuns_Pieces.
  - split; [discriminate|]. split.
    + intros _ pieces Hp.
      rewrite (Pieces_unique isNameSep fileName pieces _ Hp
                 (splitRuns_Pieces isNameSep fileName)).
      f_equal. apply map_ext. exact titleCaseWord_titleCased.
    + split; [|repeat split].
      exists (splitRuns isNameSep fileName). apply splitRuns_Pieces.
Qed.

(** The specification's examples, through [extractTitle_spec]: the first line
    "The Long Night" is a title, "http://x" is not and the file name
    "my-story" has the pieces "my" and "story". *)
Lemma extractTitle_spec_witness :
  extractTitle "The Long Night" "ch1" = "The Long Night"
  /\ extractTitle "http://x" "my-story"
     = join " " (map titleCased ["my"; "story"]).
Proof.
  split.
  - destruct (extractTitle_spec "The Long Night" "ch1") as [Hthen _].
    apply Hthen. apply titleGuard_iff. reflexivity.
  - destruct (extractTitle_spec "http://x" "my-story") as [_ [Helse _]].
    apply Helse.
    + intros H. apply titleGuard_iff in H. discriminate H.
    + apply (Pieces_cut isNameSep "my" "-" "story" ["story"]).
      * reflexivity.
      * discriminate.
      * reflexivity.
      * reflexivity.
      * apply Pieces_last. reflexivity.
Defined.

(** ** generateFileInfo *)

(** The number of occurrences of the character [d] in [s]. *)
Fixpoint occurrences (d : ascii) (s : string) : nat :=
  match s with
  | EmptyString => 0
  | String c r => (if Ascii.eqb c d then 1 else 0) + occurrences d r
  end.

(** The number of newline-separated lines of a text: one more than its
    newlines. *)
Definition lineTotal (content : string) : nat :=
  S (occurrences newline content).

(** [d] is ten characters: four digits, a hyphen, two digits, a hyphen, two
    digits. *)
Definition IsDate (d : string) : Prop :=
  exists y1 y2 y3 y4 m1 m2 d1 d2,
    d = String y1 (String y2 (String y3 (String y4 (String "-"
          (String m1 (String m2 (String "-" (String d1 (String d2 "")))))))))
    /\ isDigit y1 = true /\ isDigit y2 = true /\ isDigit y3 = true
    /\ isDigit y4 = true /\ isDigit m1 = true /\ isDigit m2 = true
    /\ isDigit d1 = true /\ isDigit d2 = true.

(** A date occurs in [content]. *)
Definition HasDate (content : string) : Prop :=
  exists pre d post, IsDate d /\ content = pre ++ d ++ post.

(** The start of the blurb: the length bucket. *)
Definition lengthBucket (content : string) : string :=
  let lines := linesOf content in
  if List.length lines <=? 1 then "Single line text file"
  else if List.length lines <=? 10 then
    "Short story with " ++ numberToString (List.length lines) ++ " lines"
  else if List.length lines <=? 50 then
    "Medium story with " ++ numberToString (List.length lines) ++ " lines"
  else
    "Long story with " ++ numberToString (List.length lines) ++ " lines".

(** The blurb before the hints: the bucket and the word count. *)
Definition blurbBase (content : string) : string :=
  lengthBucket content
  ++ " (" ++ numberToString (List.length (wordsOf content)) ++ " words)".

Definition hintIf (detected : bool) (hint : string) : string :=
  if detected then hint else "".

Lemma generateFileInfo_shape (content fileName : string) :
  generateFileInfo content fileName =
  blurbBase content
  ++ hintIf (includes content "http" || includes content "www")
       " - Contains links"
  ++ hintIf (includes content "@") " - Contains email addresses"
  ++ hintIf (matchesDate content) " - Contains dates".
Proof.
  unfold generateFileInfo, blurbBase, lengthBucket, hintIf. cbv zeta.
  destruct (includes content "http" || includes content "www");
    destruct (includes content "@"); destruct (matchesDate content);
    rewrite ?append_assoc, ?append_nil_r; cbn [append]; reflexivity.
Qed.

Lemma splitChar_length (d : ascii) (s : string) :
  List.length (splitChar d s) = S (occurrences d s).
Proof.
  induction s as [|c s IH]; simpl; [reflexivity|].
  destruct (Ascii.eqb c d); simpl.
  - now rewrite IH.
  - destruct (splitChar d s); simpl in *; [discriminate | assumption].
Qed.

Lemma linesOf_length (content : string) :
  List.length (linesOf content) = lineTotal content.
Proof. apply splitChar_length. Qed.

Lemma wordsOf_pieces (content : string) (pieces : list string) :
  Pieces isSpace (trim content) pieces ->
  wordsOf content = filter (fun word => 0 <? String.length word) pieces.
Proof.
  intros H. unfold wordsOf.
  now rewrite (Pieces_unique isSpace _ _ _ H (splitRuns_Pieces isSpace _)).
Qed.

Lemma lengthBucket_cases (content : string) :
  let n := lineTotal content in
  (n <= 1 -> lengthBucket content = "Single line text file")
  /\ (2 <= n <= 10 ->
      lengthBucket content
      = "Short story with " ++ numberToString n ++ " lines")
  /\ (11 <= n <= 50 ->
      lengthBucket content
      = "Medium story with " ++ numberToString n ++ " lines")
  /\ (51 <= n ->
      lengthBucket content
      = "Long story with " ++ numberToString n ++ " lines").
Proof.
  cbv zeta. unfold lengthBucket. cbv zeta. rewrite linesOf_length.
  destruct (lineTotal content <=? 1) eqn:E1;
    [apply Nat.leb_le in E1 | apply Nat.leb_gt in E1];
    [repeat split; intros; solve [reflexivity | lia]|].
  destruct (lineTotal content <=? 10) eqn:E2;
    [apply Nat.leb_le in E2 | apply Nat.leb_gt in E2];
    [repeat split; intros; solve [reflexivity | lia]|].
  destruct (lineTotal content <=? 50) eqn:E3;
    [apply Nat.leb_le in E3 | apply Nat.leb_gt in E3];
    repeat split; intros; solve [reflexivity | lia].
Qed.

(** C2. The blurb of generateFileInfo begins with the length bucket of the
    text, decided by its number of newline-separated lines at the thresholds
    1, 10 and 50, and right after the bucket comes " (W words)", W being the
    number of non-empty pieces of the trimmed text between its runs of white
    space. *)
Theorem generateFileInfo_buckets (content fileName : string) :
  let n := lineTotal content in
  let W := List.length (wordsOf content) in
  exists bucket hints,
    generateFileInfo content fileName
    = bucket ++ " (" ++ numberToString W ++ " words)" ++ hints
    /\ 1 <= n
    /\ (n <= 1 -> bucket = "Single line text file")
    /\ (2 <= n <= 10 ->
        bucket = "Short story with " ++ numberToString n ++ " lines")
    /\ (11 <= n <= 50 ->
        bucket = "Medium story with " ++ numberToString n ++ " lines")
    /\ (51 <= n ->
        bucket = "Long story with " ++ numberToString n ++ " lines")
    /\ (forall pieces, Pieces isSpace (trim content) pieces ->
        W = List.length (filter (fun t => negb (String.eqb t "")) pieces)).
Proof.
  cbv zeta.
  exists (lengthBucket content).
  exists (hintIf (includes content "http" || includes content "www")
            " - Contains links"
          ++ hintIf (includes content "@") " - Contains email addresses"
          ++ hintIf (matchesDate content) " - Contains dates").
  destruct (lengthBucket_cases content) as (B1 & B2 & B3 & B4).
  split.
  { rewrite generateFileInfo_shape. unfold blurbBase.
    now rewrite !append_assoc. }
  split; [unfold lineTotal; lia|].
  repeat split; try assumption.
  intros pieces Hp. rewrite (wordsOf_pieces content pieces Hp).
  f_equal. apply filter_ext. intros [|c t]; reflexivity.
Qed.

(** A two-line text falls in the "Short" bucket and a one-line text in the
    "Single line" bucket, by [generateFileInfo_buckets]. *)
Lemma generateFileInfo_buckets_witness :
  (exists hints,
     generateFileInfo (String "a" (String newline "b c")) "f"
     = "Short story with 2 lines" ++ " (3 words)" ++ hints)
  /\ (exists hints,
        generateFileInfo "one two" "f"
        = "Single line text file" ++ " (2 words)" ++ hints).
Proof.
  split.
  - destruct (generateFileInfo_buckets (String "a" (String newline "b c")) "f")
      as (bucket & hints & E & _ & _ & Short & _).
    exists hints. rewrite E, Short; [reflexivity | vm_compute; lia].
  - destruct (generateFileInfo_buckets "one two" "f")
      as (bucket & hints & E & _ & Single & _).
    exists hints. rewrite E, Single; [reflexivity | vm_compute; lia].
Defined.

(** A text of [n] newlines, that is of [n + 1] empty lines. *)
Fixpoint blankLines (n : nat) : string :=
  match n with
  | O => EmptyString
  | S k => String newline (blankLines k)
  end.

Example bucket_of_1_line :
  generateFileInfo (blankLines 0) "f" = "Single line text file (0 words)".
Proof. reflexivity. Qed.

Example bucket_of_10_lines :
  generateFileInfo (blankLines 9) "f" = "Short story with 10 lines (0 words)".
Proof. reflexivity. Qed.

Example bucket_of_11_lines :
  generateFileInfo (blankLines 10) "f" = "Medium story with 11 lines (0 words)".
Proof. reflexivity. Qed.

Example bucket_of_50_lines :
  generateFileInfo (blankLines 49) "f" = "Medium story with 50 lines (0 words)".
Proof. reflexivity. Qed.

Example bucket_of_51_lines :
  generateFileInfo (blankLines 50) "f" = "Long story with 51 lines (0 words)".
Proof. reflexivity. Qed.

Lemma dateAt_iff (s : string) :
  dateAt s = true <-> exists d post, IsDate d /\ s = d ++ post.
Proof.
  split.
  - intros H.
    do 10 (destruct s as [|? s]; [discriminate H|]).
    cbn [dateAt] in H.
    do 9 (apply andb_true_iff in H as [H ?]).
    repeat match goal with E : Ascii.eqb _ _ = true |- _ =>
      apply Ascii.eqb_eq in E; subst end.
    match goal with
    | |- exists d post, _ /\ String ?y1 (String ?y2 (String ?y3 (String ?y4
           (String ?h1 (String ?m1 (String ?m2 (String ?h2 (String ?d1
           (String ?d2 ?r))))))))) = _ =>
        exists (String y1 (String y2 (String y3 (String y4 (String h1
                 (String m1 (String m2 (String h2 (String d1
                 (String d2 "")))))))))), r
    end.
    split; [|reflexivity].
    unfold IsDate. do 8 eexists. split; [reflexivity|]. now repeat split.
  - intros (d & post & (y1 & y2 & y3 & y4 & m1 & m2 & d1 & d2 & -> & H) & ->).
    cbn [append dateAt].
    destruct H as (-> & -> & -> & -> & -> & -> & -> & ->).
    now rewrite !Ascii.eqb_refl.
Qed.

Lemma matchesDate_iff (s : string) : matchesDate s = true <-> HasDate s.
Proof.
  unfold HasDate. induction s as [|c s IH].
  - simpl. split; [discriminate|].
    intros (pre & d & post & (y1 & ? & ? & ? & ? & ? & ? & ? & -> & _) & E).
    destruct pre; discriminate E.
  - cbn [matchesDate]. rewrite orb_true_iff, IH, dateAt_iff. split.
    + intros [(d & post & Hd & E) | (pre & d & post & Hd & E)].
      * now exists "", d, post.
      * exists (String c pre), d, post. split; [assumption|].
        simpl. now rewrite E.
    + intros (pre & d & post & Hd & E). destruct pre as [|a pre].
      * left. now exists d, post.
      * right. injection E as _ E. now exists pre, d, post.
Qed.

Lemma matchesDate_false_iff (s : string) :
  matchesDate s = false <-> ~ HasDate s.
Proof.
  rewrite <- matchesDate_iff. destruct (matchesDate s); split; congruence.
Qed.

(** C3. After the bucket and the word count, generateFileInfo appends the
    links hint exactly when the text holds "http" or "www", then the email
    hint exactly when it holds "@", then the dates hint exactly when a date
    of the form dddd-dd-dd occurs in it: each decided on its own, always in
    that order.  A text that triggers all three ends with the three hints in
    that order. *)
Theorem generateFileInfo_hints (content fileName : string) :
  exists links email dates,
    generateFileInfo content fileName
    = blurbBase content ++ links ++ email ++ dates
    /\ (Contains content "http" \/ Contains content "www" ->
        links = " - Contains links")
    /\ (~ (Contains content "http" \/ Contains content "www") -> links = "")
    /\ (Contains content "@" -> email = " - Contains email addresses")
    /\ (~ Contains content "@" -> email = "")
    /\ (HasDate content -> dates = " - Contains dates")
    /\ (~ HasDate content -> dates = "")
    /\ ((Contains content "http" \/ Contains content "www") ->
        Contains content "@" -> HasDate content ->
        generateFileInfo content fileName
        = blurbBase content ++ " - Contains links"
          ++ " - Contains email addresses" ++ " - Contains dates").
Proof.
  rewrite generateFileInfo_shape.
  exists (hintIf (includes content "http" || includes content "www")
            " - Contains links").
  exists (hintIf (includes content "@") " - Contains email addresses").
  exists (hintIf (matchesDate content) " - Contains dates").
  pose proof (includes_iff content "http") as Ihttp.
  pose proof (includes_iff content "www") as Iwww.
  pose proof (includes_iff content "@") as Iat.
  pose proof (matchesDate_iff content) as Idate.
  destruct (includes content "http"); destruct (includes content "www");
    destruct (includes content "@"); destruct (matchesDate content);
    cbn [orb hintIf]; repeat split; intros; try reflexivity;
    exfalso; intuition congruence.
Qed.

(** A text with a link, an address and a date: the three hints follow the
    base in order, by [generateFileInfo_hints]. *)
Lemma generateFileInfo_hints_witness :
  generateFileInfo "see http://a.b or c@d.e on 2024-01-01" "notes"
  = "Single line text file (6 words)"
    ++ " - Contains links" ++ " - Contains email addresses"
    ++ " - Contains dates".
Proof.
  destruct (generateFileInfo_hints
              "see http://a.b or c@d.e on 2024-01-01" "notes")
    as (links & email & dates & _ & _ & _ & _ & _ & _ & _ & All).
  rewrite All.
  - reflexivity.
  - left. apply includes_iff. reflexivity.
  - apply includes_iff. reflexivity.
  - apply matchesDate_iff. reflexivity.
Defined.

(** ** The manifest stage: getTextFilesFromFolder and scanTextFiles *)

(** The manifest of the folder was fetched and parsed. *)
Definition ManifestReachable (env : Env) (folderPath : string)
  (manifest : Manifest) : Prop :=
  exists response,
    fetch env (folderPath ++ "file-manifest.json") = inr response
    /\ ok response = true
    /\ json response = inr manifest.

(** The fetch of the manifest threw, or its response is not ok. *)
Definition ManifestUnavailable (env : Env) (folderPath : string) : Prop :=
  (exists e, fetch env (folderPath ++ "file-manifest.json") = inl e)
  \/ (exists response,
        fetch env (folderPath ++ "file-manifest.json") = inr response
        /\ ok response = false).

(** The path, compared without regard to case, holds one of the
    administrative words. *)
Definition Administrative (p : string) : Prop :=
  Contains (toLowerCase p) "readme"
  \/ Contains (toLowerCase p) "manifest"
  \/ Contains (toLowerCase p) "license"
  \/ Contains (toLowerCase p) "changelog"
  \/ Contains (toLowerCase p) "contributing".

(** The path ends with ".txt", compared without regard to case. *)
Definition TextPath (p : string) : Prop :=
  EndsWith (toLowerCase p) ".txt".

Lemma isStoryEntry_iff (file : Entry.t) :
  isStoryEntry file = true
  <-> ~ Administrative (Entry.path file) /\ TextPath (Entry.path file).
Proof.
  unfold isStoryEntry, Administrative, TextPath. cbv zeta.
  rewrite !andb_true_iff, !negb_true_iff, !includes_false_iff, endsWith_iff.
  tauto.
Qed.

(** The offline tool applies the same exclusion, to the file name. *)
Lemma isStoryFile_administrative (fileName firstLine content : string) :
  Administrative fileName -> isStoryFile fileName firstLine content = false.
Proof.
  unfold Administrative, isStoryFile. rewrite <- !includes_iff. cbv zeta.
  intros [H | [H | [H | [H | H]]]]; rewrite H;
    now rewrite ?orb_true_r.
Qed.

Lemma storyFilesOf_In (manifest : Manifest) (entries : list Entry.t)
  (e : Entry.t) :
  textFiles manifest = Some entries ->
  (In e (storyFilesOf manifest)
   <-> In e entries
       /\ ~ Administrative (Entry.path e) /\ TextPath (Entry.path e)).
Proof.
  intros H. unfold storyFilesOf. rewrite H, filter_In, isStoryEntry_iff.
  reflexivity.
Qed.

Lemma getTextFiles_reachable (env : Env) (folderPath : string)
  (manifest : Manifest) :
  ManifestReachable env folderPath manifest ->
  getTextFilesFromFolder env folderPath =
  match storyFilesOf manifest with
  | [] => knownTextFiles folderPath
  | _ :: _ => storyFilesOf manifest
  end.
Proof.
  intros (response & Hf & Hok & Hj).
  unfold getTextFilesFromFolder, manifestAttempt.
  rewrite Hf. cbn [bind]. rewrite Hok, Hj. cbn [bind ret].
  destruct (storyFilesOf manifest); reflexivity.
Qed.

Lemma getTextFiles_unavailable (env : Env) (folderPath : string) :
  ManifestUnavailable env folderPath ->
  getTextFilesFromFolder env folderPath = knownTextFiles folderPath.
Proof.
  unfold getTextFilesFromFolder, manifestAttempt.
  intros [[e Hf] | (response & Hf & Hok)]; rewrite Hf; cbn [bind].
  - reflexivity.
  - rewrite Hok. reflexivity.
Qed.

(** Whatever the network does, an entry of the result either passed the
    filter or is the built-in entry. *)
Lemma getTextFiles_In (env : Env) (folderPath : string) (e : Entry.t) :
  In e (getTextFilesFromFolder env folderPath) ->
  isStoryEntry e = true \/ In e (knownTextFiles folderPath).
Proof.
  unfold getTextFilesFromFolder, manifestAttempt.
  destruct (fetch env (folderPath ++ "file-manifest.json")) as [x|response];
    cbn [bind]; [now right|].
  destruct (ok response); [|now right].
  destruct (json response) as [x|manifest]; cbn [bind ret]; [now right|].
  destruct (0 <? List.length (storyFilesOf manifest)); [|now right].
  intros H. left. unfold storyFilesOf in H.
  destruct (textFiles manifest); [|contradiction].
  now apply filter_In in H.
Qed.

Lemma scanTextFiles_success (env : Env) (folderPath : string) :
  folderPath <> "" ->
  scanTextFiles env folderPath =
  Success (Scan.mk (normalizePath folderPath)
             (List.length
                (getTextFilesFromFolder env (normalizePath folderPath)))
             (getTextFilesFromFolder env (normalizePath folderPath))
             (now env) "folder-scan" "browser").
Proof.
  intros H. unfold scanTextFiles.
  destruct folderPath; [congruence | reflexivity].
Qed.

Lemma scanTextFiles_files (env : Env) (folderPath : string) (data : Scan.t) :
  scanTextFiles env folderPath = Success data ->
  Scan.files data = getTextFilesFromFolder env (normalizePath folderPath).
Proof.
  destruct folderPath as [|c r]; [discriminate|].
  rewrite scanTextFiles_success by discriminate.
  intros H. injection H as <-. reflexivity.
Qed.

Lemma known_path_not_readme (folderPath : string) (e : Entry.t) :
  In e (knownTextFiles folderPath) -> Entry.path e <> "./docs/README.txt".
Proof.
  intros [<- | []]. cbn [Entry.path]. intros E.
  assert (H : EndsWith "./docs/README.txt" "example.txt")
    by (exists folderPath; now rewrite E).
  apply endsWith_iff in H. discriminate H.
Qed.

Lemma listed_path_not_readme (env : Env) (folderPath : string) (e : Entry.t) :
  In e (getTextFilesFromFolder env folderPath) ->
  Entry.path e <> "./docs/README.txt".
Proof.
  intros H. apply getTextFiles_In in H as [H | H].
  - intros E. unfold isStoryEntry in H. rewrite E in H. discriminate H.
  - now apply known_path_not_readme with folderPath.
Qed.

(** ** getFileInfo and the listing of the Stories page *)

(** The record getFileInfo builds from a path and the fetched text. *)
Definition docOf (env : Env) (filePath content : string) : Doc.t :=
  let lines := linesOf content in
  let firstLine := trim (hd EmptyString lines) in
  let fileName := removeFirst ".txt" (pop (splitChar "/" filePath)) in
  Doc.mk filePath (extractTitle firstLine fileName)
    (generateFileInfo content fileName) fileName
    (String.length content) (List.length lines)
    (List.length (wordsOf content)) (String.length content)
    firstLine content (now env).

(** The text behind a path: the fetch resolves, the response is ok and its
    body can be read. *)
Definition Fetched (env : Env) (filePath content : string) : Prop :=
  exists response,
    fetch env filePath = inr response
    /\ ok response = true
    /\ text response = inr content.

Lemma getFileInfo_success_iff (env : Env) (filePath : string) (d : Doc.t) :
  getFileInfo env filePath = Success d
  <-> filePath <> "" /\ TextPath filePath
      /\ exists content, Fetched env filePath content
                         /\ d = docOf env filePath content.
Proof.
  unfold getFileInfo, TextPath, Fetched.
  destruct filePath as [|c p]; cbn [truthy negb].
  { split; [discriminate | intros [H _]; congruence]. }
  rewrite <- endsWith_iff.
  destruct (endsWith (toLowerCase (String c p)) ".txt"); cbn [negb].
  2: { split; [discriminate | intros (_ & H & _); discriminate]. }
  destruct (fetch env (String c p)) as [e|response]; cbn [bind].
  { split; [discriminate|]. intros (_ & _ & content & (r & H & _) & _).
    discriminate. }
  destruct (ok response) eqn:Hok; cbn [negb].
  2: { split; [discriminate|]. intros (_ & _ & content & (r & H & Hr & _) & _).
       injection H as <-. congruence. }
  destruct (text response) as [e|content] eqn:Ht; cbn [bind ret tryCatch].
  { split; [discriminate|]. intros (_ & _ & content & (r & H & _ & Hr) & _).
    injection H as <-. congruence. }
  split.
  - intros H. injection H as <-. repeat split; try discriminate.
    exists content. split; [now exists response | reflexivity].
  - intros (_ & _ & content' & (r & H & _ & Hr) & ->).
    injection H as <-. rewrite Ht in Hr. injection Hr as <-. reflexivity.
Qed.

Lemma getFileInfo_path (env : Env) (filePath : string) (d : Doc.t) :
  getFileInfo env filePath = Success d -> Doc.path d = filePath.
Proof.
  intros H. apply getFileInfo_success_iff in H as (_ & _ & c & _ & ->).
  reflexivity.
Qed.

Lemma notNull_map_In (env : Env) (files : list Entry.t) (d : Doc.t) :
  In d (Stories.notNull (map (Stories.detail env) files))
  <-> exists e, In e files /\ getFileInfo env (Entry.path e) = Success d.
Proof.
  induction files as [|f files IH]; simpl.
  - split; [contradiction | intros (e & [] & _)].
  - unfold Stories.detail at 1.
    destruct (getFileInfo env (Entry.path f)) as [d'|err] eqn:G.
    + simpl. rewrite IH. split.
      * intros [<- | (e & He & Hd)]; [now exists f; auto | exists e; auto].
      * intros (e & [<- | He] & Hd); [left; congruence | right; now exists e].
    + rewrite IH. split.
      * intros (e & He & Hd). exists e; auto.
      * intros (e & [<- | He] & Hd); [congruence | now exists e].
Qed.

Lemma normalizePath_storyFolder :
  normalizePath Stories.storyFolder = Stories.storyFolder.
Proof. reflexivity. Qed.

(** The page always ends with the records of the listed entries whose
    getFileInfo succeeded, no error, and loading switched off. *)
Lemma loadStories_eq (env : Env) (st : Stories.state) :
  Stories.loadStories env st =
  Stories.mk
    (Stories.notNull
       (map (Stories.detail env)
          (getTextFilesFromFolder env Stories.storyFolder)))
    false None.
Proof.
  unfold Stories.loadStories. cbv zeta.
  rewrite scanTextFiles_success by discriminate.
  rewrite normalizePath_storyFolder. reflexivity.
Qed.

(** C4. With a reachable manifest, the entries kept by the filter are exactly
    the manifest entries whose path, compared without case, holds none of
    "readme", "manifest", "license", "changelog", "contributing" and ends
    with ".txt"; the result of getTextFilesFromFolder is that list (or the
    built-in list when nothing is kept), so every entry of the result is
    such an entry or the built-in one.  No entry with the path
    "./docs/README.txt" is ever in the result of getTextFilesFromFolder, of
    scanTextFiles or among the stories of the page, and every story of the
    page has a path without administrative word that ends with ".txt". *)
Theorem admin_entries_dropped (env : Env) (folderPath : string)
  (manifest : Manifest) (entries : list Entry.t) :
  ManifestReachable env folderPath manifest ->
  textFiles manifest = Some entries ->
  (forall e, In e entries ->
     Administrative (Entry.path e) \/ ~ TextPath (Entry.path e) ->
     ~ In e (storyFilesOf manifest))
  /\ (forall e, In e (storyFilesOf manifest) ->
        In e entries
        /\ ~ Administrative (Entry.path e) /\ TextPath (Entry.path e))
  /\ (storyFilesOf manifest <> [] ->
      getTextFilesFromFolder env folderPath = storyFilesOf manifest)
  /\ (storyFilesOf manifest = [] ->
      getTextFilesFromFolder env folderPath = knownTextFiles folderPath)
  /\ (forall e, In e (getTextFilesFromFolder env folderPath) ->
        Entry.path e <> "./docs/README.txt")
  /\ (forall anyFolder data e,
        scanTextFiles env anyFolder = Success data ->
        In e (Scan.files data) -> Entry.path e <> "./docs/README.txt")
  /\ (forall st d,
        In d (Stories.stories (Stories.loadStories env st)) ->
        Doc.path d <> "./docs/README.txt")
  /\ (forall e, In e (getTextFilesFromFolder env folderPath) ->
        (~ Administrative (Entry.path e) /\ TextPath (Entry.path e))
        \/ In e (knownTextFiles folderPath))
  /\ (forall st d,
        In d (Stories.stories (Stories.loadStories env st)) ->
        ~ Administrative (Doc.path d) /\ TextPath (Doc.path d)).
Proof.
  intros Hreach Hentries.
  pose proof (getTextFiles_reachable env folderPath manifest Hreach) as Hout.
  assert (Hstory : forall d st,
            In d (Stories.stories (Stories.loadStories env st)) ->
            exists e, In e (getTextFilesFromFolder env Stories.storyFolder)
                      /\ Doc.path d = Entry.path e).
  { intros d st. rewrite loadStories_eq. cbn [Stories.stories].
    rewrite notNull_map_In. intros (e & He & Hd). exists e.
    split; [exact He | now apply getFileInfo_path with env]. }
  split.
  { intros e _ Hbad Hin.
    apply (storyFilesOf_In manifest entries e Hentries) in Hin. tauto. }
  split.
  { intros e. now apply storyFilesOf_In. }
  split.
  { intros Hne. rewrite Hout. destruct (storyFilesOf manifest); congruence. }
  split.
  { intros Hnil. rewrite Hout, Hnil. reflexivity. }
  split.
  { intros e. apply listed_path_not_readme. }
  split.
  { intros anyFolder data e Hscan Hin.
    rewrite (scanTextFiles_files env anyFolder data Hscan) in Hin.
    now apply listed_path_not_readme in Hin. }
  split.
  { intros st d Hd. destruct (Hstory d st Hd) as (e & He & ->).
    now apply listed_path_not_readme in He. }
  split.
  { intros e He. apply getTextFiles_In in He as [He | He]; [left | now right].
    now apply isStoryEntry_iff. }
  intros st d Hd. destruct (Hstory d st Hd) as (e & He & ->).
  apply isStoryEntry_iff.
  apply getTextFiles_In in He as [He | [<- | []]]; [exact He | reflexivity].
Qed.

(** A manifest that lists alpha.txt, README.txt and gamma.txt: the listing
    is alpha.txt and gamma.txt, by [admin_entries_dropped]. *)
Lemma admin_entries_dropped_witness :
  getTextFilesFromFolder
    (Fixture.server [Fixture.alpha; Fixture.readme; Fixture.gamma])
    Stories.storyFolder
  = [Fixture.alpha; Fixture.gamma].
Proof.
  destruct (admin_entries_dropped
              (Fixture.server [Fixture.alpha; Fixture.readme; Fixture.gamma])
              Stories.storyFolder
              (mkManifest (Some [Fixture.alpha; Fixture.readme; Fixture.gamma]))
              [Fixture.alpha; Fixture.readme; Fixture.gamma])
    as (_ & _ & Kept & _).
  - eexists. split; [reflexivity|]. split; reflexivity.
  - reflexivity.
  - rewrite Kept; [reflexivity | discriminate].
Defined.

(** C9. getTextFilesFromFolder never returns the empty list, whatever the
    network does.  When the manifest is reachable and every entry of it is
    removed by the filter (or it has no textFiles), the result is the
    built-in list: the single example.txt entry. *)
Theorem getTextFiles_never_empty (env : Env) (folderPath : string) :
  getTextFilesFromFolder env folderPath <> []
  /\ (forall manifest,
        ManifestReachable env folderPath manifest ->
        (forall entries e,
           textFiles manifest = Some entries -> In e entries ->
           Administrative (Entry.path e) \/ ~ TextPath (Entry.path e)) ->
        getTextFilesFromFolder env folderPath = knownTextFiles folderPath)
  /\ (exists e, knownTextFiles folderPath = [e]
                /\ Entry.path e = folderPath ++ "example.txt").
Proof.
  split; [|split].
  - unfold getTextFilesFromFolder, manifestAttempt.
    destruct (fetch env (folderPath ++ "file-manifest.json")) as [x|response];
      cbn [bind]; [discriminate|].
    destruct (ok response); [|discriminate].
    destruct (json response) as [x|manifest]; cbn [bind ret]; [discriminate|].
    destruct (storyFilesOf manifest) eqn:E; simpl; discriminate.
  - intros manifest Hreach Hall.
    rewrite (getTextFiles_reachable env folderPath manifest Hreach).
    destruct (storyFilesOf manifest) as [|e l] eqn:E; [reflexivity|].
    exfalso. unfold storyFilesOf in E.
    destruct (textFiles manifest) as [entries|] eqn:T; [|discriminate].
    assert (Hin : In e (filter isStoryEntry entries)) by (rewrite E; now left).
    apply filter_In in Hin as [Hin Hkeep].
    apply isStoryEntry_iff in Hkeep.
    destruct (Hall entries e eq_refl Hin); tauto.
  - eexists. split; reflexivity.
Qed.

(** A manifest that lists only README.txt: the result is the built-in
    entry, by [getTextFiles_never_empty]. *)
Lemma getTextFiles_never_empty_witness :
  getTextFilesFromFolder (Fixture.server [Fixture.readme]) Stories.storyFolder
  = knownTextFiles Stories.storyFolder.
Proof.
  destruct (getTextFiles_never_empty
              (Fixture.server [Fixture.readme]) Stories.storyFolder)
    as (_ & Fallback & _).
  apply (Fallback (mkManifest (Some [Fixture.readme]))).
  - eexists. split; [reflexivity|]. split; reflexivity.
  - intros entries e T Hin. injection T as <-.
    destruct Hin as [<- | []]. left. left.
    apply includes_iff. reflexivity.
Defined.

(** ** The fallback entry and its file name *)

Lemma splitChar_without (d : ascii) (t : string) :
  occurrences d t = 0 -> splitChar d t = [t].
Proof.
  induction t as [|c t IH]; simpl; [reflexivity|].
  destruct (Ascii.eqb c d); [discriminate|].
  intros H. now rewrite IH.
Qed.

Lemma last_cons_nonempty (x : string) (l : list string) :
  l <> [] -> List.last (x :: l) "" = List.last l "".
Proof. destruct l; [congruence | reflexivity]. Qed.

(** The last piece of a path is what follows its last slash. *)
Lemma pop_splitChar_append (d : ascii) (pre t : string) :
  occurrences d t = 0 ->
  pop (splitChar d (pre ++ String d t)) = t.
Proof.
  intros Ht. unfold pop. induction pre as [|c pre IH]; simpl.
  - rewrite Ascii.eqb_refl, (splitChar_without d t Ht). reflexivity.
  - pose proof (splitChar_length d (pre ++ String d t)) as L.
    destruct (Ascii.eqb c d).
    + rewrite last_cons_nonempty; [exact IH|].
      intros E. rewrite E in L. discriminate L.
    + destruct (splitChar d (pre ++ String d t)) as [|p [|q ps]] eqn:E.
      * discriminate L.
      * exfalso. simpl in L. injection L as L.
        assert (H : occurrences d (pre ++ String d t) >= 1).
        { clear. induction pre as [|a pre IH]; simpl.
          - rewrite Ascii.eqb_refl. lia.
          - lia. }
        lia.
      * exact IH.
Qed.

Lemma normalizePath_slash (folderPath : string) :
  exists pre, normalizePath folderPath = pre ++ "/".
Proof.
  unfold normalizePath.
  destruct (endsWith folderPath "/") eqn:E.
  - apply endsWith_iff in E. exact E.
  - now exists folderPath.
Qed.

Lemma fallback_fileName (env : Env) (folderPath : string) (d : Doc.t) :
  getFileInfo env (normalizePath folderPath ++ "example.txt") = Success d ->
  Doc.fileName d = "example".
Proof.
  intros H. apply getFileInfo_success_iff in H as (_ & _ & c & _ & ->).
  unfold docOf. cbn [Doc.fileName].
  destruct (normalizePath_slash folderPath) as [pre ->].
  rewrite append_assoc.
  change ("/" ++ "example.txt") with (String "/" "example.txt").
  rewrite pop_splitChar_append by reflexivity. reflexivity.
Qed.

(** C6. When the manifest of the (normalised) folder cannot be had -- its
    fetch throws or the response is not ok -- the list of entries falls back
    to exactly one entry, the built-in one, whose path is the folder followed
    by "example.txt"; the record getFileInfo makes of it has the file name
    "example".  scanTextFiles succeeds with that one entry, and on the
    Stories page this leaves at most one story, named "example". *)
Theorem fallback_when_manifest_unavailable (env : Env) (folderPath : string) :
  ManifestUnavailable env (normalizePath folderPath) ->
  let fallback :=
    Entry.mk (normalizePath folderPath ++ "example.txt") "Example Text File"
      "Sample text file for testing the TextFileReaderService" in
  getTextFilesFromFolder env (normalizePath folderPath) = [fallback]
  /\ EndsWith (Entry.path fallback) "example.txt"
  /\ (forall d, getFileInfo env (Entry.path fallback) = Success d ->
        Doc.fileName d = "example")
  /\ (folderPath <> "" ->
      exists data,
        scanTextFiles env folderPath = Success data
        /\ Scan.files data = [fallback]
        /\ Scan.totalFiles data = 1)
  /\ (folderPath = Stories.storyFolder ->
      forall st,
        List.length (Stories.stories (Stories.loadStories env st)) <= 1
        /\ forall d, In d (Stories.stories (Stories.loadStories env st)) ->
                     Doc.fileName d = "example").
Proof.
  intros Hun. cbv zeta. cbn [Entry.path].
  pose proof (getTextFiles_unavailable env _ Hun) as Hfall.
  split; [exact Hfall|]. split; [now exists (normalizePath folderPath)|].
  split; [intros d; apply fallback_fileName|]. split.
  - intros Hne. rewrite (scanTextFiles_success env folderPath Hne), Hfall.
    eexists. split; [reflexivity|]. split; reflexivity.
  - intros -> st. rewrite loadStories_eq. cbn [Stories.stories].
    rewrite normalizePath_storyFolder in Hfall. rewrite Hfall.
    cbn [knownTextFiles map Stories.notNull].
    unfold Stories.detail. cbn [Entry.path].
    destruct (getFileInfo env (Stories.storyFolder ++ "example.txt"))
      as [d'|err] eqn:G; cbn [Stories.notNull List.length In].
    + split; [lia|]. intros d [<- | []].
      rewrite <- normalizePath_storyFolder in G.
      now apply fallback_fileName in G.
    + split; [lia | contradiction].
Qed.

(** Without a manifest but with example.txt in place, the scan lists the
    built-in entry and the page shows one story named "example", by
    [fallback_when_manifest_unavailable]. *)
Lemma fallback_when_manifest_unavailable_witness :
  (exists data,
     scanTextFiles Fixture.bare "./src/StoryTxt" = Success data
     /\ Scan.files data =
        [Entry.mk "./src/StoryTxt/example.txt" "Example Text File"
           "Sample text file for testing the TextFileReaderService"])
  /\ map Doc.fileName
       (Stories.stories (Stories.loadStories Fixture.bare Stories.initial))
     = ["example"].
Proof.
  split.
  - destruct (fallback_when_manifest_unavailable Fixture.bare "./src/StoryTxt")
      as (_ & _ & _ & Hscan & _).
    + right. eexists. split; reflexivity.
    + destruct Hscan as (data & Hdata & Hfiles & _); [discriminate|].
      exists data. split; [exact Hdata | exact Hfiles].
  - destruct (fallback_when_manifest_unavailable
                Fixture.bare Stories.storyFolder)
      as (_ & _ & _ & _ & Hpage).
    + right. eexists. split; reflexivity.
    + destruct (Hpage eq_refl Stories.initial) as [_ Hname].
      assert (Hl : Stories.stories
                     (Stories.loadStories Fixture.bare Stories.initial)
                   = [docOf Fixture.bare "./src/StoryTxt/example.txt"
                        ("Example" ++ String newline "text")])
        by reflexivity.
      rewrite Hl in Hname |- *. cbn [map].
      rewrite (Hname _ (or_introl eq_refl)). reflexivity.
Defined.

(** ** Partial success of the listing *)

Lemma TextPath_nonempty (p : string) : TextPath p -> p <> "".
Proof.
  intros [pre H] ->. simpl in H. destruct pre; discriminate H.
Qed.

Lemma getFileInfo_fetched (env : Env) (filePath content : string) :
  TextPath filePath -> Fetched env filePath content ->
  getFileInfo env filePath = Success (docOf env filePath content).
Proof.
  intros Ht Hf. apply getFileInfo_success_iff.
  split; [now apply TextPath_nonempty|]. split; [assumption|].
  now exists content.
Qed.

Lemma getFileInfo_not_fetched (env : Env) (filePath : string) :
  (forall content, ~ Fetched env filePath content) ->
  success (getFileInfo env filePath) = false.
Proof.
  intros H. destruct (getFileInfo env filePath) as [d|err] eqn:G;
    [|reflexivity].
  apply getFileInfo_success_iff in G as (_ & _ & c & Hc & _).
  now apply H in Hc.
Qed.

Lemma notNull_paths (env : Env) (files : list Entry.t) :
  map Doc.path (Stories.notNull (map (Stories.detail env) files))
  = filter (fun p => success (getFileInfo env p)) (map Entry.path files).
Proof.
  induction files as [|f files IH]; simpl; [reflexivity|].
  unfold Stories.detail at 1.
  destruct (getFileInfo env (Entry.path f)) as [d|err] eqn:G; simpl.
  - now rewrite IH, (getFileInfo_path env _ d G).
  - exact IH.
Qed.

(** C5. The listing of the Stories page never fails as a whole because an
    entry cannot be fetched: the scan succeeds, the page ends with no error,
    and its stories are the
    records of exactly those listed entries whose own getFileInfo succeeds,
    in the order of the list.  With three retained manifest entries of which
    the second cannot be fetched, the stories are the records of the first
    and the third, in that order. *)
Theorem listing_partial_success (env : Env) (st : Stories.state) :
  let files := getTextFilesFromFolder env Stories.storyFolder in
  let st' := Stories.loadStories env st in
  success (scanTextFiles env Stories.storyFolder) = true
  /\ Stories.error st' = None
  /\ Stories.loading st' = false
  /\ map Doc.path (Stories.stories st')
     = filter (fun p => success (getFileInfo env p)) (map Entry.path files)
  /\ (forall d, In d (Stories.stories st') <->
        exists e, In e files /\ getFileInfo env (Entry.path e) = Success d)
  /\ (forall manifest e1 e2 e3 c1 c3,
        ManifestReachable env Stories.storyFolder manifest ->
        textFiles manifest = Some [e1; e2; e3] ->
        (forall e, In e [e1; e2; e3] ->
           ~ Administrative (Entry.path e) /\ TextPath (Entry.path e)) ->
        Fetched env (Entry.path e1) c1 ->
        (forall c2, ~ Fetched env (Entry.path e2) c2) ->
        Fetched env (Entry.path e3) c3 ->
        Stories.stories st'
        = [docOf env (Entry.path e1) c1; docOf env (Entry.path e3) c3]).
Proof.
  cbv zeta. rewrite loadStories_eq. cbn [Stories.error Stories.loading
                                          Stories.stories].
  split; [now rewrite scanTextFiles_success by discriminate|].
  split; [reflexivity|]. split; [reflexivity|].
  split; [apply notNull_paths|]. split; [intros d; apply notNull_map_In|].
  intros manifest e1 e2 e3 c1 c3 Hreach Hentries Hkeep F1 F2 F3.
  rewrite (getTextFiles_reachable env _ manifest Hreach).
  assert (Hstory : storyFilesOf manifest = [e1; e2; e3]).
  { unfold storyFilesOf. rewrite Hentries. cbn [filter].
    assert (K : forall e, In e [e1; e2; e3] -> isStoryEntry e = true)
      by (intros e He; apply isStoryEntry_iff; now apply Hkeep).
    rewrite (K e1), (K e2), (K e3) by (simpl; tauto). reflexivity. }
  rewrite Hstory. cbn [map Stories.notNull]. unfold Stories.detail.
  rewrite (getFileInfo_fetched env (Entry.path e1) c1),
    (getFileInfo_fetched env (Entry.path e3) c3);
    try assumption; try (apply Hkeep; simpl; tauto).
  pose proof (getFileInfo_not_fetched env (Entry.path e2) F2) as N2.
  destruct (getFileInfo env (Entry.path e2)); [discriminate N2 | reflexivity].
Qed.

(** The manifest lists alpha.txt, beta.txt and gamma.txt and beta.txt answers
    404: the page shows alpha and gamma, by [listing_partial_success]. *)
Lemma listing_partial_success_witness :
  Stories.stories
    (Stories.loadStories
       (Fixture.server [Fixture.alpha; Fixture.beta; Fixture.gamma])
       Stories.initial)
  = [docOf (Fixture.server [Fixture.alpha; Fixture.beta; Fixture.gamma])
       "./src/StoryTxt/alpha.txt" Fixture.alphaText;
     docOf (Fixture.server [Fixture.alpha; Fixture.beta; Fixture.gamma])
       "./src/StoryTxt/gamma.txt" Fixture.gammaText]
  /\ Stories.error
       (Stories.loadStories
          (Fixture.server [Fixture.alpha; Fixture.beta; Fixture.gamma])
          Stories.initial) = None.
Proof.
  destruct (listing_partial_success
              (Fixture.server [Fixture.alpha; Fixture.beta; Fixture.gamma])
              Stories.initial) as (_ & Herr & _ & _ & _ & Three).
  split; [|exact Herr].
  apply (Three (mkManifest (Some [Fixture.alpha; Fixture.beta; Fixture.gamma]))
           Fixture.alpha Fixture.beta Fixture.gamma).
  - eexists. split; [reflexivity|]. split; reflexivity.
  - reflexivity.
  - intros e He. apply isStoryEntry_iff.
    destruct He as [<- | [<- | [<- | []]]]; reflexivity.
  - eexists. split; [reflexivity|]. split; reflexivity.
  - intros c2 (response & Hf & Hok & _). injection Hf as <-. discriminate Hok.
  - eexists. split; [reflexivity|]. split; reflexivity.
Defined.

(** ** Failures of getFileInfo *)

(** The failure the extension check ends in: InvalidExtension. *)
Definition IsInvalidExtension {A : Type} (env : Env) (r : Result A) : Prop :=
  r = Failure (mkErrorInfo "File must have .txt extension" "Error" (now env)).

(** The failure the path check ends in: InvalidInput. *)
Definition IsInvalidInput {A : Type} (env : Env) (r : Result A) : Prop :=
  r = Failure (mkErrorInfo "Invalid file path provided" "Error" (now env)).

(** C7, as stated, fails at the empty path: it does not end with ".txt", and
    getFileInfo answers with the invalid-path failure, not with the
    extension failure. *)
Lemma empty_path_is_invalid_input :
  ~ TextPath ""
  /\ IsInvalidInput Fixture.offline (getFileInfo Fixture.offline "")
  /\ ~ IsInvalidExtension Fixture.offline (getFileInfo Fixture.offline "").
Proof.
  split; [|split].
  - intros H. now apply TextPath_nonempty in H.
  - reflexivity.
  - intros H. discriminate H.
Qed.

(** C7 (amended). For a path that does not end with ".txt" (compared without
    case) getFileInfo never succeeds and lets no exception out: it returns a
    failure carrying a message, the type "Error" and the time stamp.  For a
    non-empty path it is the extension failure (InvalidExtension); for the
    empty path it is the invalid-path failure. *)
Theorem invalid_extension_failure (env : Env) (filePath : string) :
  ~ TextPath filePath ->
  success (getFileInfo env filePath) = false
  /\ (exists msg,
        getFileInfo env filePath
        = Failure (mkErrorInfo msg "Error" (now env)))
  /\ (filePath <> "" -> IsInvalidExtension env (getFileInfo env filePath))
  /\ (filePath = "" -> IsInvalidInput env (getFileInfo env filePath)).
Proof.
  intros Hext. unfold TextPath in Hext. apply endsWith_false_iff in Hext.
  unfold IsInvalidExtension, IsInvalidInput, getFileInfo.
  destruct filePath as [|c p]; cbn [truthy negb].
  - repeat split; try congruence. now eexists.
  - rewrite Hext. cbn [negb throwError tryCatch exnMessage exnName success].
    repeat split; try congruence. now eexists.
Qed.

(** getFileInfo("notes.md") fails with the extension failure, by
    [invalid_extension_failure]. *)
Lemma invalid_extension_failure_witness :
  getFileInfo Fixture.offline "notes.md"
  = Failure (mkErrorInfo "File must have .txt extension" "Error"
               Fixture.clock).
Proof.
  destruct (invalid_extension_failure Fixture.offline "notes.md")
    as (_ & _ & Hext & _).
  - intros H. apply endsWith_iff in H. discriminate H.
  - apply Hext. discriminate.
Defined.

(** ** Invariants of the records *)

(** The text of [s] before its first [d]. *)
Fixpoint upTo (d : ascii) (s : string) : string :=
  match s with
  | EmptyString => EmptyString
  | String c r => if Ascii.eqb c d then EmptyString else String c (upTo d r)
  end.

Lemma hd_splitChar (d : ascii) (s : string) :
  hd EmptyString (splitChar d s) = upTo d s.
Proof.
  induction s as [|c s IH]; simpl; [reflexivity|].
  destruct (Ascii.eqb c d); [reflexivity|].
  rewrite <- IH. pose proof (splitChar_length d s) as L.
  destruct (splitChar d s); [discriminate L | reflexivity].
Qed.

Lemma readTextFile_success_inv (env : Env) (filePath : string) (r : Read.t) :
  readTextFile env filePath = Success r ->
  exists response content,
    fetch env filePath = inr response /\ ok response = true
    /\ text response = inr content
    /\ r = Read.mk content filePath (pop (splitChar "/" filePath))
             (String.length content) (List.length (linesOf content))
             (List.length (wordsOf content)) (String.length content)
             (now env) "UTF-8" "text/plain"
             (orNull (lastModifiedHeader response)).
Proof.
  unfold readTextFile.
  destruct filePath as [|c p]; cbn [truthy negb]; [discriminate|].
  destruct (endsWith (toLowerCase (String c p)) ".txt"); cbn [negb];
    [|discriminate].
  destruct (fetch env (String c p)) as [e|response]; cbn [bind];
    [discriminate|].
  destruct (ok response) eqn:Hok; cbn [negb]; [|discriminate].
  destruct (text response) as [e|content] eqn:Ht; cbn [bind ret tryCatch];
    [discriminate|].
  intros H. injection H as <-. now exists response, content.
Qed.

Lemma readTextFile_fetched (env : Env) (filePath content : string) :
  TextPath filePath -> Fetched env filePath content ->
  exists r, readTextFile env filePath = Success r /\ Read.content r = content.
Proof.
  intros Ht (response & Hf & Hok & Htext).
  pose proof (TextPath_nonempty _ Ht) as Hne.
  apply endsWith_iff in Ht. unfold readTextFile.
  destruct filePath as [|c p]; [congruence|]. cbn [truthy negb].
  rewrite Ht, Hf. cbn [negb bind]. rewrite Hok, Htext.
  cbn [negb bind ret tryCatch]. eexists. split; reflexivity.
Qed.

(** What a field of a record holds. *)
Inductive Value : Type :=
| VString (s : string)
| VNumber (n : nat).

(** result.data[key] for a successful getFileInfo; [None] is undefined. *)
Definition docField (d : Doc.t) (key : string) : option Value :=
  if String.eqb key "path" then Some (VString (Doc.path d))
  else if String.eqb key "title" then Some (VString (Doc.title d))
  else if String.eqb key "info" then Some (VString (Doc.info d))
  else if String.eqb key "fileName" then Some (VString (Doc.fileName d))
  else if String.eqb key "fileSize" then Some (VNumber (Doc.fileSize d))
  else if String.eqb key "lineCount" then Some (VNumber (Doc.lineCount d))
  else if String.eqb key "wordCount" then Some (VNumber (Doc.wordCount d))
  else if String.eqb key "characterCount"
  then Some (VNumber (Doc.characterCount d))
  else if String.eqb key "firstLine" then Some (VString (Doc.firstLine d))
  else if String.eqb key "content" then Some (VString (Doc.content d))
  else if String.eqb key "timestamp" then Some (VString (Doc.timestamp d))
  else None.

(** result.data[key] for a successful readTextFile: the object literal has
    the keys content, filePath, fileName, fileSize, lineCount, wordCount,
    characterCount and timestamp. *)
Definition readField (r : Read.t) (key : string) : option Value :=
  if String.eqb key "content" then Some (VString (Read.content r))
  else if String.eqb key "filePath" then Some (VString (Read.filePath r))
  else if String.eqb key "fileName" then Some (VString (Read.fileName r))
  else if String.eqb key "fileSize" then Some (VNumber (Read.fileSize r))
  else if String.eqb key "lineCount" then Some (VNumber (Read.lineCount r))
  else if String.eqb key "wordCount" then Some (VNumber (Read.wordCount r))
  else if String.eqb key "characterCount"
  then Some (VNumber (Read.characterCount r))
  else if String.eqb key "timestamp" then Some (VString (Read.timestamp r))
  else None.

(** C8, as stated, fails for readTextFile: the data of a successful read has
    no firstLine, so it is not the trimmed first line of the text, while the
    data of getFileInfo for the same file has it. *)
Lemma readTextFile_has_no_firstLine :
  exists r d,
    readTextFile (Fixture.server []) "./src/StoryTxt/alpha.txt" = Success r
    /\ getFileInfo (Fixture.server []) "./src/StoryTxt/alpha.txt" = Success d
    /\ docField d "firstLine"
       = Some (VString (trim (upTo newline Fixture.alphaText)))
    /\ readField r "firstLine" = None
    /\ readField r "firstLine"
       <> Some (VString (trim (upTo newline Fixture.alphaText))).
Proof.
  eexists. eexists. split; [reflexivity|]. split; [reflexivity|].
  split; [reflexivity|]. split; [reflexivity | discriminate].
Qed.

(** C8 (amended). Every record getFileInfo or readTextFile produces is the
    record of the text that was fetched for the path: its characterCount
    equals its fileSize, both are the length of that text, its lineCount is
    at least 1 (one more than the newlines of the text) and its wordCount is
    at least 0; the record of getFileInfo, the only one of the two with a
    firstLine, has the trimmed text before the first newline there.
    Whenever the text of a ".txt" path can be fetched, both produce a
    record. *)
Theorem record_invariants (env : Env) (filePath : string) :
  (forall d, getFileInfo env filePath = Success d ->
     exists content,
       Fetched env filePath content
       /\ Doc.content d = content
       /\ Doc.fileSize d = String.length content
       /\ Doc.characterCount d = Doc.fileSize d
       /\ Doc.lineCount d = lineTotal content
       /\ 1 <= Doc.lineCount d
       /\ 0 <= Doc.wordCount d
       /\ Doc.firstLine d = trim (upTo newline content))
  /\ (forall r, readTextFile env filePath = Success r ->
        exists content,
          Fetched env filePath content
          /\ Read.content r = content
          /\ Read.fileSize r = String.length content
          /\ Read.characterCount r = Read.fileSize r
          /\ Read.lineCount r = lineTotal content
          /\ 1 <= Read.lineCount r
          /\ 0 <= Read.wordCount r)
  /\ (forall content,
        TextPath filePath -> Fetched env filePath content ->
        (exists d, getFileInfo env filePath = Success d
                   /\ Doc.content d = content)
        /\ (exists r, readTextFile env filePath = Success r
                      /\ Read.content r = content)).
Proof.
  split; [|split].
  - intros d H. apply getFileInfo_success_iff in H as (_ & _ & c & Hc & ->).
    exists c. unfold docOf. cbn.
    rewrite linesOf_length. unfold linesOf. rewrite hd_splitChar.
    unfold lineTotal. repeat split; try assumption; try reflexivity; lia.
  - intros r H.
    apply readTextFile_success_inv in H as (response & c & Hf & Hok & Ht & ->).
    exists c. cbn. rewrite linesOf_length. unfold lineTotal.
    repeat split; try reflexivity; try lia. now exists response.
  - intros content Ht Hf. split.
    + exists (docOf env filePath content).
      split; [now apply getFileInfo_fetched | reflexivity].
    + now apply readTextFile_fetched.
Qed.

(** alpha.txt on the sample server: both services produce its record, with
    the text's 27 characters and 2 lines, by [record_invariants]. *)
Lemma record_invariants_witness :
  (exists d,
     getFileInfo (Fixture.server []) "./src/StoryTxt/alpha.txt" = Success d
     /\ Doc.content d = Fixture.alphaText)
  /\ (exists r,
        readTextFile (Fixture.server []) "./src/StoryTxt/alpha.txt" = Success r
        /\ Read.content r = Fixture.alphaText).
Proof.
  destruct (record_invariants (Fixture.server []) "./src/StoryTxt/alpha.txt")
    as (_ & _ & Produces).
  apply (Produces Fixture.alphaText).
  - apply endsWith_iff. reflexivity.
  - eexists. split; [reflexivity|]. split; reflexivity.
Defined.

(** ** readMultipleTextFiles *)

(** What one path adds to successfulReads and to failedReads. *)
Definition successOf (env : Env) (filePath : string)
  : list (Result Read.t) :=
  match readTextFile env filePath with
  | Success data => [Success data]
  | Failure _ => []
  end.

Definition failureOf (env : Env) (filePath : string) : list Multi.failed :=
  match readTextFile env filePath with
  | Success _ => []
  | Failure err => [Multi.mkFailed filePath (message err)]
  end.

(** The path a successful read was made for. *)
Definition readPath (r : Result Read.t) : string :=
  match r with
  | Success data => Read.filePath data
  | Failure _ => EmptyString
  end.

Section ReadMultiple.

Variable env : Env.

Lemma promises_of_class (filePaths : list string) :
  Multi.promises env ThisClass filePaths
  = inr (map (readTextFile env) filePaths).
Proof.
  unfold Multi.promises.
  induction filePaths as [|p l IH]; [reflexivity|].
  cbn [mapExc]. rewrite IH. reflexivity.
Qed.

Lemma promises_of_undefined (p : string) (rest : list string) :
  Multi.promises env ThisUndefined (p :: rest)
  = inl (undefinedMember "readTextFile").
Proof. reflexivity. Qed.

Lemma forEach_from (pre suf : list string)
  (acc : list (Result Read.t) * list Multi.failed) :
  fold_left (Multi.collect (pre ++ suf)%list)
    (combine (seq (List.length pre) (List.length suf))
       (Multi.allSettled (map (readTextFile env) suf))) acc
  = ((fst acc ++ flat_map (successOf env) suf)%list,
     (snd acc ++ flat_map (failureOf env) suf)%list).
Proof.
  revert pre acc. induction suf as [|p suf IH]; intros pre [ok bad].
  - simpl. now rewrite !app_nil_r.
  - cbn [List.length seq Multi.allSettled map combine fold_left flat_map].
    replace (pre ++ p :: suf)%list with ((pre ++ [p]) ++ suf)%list
      by now rewrite <- app_assoc.
    replace (S (List.length pre)) with (List.length (pre ++ [p])%list)
      by (rewrite length_app; simpl; lia).
    fold (Multi.allSettled (map (readTextFile env) suf)).
    assert (N : nth (List.length pre) ((pre ++ [p]) ++ suf)%list EmptyString
                = p).
    { rewrite <- app_assoc. simpl. apply nth_middle. }
    unfold Multi.collect at 2. unfold successOf at 1, failureOf at 1.
    destruct (readTextFile env p) as [d|err].
    + rewrite IH. cbn [fst snd]. now rewrite <- !app_assoc.
    + rewrite N, IH. cbn [fst snd]. now rewrite <- !app_assoc.
Qed.

Lemma forEach_eq (filePaths : list string) :
  Multi.forEach filePaths (Multi.allSettled (map (readTextFile env) filePaths))
  = (flat_map (successOf env) filePaths, flat_map (failureOf env) filePaths).
Proof.
  unfold Multi.forEach.
  replace (List.length (Multi.allSettled (map (readTextFile env) filePaths)))
    with (List.length filePaths)
    by (unfold Multi.allSettled; now rewrite !length_map).
  exact (forEach_from [] filePaths ([], [])).
Qed.

(** Called on the class, readMultipleTextFiles returns the partition of the
    paths. *)
Lemma readMultiple_of_class (filePaths : list string) :
  readMultipleTextFiles env ThisClass (PathArray filePaths)
  = Success
      (Multi.mk (flat_map (successOf env) filePaths)
         (flat_map (failureOf env) filePaths)
         (List.length filePaths)
         (List.length (flat_map (successOf env) filePaths))
         (List.length (flat_map (failureOf env) filePaths))
         (now env)).
Proof.
  unfold readMultipleTextFiles. rewrite promises_of_class.
  cbn [bind]. now rewrite forEach_eq.
Qed.

Lemma success_failure_lengths (filePaths : list string) :
  List.length (flat_map (successOf env) filePaths)
  + List.length (flat_map (failureOf env) filePaths)
  = List.length filePaths.
Proof.
  induction filePaths as [|p l IH]; [reflexivity|].
  cbn [flat_map]. rewrite !length_app. unfold successOf at 1, failureOf at 1.
  destruct (readTextFile env p); simpl; lia.
Qed.

Lemma successOf_filter (filePaths : list string) :
  flat_map (successOf env) filePaths
  = filter success (map (readTextFile env) filePaths).
Proof.
  induction filePaths as [|p l IH]; [reflexivity|].
  cbn [flat_map map filter]. unfold successOf at 1.
  destruct (readTextFile env p); simpl; now rewrite IH.
Qed.

Lemma readTextFile_path (p : string) (r : Read.t) :
  readTextFile env p = Success r -> Read.filePath r = p.
Proof.
  intros H. apply readTextFile_success_inv in H as (? & ? & _ & _ & _ & ->).
  reflexivity.
Qed.

Lemma successOf_paths (filePaths : list string) :
  map readPath (flat_map (successOf env) filePaths)
  = filter (fun p => success (readTextFile env p)) filePaths.
Proof.
  induction filePaths as [|p l IH]; [reflexivity|].
  cbn [flat_map filter]. unfold successOf at 1.
  destruct (readTextFile env p) as [d|err] eqn:R; simpl.
  - now rewrite IH, (readTextFile_path p d R).
  - exact IH.
Qed.

Lemma failureOf_paths (filePaths : list string) :
  map Multi.filePath (flat_map (failureOf env) filePaths)
  = filter (fun p => negb (success (readTextFile env p))) filePaths.
Proof.
  induction filePaths as [|p l IH]; [reflexivity|].
  cbn [flat_map filter]. unfold failureOf at 1.
  destruct (readTextFile env p) as [d|err]; simpl; now rewrite IH.
Qed.

End ReadMultiple.

(** C10.  Called on the class -- TextFileReaderService.readMultipleTextFiles
    (paths) -- the function does what the claim says: for an array of paths
    it returns a success, even when every read fails; totalFiles is the
    length of the array, successfulCount and failedCount are the lengths of
    the two lists and add up to totalFiles, successfulReads holds the
    successful reads and failedReads one record for each failed read, in the
    order of the array; and it fails exactly for an argument that is not an
    array.
    Called through the named export of the module, as the README calls it,
    [this] is undefined: for every non-empty array the first
    this.readTextFile throws a TypeError that the [catch] block turns into
    an overall failure, also when every file can be read.  Only the empty
    array still succeeds. *)
Theorem readMultiple_by_receiver (env : Env) (filePaths : list string) :
  (exists data,
     readMultipleTextFiles env ThisClass (PathArray filePaths) = Success data
     /\ Multi.totalFiles data = List.length filePaths
     /\ Multi.successfulCount data + Multi.failedCount data
        = Multi.totalFiles data
     /\ Multi.successfulCount data = List.length (Multi.successfulReads data)
     /\ Multi.failedCount data = List.length (Multi.failedReads data)
     /\ Multi.successfulReads data
        = filter success (map (readTextFile env) filePaths)
     /\ map readPath (Multi.successfulReads data)
        = filter (fun p => success (readTextFile env p)) filePaths
     /\ map Multi.filePath (Multi.failedReads data)
        = filter (fun p => negb (success (readTextFile env p))) filePaths)
  /\ ((forall p, In p filePaths -> success (readTextFile env p) = false) ->
      success (readMultipleTextFiles env ThisClass (PathArray filePaths))
      = true)
  /\ (forall arg,
        success (readMultipleTextFiles env ThisClass arg) = false
        <-> arg = NotAnArray)
  /\ (forall p rest,
        readMultipleTextFiles env ThisUndefined (PathArray (p :: rest))
        = Failure
            (mkErrorInfo
               "Cannot read properties of undefined (reading 'readTextFile')"
               "TypeError" (now env)))
  /\ readMultipleTextFiles env ThisUndefined (PathArray [])
     = Success (Multi.mk [] [] 0 0 0 (now env))
  /\ success
       (readTextFile (Fixture.server []) "./src/StoryTxt/alpha.txt") = true
  /\ readMultipleTextFiles (Fixture.server []) ThisUndefined
       (PathArray ["./src/StoryTxt/alpha.txt"])
     = Failure
         (mkErrorInfo
            "Cannot read properties of undefined (reading 'readTextFile')"
            "TypeError" Fixture.clock).
Proof.
  pose proof (readMultiple_of_class env filePaths) as E.
  split.
  { eexists. split; [exact E|]. cbn.
    split; [reflexivity|]. split; [apply success_failure_lengths|].
    split; [reflexivity|]. split; [reflexivity|].
    split; [apply successOf_filter|].
    split; [apply successOf_paths | apply failureOf_paths]. }
  split.
  { intros _. now rewrite E. }
  split.
  { intros [l|]; split; intros H; try congruence; try reflexivity.
    exfalso. rewrite readMultiple_of_class in H. discriminate H. }
  split.
  { intros p rest. reflexivity. }
  split; [reflexivity|]. split; reflexivity.
Qed.

(** Two paths that cannot be read (no network, and a wrong extension): on
    the class the overall result is still a success, by
    [readMultiple_by_receiver]. *)
Lemma readMultiple_by_receiver_witness :
  success
    (readMultipleTextFiles Fixture.offline ThisClass
       (PathArray ["a.txt"; "notes.md"]))
  = true.
Proof.
  destruct (readMultiple_by_receiver
              Fixture.offline ["a.txt"; "notes.md"]) as (_ & AllFail & _).
  apply AllFail. intros p [<- | [<- | []]]; reflexivity.
Defined.

(** * Further properties of the services *)

(** ** scanTextFiles: validation and the trailing slash *)

Lemma toLowerCase_append (a b : string) :
  toLowerCase (a ++ b) = toLowerCase a ++ toLowerCase b.
Proof.
  unfold toLowerCase. induction a as [|c a IH]; simpl; congruence.
Qed.

Lemma EndsWith_append (pre s suf : string) :
  EndsWith s suf -> EndsWith (pre ++ s) suf.
Proof.
  intros [q ->]. exists (pre ++ q). now rewrite append_assoc.
Qed.

Lemma known_TextPath (folderPath : string) (e : Entry.t) :
  In e (knownTextFiles folderPath) -> TextPath (Entry.path e).
Proof.
  intros [<- | []]. unfold TextPath. cbn [Entry.path].
  rewrite toLowerCase_append. apply EndsWith_append.
  apply endsWith_iff. reflexivity.
Qed.

Lemma listed_TextPath (env : Env) (folderPath : string) (e : Entry.t) :
  In e (getTextFilesFromFolder env folderPath) -> TextPath (Entry.path e).
Proof.
  intros H. apply getTextFiles_In in H as [H | H].
  - now apply isStoryEntry_iff in H.
  - now apply known_TextPath with folderPath.
Qed.

Lemma normalizePath_idempotent (folderPath : string) :
  normalizePath (normalizePath folderPath) = normalizePath folderPath.
Proof.
  destruct (normalizePath_slash folderPath) as [pre E].
  unfold normalizePath at 1.
  assert (H : endsWith (normalizePath folderPath) "/" = true)
    by (apply endsWith_iff; now exists pre).
  now rewrite H.
Qed.

Lemma normalizePath_nonempty (folderPath : string) :
  normalizePath folderPath <> "".
Proof.
  destruct (normalizePath_slash folderPath) as [pre ->].
  destruct pre; discriminate.
Qed.

(** X1. scanTextFiles fails exactly for the empty folder path, with the
    invalid-folder failure.  For every other path it succeeds whatever the
    network does: the folder it reports ends with a slash, totalFiles is the
    number of listed files and at least 1, every listed path ends with
    ".txt", and so getFileInfo on a listed entry can only fail on the
    network: it succeeds as soon as the text can be fetched. *)
Theorem scanTextFiles_total (env : Env) (folderPath : string) :
  (folderPath = "" ->
   scanTextFiles env folderPath
   = Failure (mkErrorInfo "Invalid folder path provided" "Error" (now env)))
  /\ (folderPath <> "" ->
      exists data,
        scanTextFiles env folderPath = Success data
        /\ EndsWith (Scan.folderPath data) "/"
        /\ Scan.totalFiles data = List.length (Scan.files data)
        /\ 1 <= Scan.totalFiles data
        /\ (forall e, In e (Scan.files data) -> TextPath (Entry.path e))
        /\ (forall e content,
              In e (Scan.files data) ->
              Fetched env (Entry.path e) content ->
              getFileInfo env (Entry.path e)
              = Success (docOf env (Entry.path e) content))).
Proof.
  split.
  - intros ->. reflexivity.
  - intros Hne. rewrite (scanTextFiles_success env folderPath Hne).
    eexists. split; [reflexivity|].
    cbn [Scan.folderPath Scan.totalFiles Scan.files].
    split; [apply normalizePath_slash|]. split; [reflexivity|].
    split.
    { destruct (getTextFilesFromFolder env (normalizePath folderPath)) eqn:E.
      - exfalso. revert E. unfold getTextFilesFromFolder, manifestAttempt.
        destruct (fetch env (normalizePath folderPath ++ "file-manifest.json"))
          as [x|response]; cbn [bind]; [discriminate|].
        destruct (ok response); [|discriminate].
        destruct (json response) as [x|manifest]; cbn [bind ret];
          [discriminate|].
        destruct (storyFilesOf manifest); simpl; discriminate.
      - simpl. lia. }
    split.
    { intros e. apply listed_TextPath. }
    intros e content He Hc. apply getFileInfo_fetched; [|exact Hc].
    now apply listed_TextPath in He.
Qed.

(** On the sample server the scan of "./src/StoryTxt" succeeds, by
    [scanTextFiles_total]. *)
Lemma scanTextFiles_total_witness :
  exists data,
    scanTextFiles (Fixture.server [Fixture.alpha]) "./src/StoryTxt"
    = Success data
    /\ Scan.totalFiles data = List.length (Scan.files data).
Proof.
  destruct (scanTextFiles_total (Fixture.server [Fixture.alpha])
              "./src/StoryTxt") as [_ Hok].
  destruct Hok as (data & Hd & _ & Hn & _); [discriminate|].
  exists data. split; [exact Hd | exact Hn].
Defined.

(** X2. A missing trailing slash makes no difference: scanning a non-empty
    folder path and scanning its normalised form give the same result, and
    normalising twice changes nothing more. *)
Theorem scanTextFiles_trailing_slash (env : Env) (folderPath : string) :
  folderPath <> "" ->
  scanTextFiles env (normalizePath folderPath) = scanTextFiles env folderPath
  /\ (endsWith folderPath "/" = false ->
      scanTextFiles env (folderPath ++ "/") = scanTextFiles env folderPath).
Proof.
  intros Hne.
  assert (E : scanTextFiles env (normalizePath folderPath)
              = scanTextFiles env folderPath).
  { rewrite (scanTextFiles_success env folderPath Hne).
    rewrite (scanTextFiles_success env _ (normalizePath_nonempty folderPath)).
    now rewrite normalizePath_idempotent. }
  split; [exact E|].
  intros Hs. rewrite <- E. unfold normalizePath. now rewrite Hs.
Qed.

(** "./src/StoryTxt" and "./src/StoryTxt/" scan alike, by
    [scanTextFiles_trailing_slash]. *)
Lemma scanTextFiles_trailing_slash_witness :
  scanTextFiles Fixture.bare ("./src/StoryTxt" ++ "/")
  = scanTextFiles Fixture.bare "./src/StoryTxt".
Proof.
  destruct (scanTextFiles_trailing_slash Fixture.bare "./src/StoryTxt")
    as [_ H]; [discriminate|].
  apply H. reflexivity.
Defined.

(** ** getFileInfo and readTextFile: what a failure carries *)

Lemma TextPath_guards (filePath : string) :
  TextPath filePath ->
  truthy filePath = true /\ endsWith (toLowerCase filePath) ".txt" = true.
Proof.
  intros H. split.
  - apply truthy_iff. now apply TextPath_nonempty.
  - now apply endsWith_iff.
Qed.

(** X3. For a ".txt" path the failure of getFileInfo and of readTextFile
    tells what went wrong on the network: a rejected fetch or an unreadable
    body passes the name and message of its exception on, and a response
    that is not ok gives "Failed to access file: <status> <statusText>"
    (readTextFile: "Failed to fetch file: ...") with the type "Error". *)
Theorem network_failure_messages (env : Env) (filePath : string) :
  TextPath filePath ->
  (forall e, fetch env filePath = inl e ->
     getFileInfo env filePath
     = Failure (mkErrorInfo (exnMessage e) (exnName e) (now env))
     /\ readTextFile env filePath
        = Failure (mkErrorInfo (exnMessage e) (exnName e) (now env)))
  /\ (forall r, fetch env filePath = inr r -> ok r = false ->
        getFileInfo env filePath
        = Failure (mkErrorInfo
                     ("Failed to access file: " ++ numberToString (status r)
                      ++ " " ++ statusText r) "Error" (now env))
        /\ readTextFile env filePath
           = Failure (mkErrorInfo
                        ("Failed to fetch file: " ++ numberToString (status r)
                         ++ " " ++ statusText r) "Error" (now env)))
  /\ (forall r e, fetch env filePath = inr r -> ok r = true ->
        text r = inl e ->
        getFileInfo env filePath
        = Failure (mkErrorInfo (exnMessage e) (exnName e) (now env))
        /\ readTextFile env filePath
           = Failure (mkErrorInfo (exnMessage e) (exnName e) (now env))).
Proof.
  intros Ht. destruct (TextPath_guards filePath Ht) as [G1 G2].
  unfold getFileInfo, readTextFile. rewrite G1, G2. cbn [negb].
  split; [|split].
  - intros e ->. split; reflexivity.
  - intros r -> Hok. cbn [bind]. rewrite Hok. split; reflexivity.
  - intros r e -> Hok Htext. cbn [bind]. rewrite Hok, Htext.
    split; reflexivity.
Qed.

(** beta.txt answers 404 on the sample server, by
    [network_failure_messages]. *)
Lemma network_failure_messages_witness :
  getFileInfo (Fixture.server []) "./src/StoryTxt/beta.txt"
  = Failure (mkErrorInfo "Failed to access file: 404 Not Found" "Error"
               Fixture.clock)
  /\ readTextFile Fixture.offline "a.txt"
     = Failure (mkErrorInfo "Failed to fetch" "TypeError" Fixture.clock).
Proof.
  split.
  - destruct (network_failure_messages (Fixture.server [])
                "./src/StoryTxt/beta.txt") as (_ & NotOk & _).
    + apply endsWith_iff. reflexivity.
    + destruct (NotOk Fixture.notFound eq_refl eq_refl) as [H _]. exact H.
  - destruct (network_failure_messages Fixture.offline "a.txt")
      as (Thrown & _).
    + apply endsWith_iff. reflexivity.
    + destruct (Thrown (mkExn "TypeError" "Failed to fetch") eq_refl)
        as [_ H].
      exact H.
Defined.

(** X4. A path that is empty or does not end with ".txt" is refused before
    any request is made: the result of getFileInfo and of readTextFile does
    not depend on the network, only on the clock. *)
Theorem invalid_path_never_fetched (env1 env2 : Env) (filePath : string) :
  ~ TextPath filePath ->
  now env1 = now env2 ->
  getFileInfo env1 filePath = getFileInfo env2 filePath
  /\ readTextFile env1 filePath = readTextFile env2 filePath.
Proof.
  intros Ht Hnow. unfold TextPath in Ht. apply endsWith_false_iff in Ht.
  unfold getFileInfo, readTextFile, tryCatch.
  destruct (truthy filePath); cbn [negb throwError].
  - rewrite Ht. cbn [negb]. rewrite Hnow. split; reflexivity.
  - rewrite Hnow. split; reflexivity.
Qed.

(** "notes.md" gets the same answer with and without a network, by
    [invalid_path_never_fetched]. *)
Lemma invalid_path_never_fetched_witness :
  getFileInfo (Fixture.server []) "notes.md"
  = getFileInfo Fixture.offline "notes.md".
Proof.
  destruct (invalid_path_never_fetched (Fixture.server []) Fixture.offline
              "notes.md") as [H _].
  - intros H. apply endsWith_iff in H. discriminate H.
  - reflexivity.
  - exact H.
Defined.

(** X5. readTextFile and getFileInfo succeed on the same paths, and on
    success they describe the same text: same content, sizes, line and word
    counts and time stamp; the file name of getFileInfo is that of
    readTextFile with the first ".txt" removed. *)
Theorem readTextFile_agrees_with_getFileInfo (env : Env) (filePath : string) :
  success (readTextFile env filePath) = success (getFileInfo env filePath)
  /\ (forall r d,
        readTextFile env filePath = Success r ->
        getFileInfo env filePath = Success d ->
        Read.content r = Doc.content d
        /\ Read.filePath r = Doc.path d
        /\ Read.fileSize r = Doc.fileSize d
        /\ Read.lineCount r = Doc.lineCount d
        /\ Read.wordCount r = Doc.wordCount d
        /\ Read.characterCount r = Doc.characterCount d
        /\ Read.timestamp r = Doc.timestamp d
        /\ Doc.fileName d = removeFirst ".txt" (Read.fileName r)).
Proof.
  unfold readTextFile, getFileInfo.
  destruct (truthy filePath); cbn [negb]; [|split; [reflexivity|discriminate]].
  destruct (endsWith (toLowerCase filePath) ".txt"); cbn [negb];
    [|split; [reflexivity|discriminate]].
  destruct (fetch env filePath) as [e|response]; cbn [bind];
    [split; [reflexivity|discriminate]|].
  destruct (ok response); cbn [negb]; [|split; [reflexivity|discriminate]].
  destruct (text response) as [e|content]; cbn [bind ret tryCatch success];
    [split; [reflexivity|discriminate]|].
  split; [reflexivity|].
  intros r d Hr Hd. injection Hr as <-. injection Hd as <-.
  cbn. repeat split; reflexivity.
Qed.

(** ** getTextFilesFromFolder: a manifest that cannot be used *)

(** X6. A manifest response that is ok but whose body cannot be parsed, or
    that parses to an object without textFiles or with an empty textFiles,
    gives the built-in list, as a missing manifest does. *)
Theorem fallback_on_unusable_manifest (env : Env) (folderPath : string)
  (response : Response) :
  fetch env (folderPath ++ "file-manifest.json") = inr response ->
  ok response = true ->
  (exists e, json response = inl e)
  \/ json response = inr (mkManifest None)
  \/ json response = inr (mkManifest (Some [])) ->
  getTextFilesFromFolder env folderPath = knownTextFiles folderPath.
Proof.
  intros Hf Hok H. unfold getTextFilesFromFolder, manifestAttempt.
  rewrite Hf. cbn [bind]. rewrite Hok.
  destruct H as [[e ->] | [-> | ->]]; reflexivity.
Qed.

(** The sample text response has no JSON body: asked for the manifest, it
    leads to the built-in list, by [fallback_on_unusable_manifest]. *)
Lemma fallback_on_unusable_manifest_witness :
  getTextFilesFromFolder
    (mkEnv (fun _ => inr (Fixture.textResponse "<html>")) Fixture.clock)
    "./src/StoryTxt/"
  = knownTextFiles "./src/StoryTxt/".
Proof.
  apply (fallback_on_unusable_manifest
           (mkEnv (fun _ => inr (Fixture.textResponse "<html>")) Fixture.clock)
           "./src/StoryTxt/" (Fixture.textResponse "<html>")).
  - reflexivity.
  - reflexivity.
  - left. eexists. reflexivity.
Defined.

(** alpha.txt on the sample server: both services hold the same text, by
    [readTextFile_agrees_with_getFileInfo]. *)
Lemma readTextFile_agrees_with_getFileInfo_witness :
  Read.content
    (Read.mk Fixture.alphaText "./src/StoryTxt/alpha.txt" "alpha.txt" 27 2 6
       27 Fixture.clock "UTF-8" "text/plain" None)
  = Doc.content
      (docOf (Fixture.server []) "./src/StoryTxt/alpha.txt" Fixture.alphaText).
Proof.
  destruct (readTextFile_agrees_with_getFileInfo (Fixture.server [])
              "./src/StoryTxt/alpha.txt") as [_ Same].
  destruct (Same
              (Read.mk Fixture.alphaText "./src/StoryTxt/alpha.txt"
                 "alpha.txt" 27 2 6 27 Fixture.clock "UTF-8" "text/plain" None)
              (docOf (Fixture.server []) "./src/StoryTxt/alpha.txt"
                 Fixture.alphaText)) as [H _].
  - reflexivity.
  - reflexivity.
  - exact H.
Defined.

(** ** The words of a text *)

Section Words.

Lemma Pieces_noSep (sep : ascii -> bool) (s : string) (ps : list string) :
  Pieces sep s ps -> forall p, In p ps -> noSep sep p.
Proof.
  induction 1 as [t Ht | t run rest ps Ht Hne Hrun Hrest Hps IH];
    intros p [<- | Hin]; try assumption; try contradiction.
  now apply IH.
Qed.

Lemma trimStart_empty_iff (s : string) :
  trimStart s = "" <-> allChars isSpace s = true.
Proof.
  induction s as [|c s IH]; simpl; [tauto|].
  destruct (isSpace c); simpl; [exact IH|].
  split; discriminate.
Qed.

Lemma trimStart_head (s : string) : headNotSep isSpace (trimStart s).
Proof.
  induction s as [|c s IH]; simpl; [exact I|].
  destruct (isSpace c) eqn:E; [exact IH | exact E].
Qed.

Lemma trimEnd_head (c : ascii) (r : string) :
  isSpace c = false -> exists r', trimEnd (String c r) = String c r'.
Proof.
  intros H. cbn [trimEnd]. destruct (trimEnd r) as [|d r'].
  - rewrite H. now exists "".
  - now exists (String d r').
Qed.

(** The trimmed text is empty, or begins with a character that is not white
    space. *)
Lemma trim_cases (s : string) :
  (trim s = "" /\ allChars isSpace s = true)
  \/ (exists c r, trim s = String c r /\ isSpace c = false
                  /\ allChars isSpace s = false).
Proof.
  unfold trim. pose proof (trimStart_head s) as Hh.
  pose proof (trimStart_empty_iff s) as He.
  destruct (trimStart s) as [|c r].
  - left. split; [reflexivity | now apply He].
  - right. simpl in Hh. destruct (trimEnd_head c r Hh) as [r' E].
    exists c, r'. split; [exact E|]. split; [exact Hh|].
    destruct (allChars isSpace s); [|reflexivity].
    destruct He as [_ He]. discriminate (He eq_refl).
Qed.

End Words.

(** X7. The word count of a text is 0 exactly when the text is blank (empty
    or white space only), and every word counted is non-empty and holds no
    white space. *)
Theorem wordsOf_words (content : string) :
  (List.length (wordsOf content) = 0 <-> allChars isSpace content = true)
  /\ (forall w, In w (wordsOf content) ->
        w <> "" /\ allChars (fun c => negb (isSpace c)) w = true).
Proof.
  split.
  - unfold wordsOf.
    destruct (trim_cases content) as [[E B] | (c & r & E & Hc & B)];
      rewrite E, B.
    + split; reflexivity.
    + split; [|discriminate]. unfold splitRuns. cbn [splitRunsFrom].
      rewrite Hc. destruct (splitRunsFrom isSpace false r); discriminate.
  - intros w Hw. unfold wordsOf in Hw. apply filter_In in Hw as [Hin Hlen].
    split.
    + intros ->. discriminate Hlen.
    + exact (Pieces_noSep isSpace _ _ (splitRuns_Pieces isSpace _) w Hin).
Qed.

(** A blank text has no word and " a  b " has two, by [wordsOf_words]. *)
Lemma wordsOf_words_witness :
  List.length (wordsOf (String " " (String newline " "))) = 0
  /\ allChars (fun c => negb (isSpace c)) "b" = true.
Proof.
  split.
  - apply (wordsOf_words (String " " (String newline " "))). reflexivity.
  - apply (wordsOf_words " a  b "). right. left. reflexivity.
Defined.

(** ** The title made from a file name *)

(** A character a title made from a file name may hold: a space, or
    anything that is not a hyphen, an underscore or white space. *)
Definition titleChar (c : ascii) : bool :=
  negb (isNameSep c) || Ascii.eqb c " ".

Lemma upperChar_not_sep (c : ascii) :
  isNameSep c = false -> isNameSep (upperChar c) = false.
Proof.
  destruct c as [[] [] [] [] [] [] [] []]; vm_compute;
    intros H; first [reflexivity | exact H].
Qed.

Lemma lowerChar_not_sep (c : ascii) :
  isNameSep c = false -> isNameSep (lowerChar c) = false.
Proof.
  destruct c as [[] [] [] [] [] [] [] []]; vm_compute;
    intros H; first [reflexivity | exact H].
Qed.

Lemma toLowerCase_titleChars (s : string) :
  noSep isNameSep s -> allChars titleChar (toLowerCase s) = true.
Proof.
  unfold noSep, toLowerCase, titleChar.
  induction s as [|c s IH]; simpl; [reflexivity|].
  rewrite andb_true_iff, negb_true_iff. intros [Hc Hs].
  now rewrite (lowerChar_not_sep c Hc), IH.
Qed.

Lemma titleCased_titleChars (p : string) :
  noSep isNameSep p -> allChars titleChar (titleCased p) = true.
Proof.
  destruct p as [|c r]; [reflexivity|].
  unfold noSep. cbn [allChars titleCased].
  rewrite andb_true_iff, negb_true_iff. intros [Hc Hr].
  rewrite (toLowerCase_titleChars r Hr). unfold titleChar.
  now rewrite (upperChar_not_sep c Hc).
Qed.

Lemma join_titleChars (l : list string) :
  (forall p, In p l -> allChars titleChar p = true) ->
  allChars titleChar (join " " l) = true.
Proof.
  unfold join. induction l as [|p l IH]; intros H; [reflexivity|].
  destruct l as [|q l]; [apply H; now left|].
  change (String.concat " " (p :: q :: l))
    with (p ++ " " ++ String.concat " " (q :: l)).
  rewrite !allChars_append, (H p (or_introl eq_refl)), IH; [reflexivity|].
  intros x Hx. apply H. now right.
Qed.

(** Every piece but the last is non-empty. *)
Fixpoint allButLastNonEmpty (l : list string) : Prop :=
  match l with
  | [] => True
  | p :: rest =>
      match rest with
      | [] => True
      | _ :: _ => p <> "" /\ allButLastNonEmpty rest
      end
  end.

Definition headIs (d : ascii) (s : string) : bool :=
  match s with
  | EmptyString => false
  | String c _ => Ascii.eqb c d
  end.

(** The character [d] is never followed by itself. *)
Fixpoint noRepeat (d : ascii) (s : string) : bool :=
  match s with
  | EmptyString => true
  | String c r => negb (Ascii.eqb c d && headIs d r) && noRepeat d r
  end.

Section SingleSpaces.

Lemma Pieces_not_nil (sep : ascii -> bool) (s : string) :
  ~ Pieces sep s [].
Proof. intros H. inversion H. Qed.

(** Between two runs of separators a piece is never empty: only the first
    and the last piece can be. *)
Lemma Pieces_inner (sep : ascii -> bool) (s : string) (ps : list string) :
  Pieces sep s ps ->
  (headNotSep sep s -> allButLastNonEmpty ps)
  /\ allButLastNonEmpty (tl ps).
Proof.
  induction 1 as [t Ht | t run rest ps Ht Hne Hrun Hrest Hps [IH1 IH2]].
  - split; intros; exact I.
  - specialize (IH1 Hrest). split; [|exact IH1].
    intros Hhead. destruct ps as [|p ps].
    + now apply Pieces_not_nil in Hps.
    + split; [|exact IH1]. intros ->.
      destruct run as [|c run]; [congruence|].
      unfold allSep in Hrun. simpl in Hrun, Hhead.
      apply andb_true_iff in Hrun as [Hc _]. congruence.
Qed.

Lemma noRepeat_not_Contains (d : ascii) (s : string) :
  noRepeat d s = true -> ~ Contains s (String d (String d "")).
Proof.
  intros H. apply includes_false_iff.
  induction s as [|c s IH]; [reflexivity|].
  cbn [noRepeat] in H. apply andb_true_iff in H as [H1 H2].
  cbn [includes]. rewrite (IH H2), orb_false_r.
  cbn [startsWith]. destruct s as [|e s]; [now rewrite andb_false_r|].
  cbn [headIs] in H1.
  rewrite (Ascii.eqb_sym d c), (Ascii.eqb_sym d e).
  destruct (Ascii.eqb c d); destruct (Ascii.eqb e d);
    try reflexivity; discriminate H1.
Qed.

Lemma noRepeat_without (d : ascii) (w : string) :
  allChars (fun c => negb (Ascii.eqb c d)) w = true ->
  headIs d w = false /\ noRepeat d w = true.
Proof.
  induction w as [|c w IH]; [now split|].
  cbn [allChars headIs noRepeat]. rewrite andb_true_iff, negb_true_iff.
  intros [Hc Hw]. destruct (IH Hw) as [_ I2]. now rewrite Hc, I2.
Qed.

Lemma noRepeat_word_then (d : ascii) (w rest : string) :
  allChars (fun c => negb (Ascii.eqb c d)) w = true ->
  headIs d rest = false -> noRepeat d rest = true ->
  noRepeat d (w ++ String d rest) = true
  /\ (w <> "" -> headIs d (w ++ String d rest) = false).
Proof.
  intros Hw Hh Hr. induction w as [|c w IH].
  - cbn [append noRepeat headIs]. rewrite Hh, Hr, andb_false_r.
    split; [reflexivity | congruence].
  - cbn [allChars] in Hw. apply andb_true_iff in Hw as [Hc Hw].
    apply negb_true_iff in Hc. destruct (IH Hw) as [I1 _].
    cbn [append noRepeat headIs]. rewrite Hc, I1. now split.
Qed.

Lemma join_single (d : ascii) (ws : list string) :
  (forall w, In w ws -> allChars (fun c => negb (Ascii.eqb c d)) w = true) ->
  allButLastNonEmpty ws ->
  headIs d (join (String d "") ws) = false
  /\ noRepeat d (join (String d "") ws) = true.
Proof.
  unfold join. induction ws as [|w ws IH]; intros Hall Hne; [now split|].
  destruct ws as [|w2 ws].
  - apply noRepeat_without, Hall. now left.
  - cbn [allButLastNonEmpty] in Hne. destruct Hne as [Hw Hne].
    destruct IH as [I1 I2]; [intros x Hx; apply Hall; now right | exact Hne |].
    change (String.concat (String d "") (w :: w2 :: ws))
      with (w ++ String d (String.concat (String d "") (w2 :: ws))).
    destruct (noRepeat_word_then d w _ (Hall w (or_introl eq_refl)) I1 I2)
      as [N1 N2].
    split; [now apply N2 | exact N1].
Qed.

Lemma noSep_no_space (w : string) :
  noSep isNameSep w -> allChars (fun c => negb (Ascii.eqb c " ")) w = true.
Proof.
  unfold noSep. induction w as [|c w IH]; [reflexivity|].
  cbn [allChars]. rewrite !andb_true_iff, !negb_true_iff.
  intros [Hc Hw]. split; [|now apply IH].
  destruct (Ascii.eqb_spec c " ") as [->|]; [discriminate Hc | reflexivity].
Qed.

Lemma titleCased_noSep (p : string) :
  noSep isNameSep p -> noSep isNameSep (titleCased p).
Proof.
  destruct p as [|c r]; [trivial|]. unfold noSep. cbn [allChars titleCased].
  rewrite !andb_true_iff, !negb_true_iff. intros [Hc Hr].
  split; [now apply upperChar_not_sep|].
  unfold toLowerCase. induction r as [|a r IH]; [reflexivity|].
  cbn [allChars mapChars] in *. apply andb_true_iff in Hr as [Ha Hr].
  apply negb_true_iff in Ha.
  now rewrite (lowerChar_not_sep a Ha), IH.
Qed.

Lemma map_titleCased_inner (ps : list string) :
  allButLastNonEmpty ps -> allButLastNonEmpty (map titleCased ps).
Proof.
  induction ps as [|p ps IH]; [trivial|].
  destruct ps as [|q ps]; [trivial|].
  cbn [allButLastNonEmpty map]. intros [Hp Hq].
  split; [destruct p; [congruence | discriminate] | now apply IH].
Qed.

End SingleSpaces.

(** X8. A title that is made from the file name holds no hyphen, no
    underscore and no white space other than single spaces: every character
    of it is a space or not a separator, and no space is followed by a
    space. *)
Theorem fallback_title_is_clean (firstLine fileName : string) :
  ~ LooksLikeTitle firstLine ->
  allChars titleChar (extractTitle firstLine fileName) = true
  /\ ~ Contains (extractTitle firstLine fileName) "  ".
Proof.
  intros H. rewrite <- titleGuard_iff in H.
  rewrite extractTitle_unfold.
  destruct (titleGuard firstLine); [congruence|].
  pose proof (splitRuns_Pieces isNameSep fileName) as HP.
  pose proof (Pieces_noSep isNameSep _ _ HP) as Hno.
  split.
  - apply join_titleChars. intros p Hp.
    apply in_map_iff in Hp as (w & <- & Hw).
    rewrite titleCaseWord_titleCased. apply titleCased_titleChars.
    now apply Hno.
  - apply (noRepeat_not_Contains " ").
    rewrite (map_ext _ _ titleCaseWord_titleCased).
    destruct (Pieces_inner isNameSep _ _ HP) as [_ Htail].
    destruct (splitRuns isNameSep fileName) as [|p ps]; [reflexivity|].
    cbn [tl] in Htail. cbn [map].
    assert (Hp : allChars (fun c => negb (Ascii.eqb c " ")) (titleCased p)
                 = true)
      by (apply noSep_no_space, titleCased_noSep, Hno; now left).
    destruct ps as [|q ps]; [now apply noRepeat_without|].
    destruct (join_single " " (map titleCased (q :: ps))) as [J1 J2].
    + intros w Hw. apply in_map_iff in Hw as (x & <- & Hx).
      apply noSep_no_space, titleCased_noSep, Hno. now right.
    + now apply map_titleCased_inner.
    + change (join " " (titleCased p :: map titleCased (q :: ps)))
        with (titleCased p
              ++ String " " (join " " (map titleCased (q :: ps)))).
      now apply noRepeat_word_then.
Qed.

(** The title of "my_long--story" after a first line in lower case, by
    [fallback_title_is_clean]. *)
Lemma fallback_title_is_clean_witness :
  allChars titleChar (extractTitle "once upon a time" "my_long--story") = true
  /\ includes (extractTitle "once upon a time" "my_long--story") "  "
     = false.
Proof.
  destruct (fallback_title_is_clean "once upon a time" "my_long--story")
    as [Hchars Hspaces].
  - intros H. apply titleGuard_iff in H. discriminate H.
  - split; [exact Hchars | now apply includes_false_iff].
Defined.

(** ** The Stories and Story pages: slugs and the look-up of a story *)

Fixpoint filterChars (p : ascii -> bool) (s : string) : string :=
  match s with
  | EmptyString => EmptyString
  | String c r => if p c then String c (filterChars p r) else filterChars p r
  end.

(** The class [a-zA-Z0-9\s]: what replace(/[^a-zA-Z0-9\s]/g, '') keeps. *)
Definition isTitleKept (c : ascii) : bool :=
  isLowerAZ c || isUpperAZ c || isDigit c || isSpace c.

(** s.replace(/\s+/g, '-'): every maximal run of white space becomes one
    hyphen.  [inRun] says that the character before [s] was white space. *)
Fixpoint dashRuns (inRun : bool) (s : string) : string :=
  match s with
  | EmptyString => EmptyString
  | String c r =>
      if isSpace c then
        if inRun then dashRuns true r else String "-" (dashRuns true r)
      else String c (dashRuns false r)
  end.

(** story.title.replace(/[^a-zA-Z0-9\s]/g, '').replace(/\s+/g, '-')
      .toLowerCase() *)
Definition storyTitle (title : string) : string :=
  toLowerCase (dashRuns false (filterChars isTitleKept title)).

(** handleStoryClick: the route it navigates to. *)
Definition handleStoryClick (story : Doc.t) : string :=
  "/story/" ++ storyTitle (Doc.title story).

(** The preview of a story card:
    firstLine.length > 80 ? firstLine.substring(0, 80) + "..." : firstLine *)
Fixpoint takeChars (n : nat) (s : string) : string :=
  match n, s with
  | O, _ => EmptyString
  | S _, EmptyString => EmptyString
  | S k, String c r => String c (takeChars k r)
  end.

Definition storyPreview (story : Doc.t) : string :=
  if 80 <? String.length (Doc.firstLine story)
  then takeChars 80 (Doc.firstLine story) ++ "..."
  else Doc.firstLine story.

Module StoryPage.

(** The component state of the Story page. *)
Record state : Type := mk {
  story : option Doc.t;
  loading : bool;
  error : option string
}.

Definition initial : state := mk None true None.

Definition setStory (v : option Doc.t) (st : state) : state :=
  mk v (loading st) (error st).
Definition setLoading (v : bool) (st : state) : state :=
  mk (story st) v (error st).
Definition setError (v : option string) (st : state) : state :=
  mk (story st) (loading st) v.

(** loadStory, for the route parameter [title].  The callback mapped over
    the files is the one of the Stories page. *)
Definition loadStory (env : Env) (title : string) (st : state) : state :=
  let st := setLoading true st in
  let st := setError None st in
  let body : Exc state :=
    match scanTextFiles env "./src/StoryTxt/" with
    | Success data =>
        let storyData := map (Stories.detail env) (Scan.files data) in
        let validStories := Stories.notNull storyData in
        let matchingStory :=
          find (fun story => String.eqb (storyTitle (Doc.title story)) title)
               validStories in
        match matchingStory with
        | Some found => ret (setStory (Some found) st)
        | None => ret (setError (Some "Story not found") st)
        end
    | Failure err => ret (setError (Some (message err)) st)
    end in
  let st :=
    match body with
    | inr st' => st'
    | inl err => setError (Some (exnMessage err)) st
    end in
  setLoading false st.

End StoryPage.

Example storyTitle_of_title :
  storyTitle "The  Long Night: Part 2!" = "the-long-night-part-2".
Proof. reflexivity. Qed.

(** What a slug is made of: lower-case letters, digits and hyphens. *)
Definition slugChar (c : ascii) : bool :=
  isLowerAZ c || isDigit c || Ascii.eqb c "-".

Definition isDash (c : ascii) : bool := Ascii.eqb c "-".

Definition headIsDash (s : string) : bool :=
  match s with
  | EmptyString => false
  | String c _ => isDash c
  end.

(** No hyphen is followed by a hyphen. *)
Fixpoint noDoubleDash (s : string) : bool :=
  match s with
  | EmptyString => true
  | String c r => negb (isDash c && headIsDash r) && noDoubleDash r
  end.

Section Slug.

Lemma filterChars_all (p : ascii -> bool) (s : string) :
  allChars p (filterChars p s) = true.
Proof.
  induction s as [|c s IH]; simpl; [reflexivity|].
  destruct (p c) eqn:E; simpl; [now rewrite E|exact IH].
Qed.

Lemma kept_lower_slugChar (c : ascii) :
  isTitleKept c = true -> isSpace c = false -> slugChar (lowerChar c) = true.
Proof.
  destruct c as [[] [] [] [] [] [] [] []]; vm_compute;
    intros H1 H2; first [reflexivity | discriminate H1 | discriminate H2].
Qed.

Lemma kept_not_dash (c : ascii) : isTitleKept c = true -> isDash c = false.
Proof.
  destruct c as [[] [] [] [] [] [] [] []]; vm_compute;
    intros H; first [reflexivity | discriminate H].
Qed.

Lemma lowerChar_dash (c : ascii) : isDash (lowerChar c) = isDash c.
Proof. destruct c as [[] [] [] [] [] [] [] []]; reflexivity. Qed.

Lemma dashRuns_slugChars (inRun : bool) (s : string) :
  allChars isTitleKept s = true ->
  allChars slugChar (toLowerCase (dashRuns inRun s)) = true.
Proof.
  unfold toLowerCase. revert inRun.
  induction s as [|c s IH]; intros inRun; simpl; [reflexivity|].
  rewrite andb_true_iff. intros [Hc Hs].
  destruct (isSpace c) eqn:E.
  - destruct inRun; simpl; now rewrite ?IH.
  - simpl. now rewrite (kept_lower_slugChar c Hc E), IH.
Qed.

Lemma headIsDash_toLowerCase (s : string) :
  headIsDash (toLowerCase s) = headIsDash s.
Proof. destruct s; [reflexivity | apply lowerChar_dash]. Qed.

Lemma noDoubleDash_toLowerCase (s : string) :
  noDoubleDash (toLowerCase s) = noDoubleDash s.
Proof.
  induction s as [|c s IH]; [reflexivity|].
  change (toLowerCase (String c s))
    with (String (lowerChar c) (toLowerCase s)).
  cbn [noDoubleDash].
  now rewrite lowerChar_dash, headIsDash_toLowerCase, IH.
Qed.

Lemma dashRuns_noDoubleDash (s : string) :
  allChars isTitleKept s = true ->
  headIsDash (dashRuns true s) = false
  /\ noDoubleDash (dashRuns true s) = true
  /\ noDoubleDash (dashRuns false s) = true.
Proof.
  induction s as [|c s IH]; simpl; [now repeat split|].
  rewrite andb_true_iff. intros [Hc Hs].
  destruct (IH Hs) as (H1 & H2 & H3).
  pose proof (kept_not_dash c Hc) as Hd.
  destruct (isSpace c); cbn [headIsDash noDoubleDash].
  - rewrite H1, H2. now rewrite andb_false_r.
  - rewrite Hd, H3. now repeat split.
Qed.

Lemma noDoubleDash_not_Contains (s : string) :
  noDoubleDash s = true -> ~ Contains s "--".
Proof.
  intros H. apply includes_false_iff.
  induction s as [|c s IH]; [reflexivity|].
  cbn [noDoubleDash] in H. apply andb_true_iff in H as [H1 H2].
  cbn [includes]. rewrite (IH H2), orb_false_r.
  cbn [startsWith]. destruct s as [|d s]; [now rewrite andb_false_r|].
  cbn [headIsDash] in H1. unfold isDash in H1.
  rewrite (Ascii.eqb_sym "-" c), (Ascii.eqb_sym "-" d).
  destruct (Ascii.eqb c "-"); destruct (Ascii.eqb d "-");
    try reflexivity; discriminate H1.
Qed.

End Slug.

(** X9. The slug of a title holds only lower-case letters, digits and
    hyphens, and never two hyphens in a row -- whatever the title. *)
Theorem storyTitle_is_url_safe (title : string) :
  allChars slugChar (storyTitle title) = true
  /\ ~ Contains (storyTitle title) "--".
Proof.
  pose proof (filterChars_all isTitleKept title) as Hk.
  split.
  - now apply dashRuns_slugChars.
  - apply noDoubleDash_not_Contains. unfold storyTitle.
    rewrite noDoubleDash_toLowerCase.
    now apply dashRuns_noDoubleDash.
Qed.


(** The stories both pages work on. *)
Definition listedStories (env : Env) : list Doc.t :=
  Stories.notNull
    (map (Stories.detail env) (getTextFilesFromFolder env Stories.storyFolder)).

Lemma loadStories_listed (env : Env) (st : Stories.state) :
  Stories.stories (Stories.loadStories env st) = listedStories env.
Proof. now rewrite loadStories_eq. Qed.

Lemma loadStory_eq (env : Env) (title : string) (st : StoryPage.state) :
  StoryPage.loadStory env title st =
  match find (fun story => String.eqb (storyTitle (Doc.title story)) title)
          (listedStories env) with
  | Some found => StoryPage.mk (Some found) false None
  | None => StoryPage.mk (StoryPage.story st) false (Some "Story not found")
  end.
Proof.
  unfold StoryPage.loadStory. cbv zeta.
  change "./src/StoryTxt/" with Stories.storyFolder.
  rewrite scanTextFiles_success by discriminate.
  rewrite normalizePath_storyFolder. cbn [Scan.files].
  fold (listedStories env).
  destruct (find _ (listedStories env)); reflexivity.
Qed.



(** X11. When no listed story has the slug asked for, the Story page ends
    with the error "Story not found", loading switched off, and the story it
    held before untouched. *)
Theorem unknown_story_not_found (env : Env) (st : StoryPage.state)
  (title : string) :
  (forall d, In d (Stories.stories (Stories.loadStories env Stories.initial)) ->
             storyTitle (Doc.title d) <> title) ->
  StoryPage.loadStory env title st
  = StoryPage.mk (StoryPage.story st) false (Some "Story not found").
Proof.
  rewrite loadStories_listed, loadStory_eq. intros H.
  destruct (find _ (listedStories env)) as [found|] eqn:F; [|reflexivity].
  exfalso. apply find_some in F as [Hin Hp]. apply String.eqb_eq in Hp.
  exact (H found Hin Hp).
Qed.

(** Without a network nothing is listed and every slug is unknown, by
    [unknown_story_not_found]. *)
Lemma unknown_story_not_found_witness :
  StoryPage.loadStory Fixture.offline "the-long-night" StoryPage.initial
  = StoryPage.mk None false (Some "Story not found").
Proof.
  apply (unknown_story_not_found Fixture.offline StoryPage.initial
           "the-long-night").
  intros d Hd. vm_compute in Hd. contradiction.
Defined.

Lemma takeChars_length (n : nat) (s : string) :
  String.length (takeChars n s) = Nat.min n (String.length s).
Proof.
  revert s. induction n as [|n IH]; intros [|c s]; simpl; try reflexivity.
  now rewrite IH.
Qed.

Lemma takeChars_prefix (n : nat) (s : string) :
  exists rest, s = takeChars n s ++ rest.
Proof.
  revert s. induction n as [|n IH]; intros s.
  - now exists s.
  - destruct s as [|c s]; [now exists ""|].
    destruct (IH s) as [rest E]. exists rest. simpl. now rewrite <- E.
Qed.

(** X12. The preview on a story card is never longer than 83 characters: a
    first line of at most 80 characters is shown whole, a longer one is cut
    to its first 80 characters followed by "...". *)
Theorem storyPreview_bounded (story : Doc.t) :
  String.length (storyPreview story) <= 83
  /\ (String.length (Doc.firstLine story) <= 80 ->
      storyPreview story = Doc.firstLine story)
  /\ (80 < String.length (Doc.firstLine story) ->
      String.length (storyPreview story) = 83
      /\ exists head rest,
           String.length head = 80
           /\ Doc.firstLine story = head ++ rest
           /\ storyPreview story = head ++ "...").
Proof.
  unfold storyPreview.
  destruct (80 <? String.length (Doc.firstLine story)) eqn:E;
    [apply Nat.ltb_lt in E | apply Nat.ltb_ge in E].
  - assert (L : String.length (takeChars 80 (Doc.firstLine story)) = 80)
      by (rewrite takeChars_length; lia).
    split; [rewrite length_append, L; simpl; lia|].
    split; [lia|]. intros _.
    split; [rewrite length_append, L; reflexivity|].
    destruct (takeChars_prefix 80 (Doc.firstLine story)) as [rest Hr].
    exists (takeChars 80 (Doc.firstLine story)), rest.
    split; [exact L|]. split; [exact Hr | reflexivity].
  - split; [lia|]. split; [reflexivity | lia].
Qed.

(** A short first line is previewed whole, by [storyPreview_bounded]. *)
Lemma storyPreview_bounded_witness :
  storyPreview
    (docOf (Fixture.server []) "./src/StoryTxt/alpha.txt" Fixture.alphaText)
  = "The Long Night".
Proof.
  apply (storyPreview_bounded
           (docOf (Fixture.server []) "./src/StoryTxt/alpha.txt"
              Fixture.alphaText)).
  vm_compute. lia.
Defined.

(** ** TextFileReaderService.readTextFileWithFormatting *)

(** s.split("") *)
Fixpoint chars (s : string) : list string :=
  match s with
  | EmptyString => []
  | String c r => String c EmptyString :: chars r
  end.

(** s.split(sep) for a non-empty string [sep]: the text is cut at every
    occurrence of [sep], found from left to right without overlap.  [skip]
    is the number of characters of an occurrence still to be passed. *)
Fixpoint splitFrom (sep : string) (skip : nat) (s : string) : list string :=
  match s with
  | EmptyString => [EmptyString]
  | String c r =>
      match skip with
      | S k => splitFrom sep k r
      | O =>
          if startsWith s sep
          then EmptyString :: splitFrom sep (String.length sep - 1) r
          else consHead c (splitFrom sep 0 r)
      end
  end.

(** s.split(sep) *)
Definition split (sep s : string) : list string :=
  match sep with
  | EmptyString => chars s
  | String _ _ => splitFrom sep 0 s
  end.

Example split_on_two_characters :
  split "--" "a--b----c-" = ["a"; "b"; ""; "c-"].
Proof. reflexivity. Qed.

Example split_on_nothing : split "" "abc" = ["a"; "b"; "c"].
Proof. reflexivity. Qed.

Module Options.

(** formatOptions, after { ...defaultOptions, ...options }. *)
Record t : Type := mk {
  removeEmptyLines : bool;
  trimWhitespace : bool;
  lineSeparator : string
}.

(** The [options] argument: each key is there or not. *)
Record given : Type := mkGiven {
  givenRemoveEmptyLines : option bool;
  givenTrimWhitespace : option bool;
  givenLineSeparator : option string
}.

Definition defaultOptions : t := mk false false (String newline EmptyString).

Definition orDefault {A : Type} (o : option A) (d : A) : A :=
  match o with
  | Some a => a
  | None => d
  end.

(** { ...defaultOptions, ...options } *)
Definition spread (d : t) (o : given) : t :=
  mk (orDefault (givenRemoveEmptyLines o) (removeEmptyLines d))
     (orDefault (givenTrimWhitespace o) (trimWhitespace d))
     (orDefault (givenLineSeparator o) (lineSeparator d)).

(** [options = {}] *)
Definition none : given := mkGiven None None None.

End Options.

Module Formatted.

(** The [data] and [metadata] of a successful readTextFileWithFormatting:
    [data] is fileResult.data with [content] replaced. *)
Record t : Type := mk {
  data : Read.t;
  originalContent : string;
  formattingApplied : Options.t;
  formattedLineCount : nat
}.

End Formatted.

(** { ...fileResult.data, content: formattedContent } *)
Definition withContent (r : Read.t) (formattedContent : string) : Read.t :=
  Read.mk formattedContent (Read.filePath r) (Read.fileName r)
    (Read.fileSize r) (Read.lineCount r) (Read.wordCount r)
    (Read.characterCount r) (Read.timestamp r) (Read.encoding r)
    (Read.mimeType r) (Read.lastModified r).

(** The value of [lines] when the formatting is done. *)
Definition formattedLines (formatOptions : Options.t) (content : string)
  : list string :=
  let content :=
    if Options.trimWhitespace formatOptions then trim content else content in
  let lines := split (Options.lineSeparator formatOptions) content in
  let lines :=
    if Options.removeEmptyLines formatOptions
    then filter (fun line => 0 <? String.length (trim line)) lines
    else lines in
  let lines :=
    if Options.trimWhitespace formatOptions then map trim lines else lines in
  lines.

Definition readTextFileWithFormatting (env : Env) (this : This)
  (filePath : string) (options : Options.given) : Result Formatted.t :=
  let body : Exc (Result Formatted.t) :=
    let formatOptions := Options.spread Options.defaultOptions options in
    fileResult <- viaThis this "readTextFile" (readTextFile env filePath) ;;
    match fileResult with
    | Failure err => ret (Failure err)
    | Success fileData =>
        let lines := formattedLines formatOptions (Read.content fileData) in
        let formattedContent :=
          join (Options.lineSeparator formatOptions) lines in
        ret (Success
               (Formatted.mk (withContent fileData formattedContent)
                  (Read.content fileData) formatOptions
                  (List.length lines)))
    end in
  match body with
  | inr result => result
  | inl error =>
      Failure (mkErrorInfo (exnMessage error) (exnName error) (now env))
  end.

Section SplitJoin.

Lemma join_consHead (sep : string) (c : ascii) (l : list string) :
  l <> [] -> join sep (consHead c l) = String c (join sep l).
Proof.
  destruct l as [|t [|u l]]; [congruence | reflexivity | reflexivity].
Qed.

Lemma join_cons_empty (sep : string) (l : list string) :
  l <> [] -> join sep (EmptyString :: l) = sep ++ join sep l.
Proof. destruct l; [congruence | reflexivity]. Qed.

Lemma splitFrom_nonempty (sep : string) (skip : nat) (s : string) :
  splitFrom sep skip s <> [].
Proof.
  revert skip. induction s as [|c s IH]; intros skip; simpl; [discriminate|].
  destruct skip; [|apply IH].
  destruct (startsWith (String c s) sep); [discriminate|].
  specialize (IH 0). destruct (splitFrom sep 0 s); [congruence|discriminate].
Qed.

Lemma splitFrom_skip (sep : string) (skip : nat) (s : string) :
  skip <= String.length s ->
  splitFrom sep skip s = splitFrom sep 0 (dropChars skip s).
Proof.
  revert skip. induction s as [|c s IH]; intros [|k] H; simpl in *;
    try reflexivity; try lia.
  apply IH. lia.
Qed.

Lemma dropChars_append (a b : string) :
  dropChars (String.length a) (a ++ b) = b.
Proof. induction a as [|c a IH]; simpl; [now destruct b | exact IH]. Qed.

(** Joining the pieces of a split with the separator gives the text back. *)
Lemma join_splitFrom (sep : string) (n : nat) (s : string) :
  sep <> "" -> String.length s <= n ->
  join sep (splitFrom sep 0 s) = s.
Proof.
  intros Hsep. revert s. induction n as [|n IH]; intros s Hn.
  - destruct s; [reflexivity | simpl in Hn; lia].
  - destruct s as [|c r]; [reflexivity|].
    cbn [splitFrom]. destruct (startsWith (String c r) sep) eqn:E.
    + apply startsWith_iff in E as [post E].
      destruct sep as [|a sep']; [congruence|].
      cbn [append] in E. injection E as -> ->.
      replace (String.length (String a sep') - 1) with (String.length sep')
        by (simpl; lia).
      rewrite splitFrom_skip by (rewrite length_append; lia).
      rewrite dropChars_append.
      rewrite join_cons_empty by apply splitFrom_nonempty.
      rewrite IH; [reflexivity|].
      simpl in Hn. rewrite length_append in Hn. lia.
    + rewrite join_consHead by apply splitFrom_nonempty.
      rewrite IH; [reflexivity | simpl in Hn; lia].
Qed.

Lemma join_chars (s : string) : join "" (chars s) = s.
Proof.
  unfold join. induction s as [|c s IH]; [reflexivity|].
  cbn [chars]. destruct s as [|d s]; [reflexivity|].
  change (String.concat "" (String c "" :: chars (String d s)))
    with (String c "" ++ "" ++ String.concat "" (chars (String d s))).
  now rewrite IH.
Qed.

Lemma join_split (sep s : string) : join sep (split sep s) = s.
Proof.
  destruct sep as [|a sep'].
  - apply join_chars.
  - now apply join_splitFrom with (n := String.length s).
Qed.

Lemma split_newline (s : string) :
  split (String newline "") s = splitChar newline s.
Proof.
  cbn [split]. induction s as [|c s IH]; [reflexivity|].
  cbn [splitFrom splitChar startsWith String.length Nat.sub].
  rewrite andb_true_r, (Ascii.eqb_sym newline c).
  destruct (Ascii.eqb c newline); now rewrite IH.
Qed.

End SplitJoin.

Section TrimTwice.

Lemma trimStart_fixed (s : string) :
  headNotSep isSpace s -> trimStart s = s.
Proof. destruct s as [|c s]; simpl; [reflexivity | now intros ->]. Qed.

Lemma trimEnd_twice (s : string) : trimEnd (trimEnd s) = trimEnd s.
Proof.
  induction s as [|c s IH]; [reflexivity|].
  cbn [trimEnd]. destruct (trimEnd s) as [|d r] eqn:E.
  - destruct (isSpace c) eqn:Hc; [reflexivity|].
    cbn [trimEnd]. now rewrite Hc.
  - cbn [trimEnd]. cbn [trimEnd] in IH.
    destruct (trimEnd r) as [|d' r'] eqn:E'.
    + destruct (isSpace d); [discriminate IH|]. now rewrite IH.
    + now rewrite IH.
Qed.

Lemma trimEnd_headNotSep (s : string) :
  headNotSep isSpace s -> headNotSep isSpace (trimEnd s).
Proof.
  destruct s as [|c r]; [trivial|]. intros H. simpl in H.
  destruct (trimEnd_head c r H) as [r' ->]. exact H.
Qed.

Lemma trim_twice (s : string) : trim (trim s) = trim s.
Proof.
  unfold trim.
  rewrite (trimStart_fixed (trimEnd (trimStart s))).
  - apply trimEnd_twice.
  - apply trimEnd_headNotSep, trimStart_head.
Qed.

End TrimTwice.

Lemma readTextFileWithFormatting_success (env : Env) (filePath : string)
  (options : Options.given) (r : Read.t) :
  readTextFile env filePath = Success r ->
  readTextFileWithFormatting env ThisClass filePath options =
  Success
    (Formatted.mk
       (withContent r
          (join
             (Options.lineSeparator
                (Options.spread Options.defaultOptions options))
             (formattedLines (Options.spread Options.defaultOptions options)
                (Read.content r))))
       (Read.content r)
       (Options.spread Options.defaultOptions options)
       (List.length
          (formattedLines (Options.spread Options.defaultOptions options)
             (Read.content r)))).
Proof.
  intros H. unfold readTextFileWithFormatting. cbv zeta.
  cbn [viaThis ret bind]. now rewrite H.
Qed.

(** Through the named export the first statement after the options throws:
    the result is the TypeError failure, whatever the file. *)
Lemma readTextFileWithFormatting_detached (env : Env) (filePath : string)
  (options : Options.given) :
  readTextFileWithFormatting env ThisUndefined filePath options
  = Failure
      (mkErrorInfo
         "Cannot read properties of undefined (reading 'readTextFile')"
         "TypeError" (now env)).
Proof. reflexivity. Qed.

(** X13. Called on the class with neither removeEmptyLines nor
    trimWhitespace set, readTextFileWithFormatting returns the data of
    readTextFile unchanged, whatever the line separator: joining the pieces
    of the split gives the text back.  formattedLineCount is the number of
    pieces, which for the default separator is lineCount. *)
Theorem formatting_without_options_is_identity (env : Env)
  (filePath : string) (options : Options.given) (r : Read.t) :
  Options.orDefault (Options.givenRemoveEmptyLines options) false = false ->
  Options.orDefault (Options.givenTrimWhitespace options) false = false ->
  readTextFile env filePath = Success r ->
  exists f,
    readTextFileWithFormatting env ThisClass filePath options = Success f
    /\ Formatted.data f = r
    /\ Formatted.originalContent f = Read.content r
    /\ Formatted.formattedLineCount f
       = List.length
           (split (Options.lineSeparator (Formatted.formattingApplied f))
              (Read.content r))
    /\ (Options.givenLineSeparator options = None ->
        Formatted.formattedLineCount f = Read.lineCount r).
Proof.
  intros Hrm Htrim Hr.
  rewrite (readTextFileWithFormatting_success env filePath options r Hr).
  eexists. split; [reflexivity|].
  cbn [Formatted.data Formatted.originalContent Formatted.formattedLineCount
       Formatted.formattingApplied].
  unfold formattedLines, Options.spread.
  cbn [Options.removeEmptyLines Options.trimWhitespace Options.lineSeparator
       Options.defaultOptions].
  rewrite Hrm, Htrim. cbv zeta.
  split; [|split; [reflexivity|split; [reflexivity|]]].
  - rewrite join_split. destruct r; reflexivity.
  - intros ->. cbn [Options.orDefault]. rewrite split_newline.
    apply readTextFile_success_inv in Hr as (? & c & _ & _ & _ & ->).
    reflexivity.
Qed.

(** alpha.txt read with no option, by
    [formatting_without_options_is_identity]. *)
Lemma formatting_without_options_is_identity_witness :
  exists f,
    readTextFileWithFormatting (Fixture.server []) ThisClass
      "./src/StoryTxt/alpha.txt" Options.none = Success f
    /\ Read.content (Formatted.data f) = Fixture.alphaText
    /\ Formatted.formattedLineCount f = 2.
Proof.
  destruct (formatting_without_options_is_identity (Fixture.server [])
              "./src/StoryTxt/alpha.txt" Options.none
              (Read.mk Fixture.alphaText "./src/StoryTxt/alpha.txt"
                 "alpha.txt" 27 2 6 27 Fixture.clock "UTF-8" "text/plain"
                 None))
    as (f & Hf & Hdata & _ & _ & Hcount).
  - reflexivity.
  - reflexivity.
  - reflexivity.
  - exists f. split; [exact Hf|]. rewrite Hdata, (Hcount eq_refl).
    split; reflexivity.
Defined.

(** X14. Called on the class, readTextFileWithFormatting succeeds exactly
    when readTextFile does and hands a failure of readTextFile on unchanged;
    on success only the content is replaced: originalContent is the text
    that was read, and fileSize, lineCount, wordCount and characterCount
    still describe that original text, not the formatted one.  Called
    through the named export of the module, where [this] is undefined, it
    fails with a TypeError for every path and every option, also when
    readTextFile reads the file. *)
Theorem formatting_keeps_read_result (env : Env) (filePath : string)
  (options : Options.given) :
  success (readTextFileWithFormatting env ThisClass filePath options)
  = success (readTextFile env filePath)
  /\ (forall err,
        readTextFile env filePath = Failure err ->
        readTextFileWithFormatting env ThisClass filePath options
        = Failure err)
  /\ (forall r,
        readTextFile env filePath = Success r ->
        exists f,
          readTextFileWithFormatting env ThisClass filePath options
          = Success f
          /\ Formatted.originalContent f = Read.content r
          /\ Formatted.formattingApplied f
             = Options.spread Options.defaultOptions options
          /\ Read.fileSize (Formatted.data f)
             = String.length (Formatted.originalContent f)
          /\ Read.characterCount (Formatted.data f)
             = String.length (Formatted.originalContent f)
          /\ Read.lineCount (Formatted.data f)
             = lineTotal (Formatted.originalContent f)
          /\ Read.wordCount (Formatted.data f)
             = List.length (wordsOf (Formatted.originalContent f))
          /\ Read.filePath (Formatted.data f) = filePath)
  /\ readTextFileWithFormatting env ThisUndefined filePath options
     = Failure
         (mkErrorInfo
            "Cannot read properties of undefined (reading 'readTextFile')"
            "TypeError" (now env)).
Proof.
  split; [|split; [|split]].
  - unfold readTextFileWithFormatting. cbv zeta. cbn [viaThis ret bind].
    destruct (readTextFile env filePath); reflexivity.
  - intros err H. unfold readTextFileWithFormatting. cbv zeta.
    cbn [viaThis ret bind]. now rewrite H.
  - intros r Hr.
    rewrite (readTextFileWithFormatting_success env filePath options r Hr).
    eexists. split; [reflexivity|].
    apply readTextFile_success_inv in Hr as (? & c & _ & _ & _ & ->).
    cbn. rewrite linesOf_length. repeat split; reflexivity.
  - apply readTextFileWithFormatting_detached.
Qed.

(** A path that cannot be read fails alike with and without formatting, by
    [formatting_keeps_read_result]. *)
Lemma formatting_keeps_read_result_witness :
  readTextFileWithFormatting Fixture.offline ThisClass "notes.md" Options.none
  = Failure (mkErrorInfo "File must have .txt extension" "Error"
               Fixture.clock).
Proof.
  destruct (formatting_keeps_read_result Fixture.offline "notes.md"
              Options.none) as (_ & Fails & _).
  apply Fails. reflexivity.
Defined.

(** X15. readTextFileWithFormatting succeeds only when it is called on the
    class, and whenever it succeeds the formatted content is the join of
    formattedLineCount lines.  With removeEmptyLines no line is blank; with
    trimWhitespace every line is trimmed; and formatting never makes more
    lines than the split of the text gives. *)
Theorem formatted_lines_are_clean (env : Env) (this : This)
  (filePath : string) (options : Options.given) (f : Formatted.t) :
  readTextFileWithFormatting env this filePath options = Success f ->
  this = ThisClass
  /\ exists lines,
    Read.content (Formatted.data f)
    = join (Options.lineSeparator (Formatted.formattingApplied f)) lines
    /\ Formatted.formattedLineCount f = List.length lines
    /\ (Options.removeEmptyLines (Formatted.formattingApplied f) = true ->
        forall l, In l lines -> trim l <> "")
    /\ (Options.trimWhitespace (Formatted.formattingApplied f) = true ->
        forall l, In l lines -> trim l = l)
    /\ List.length lines
       <= List.length
            (split (Options.lineSeparator (Formatted.formattingApplied f))
               (if Options.trimWhitespace (Formatted.formattingApplied f)
                then trim (Formatted.originalContent f)
                else Formatted.originalContent f)).
Proof.
  destruct this.
  2: { rewrite readTextFileWithFormatting_detached. discriminate. }
  destruct (readTextFile env filePath) as [r|err] eqn:Hr.
  2: { unfold readTextFileWithFormatting. cbv zeta. cbn [viaThis ret bind].
       rewrite Hr. discriminate. }
  rewrite (readTextFileWithFormatting_success env filePath options r Hr).
  intros H. injection H as <-. split; [reflexivity|].
  set (o := Options.spread Options.defaultOptions options).
  cbn [Formatted.data Formatted.formattingApplied
       Formatted.formattedLineCount Formatted.originalContent].
  exists (formattedLines o (Read.content r)).
  split; [destruct r; reflexivity|]. split; [reflexivity|].
  unfold formattedLines. cbv zeta.
  set (pieces := split (Options.lineSeparator o)
                   (if Options.trimWhitespace o then trim (Read.content r)
                    else Read.content r)).
  assert (Hblank : forall l,
            (0 <? String.length (trim l)) = true -> trim l <> "").
  { intros l Hl E. rewrite E in Hl. discriminate Hl. }
  split; [|split].
  - intros Hrm l. rewrite Hrm.
    destruct (Options.trimWhitespace o).
    + intros Hl. apply in_map_iff in Hl as (x & <- & Hx).
      apply filter_In in Hx as [_ Hx]. rewrite trim_twice.
      now apply Hblank.
    + intros Hl. apply filter_In in Hl as [_ Hl]. now apply Hblank.
  - intros Ht l. rewrite Ht. intros Hl.
    apply in_map_iff in Hl as (x & <- & _). apply trim_twice.
  - destruct (Options.removeEmptyLines o); destruct (Options.trimWhitespace o);
      rewrite ?length_map; try apply filter_length_le; apply Nat.le_refl.
Qed.

(** A text of blank and padded lines, read on the class with both options
    on: two trimmed lines remain, by [formatted_lines_are_clean]. *)
Lemma formatted_lines_are_clean_witness :
  exists lines,
    "a" ++ String newline "b c" = join (String newline "") lines
    /\ 2 = List.length lines
    /\ forall l, In l lines -> trim l = l.
Proof.
  destruct (formatted_lines_are_clean
              (mkEnv
                 (fun _ =>
                    inr (Fixture.textResponse
                           (" a " ++ String newline
                              ("  " ++ String newline " b c "))))
                 Fixture.clock)
              ThisClass "x.txt"
              (Options.mkGiven (Some true) (Some true) None)
              (Formatted.mk
                 (Read.mk ("a" ++ String newline "b c") "x.txt" "x.txt" 12 3
                    3 12 Fixture.clock "UTF-8" "text/plain" None)
                 (" a " ++ String newline ("  " ++ String newline " b c "))
                 (Options.mk true true (String newline ""))
                 2))
    as (_ & lines & Hjoin & Hlen & _ & Htrim & _).
  - reflexivity.
  - exists lines. split; [exact Hjoin|]. split; [exact Hlen|].
    exact (Htrim eq_refl).
Defined.

(** ** ManifestUpdater: scanDirectory and the manifest it builds *)

Module Updater.

(** The file system as the updater uses it: fs.readdirSync(dir),
    fs.statSync(p).isFile(), fs.readFileSync(p, 'utf8'), each of which may
    throw, and path.join. *)
Record Fs : Type := mkFs {
  readdirSync : string -> Exc (list string);
  statIsFile : string -> Exc bool;
  readFileSync : string -> Exc string;
  pathJoin : string -> string -> string
}.

Definition storyDir : string := "./src/StoryTxt/".

(** The entry pushed in the [catch] block of scanDirectory. *)
Definition fallbackEntry : Entry.t :=
  Entry.mk (storyDir ++ "example.txt") "Example Text File"
    "Sample text file for testing the TextFileReaderService with multiple lines and features demonstration".

(** The [fileInfo] object built for a directory item and its content. *)
Definition fileInfoOf (item content : string) : Entry.t :=
  let firstLine := trim (hd EmptyString (splitChar newline content)) in
  Entry.mk (storyDir ++ item)
    (extractTitle firstLine (removeFirst ".txt" item))
    (generateFileInfo content item).

(** The [for] loop of scanDirectory on the items still to visit: the array
    [files] as it stands when the loop ends, and the exception that ended
    it, if any. *)
Fixpoint scanItems (fs : Fs) (items : list string) (files : list Entry.t)
  : list Entry.t * option Exn :=
  match items with
  | [] => (files, None)
  | item :: rest =>
      let itemPath := pathJoin fs storyDir item in
      match statIsFile fs itemPath with
      | inl e => (files, Some e)
      | inr isFile =>
          if isFile && endsWith (toLowerCase item) ".txt" then
            match readFileSync fs itemPath with
            | inl e => (files, Some e)
            | inr content =>
                let firstLine :=
                  trim (hd EmptyString (splitChar newline content)) in
                if isStoryFile item firstLine content
                then scanItems fs rest (files ++ [fileInfoOf item content])%list
                else scanItems fs rest files
            end
          else scanItems fs rest files
      end
  end.

Definition scanDirectory (fs : Fs) : list Entry.t :=
  match readdirSync fs storyDir with
  | inl _ => [fallbackEntry]
  | inr items =>
      match scanItems fs items [] with
      | (files, None) => files
      | (files, Some _) => (files ++ [fallbackEntry])%list
      end
  end.

(** The manifest object updateManifest hands to writeManifest. *)
Record ManifestFile : Type := mkManifestFile {
  folderPath : string;
  generatedAt : string;
  textFiles : list Entry.t;
  totalFiles : nat;
  scanMethod : string;
  version : string
}.

Definition manifestOf (fs : Fs) (clock : string) : ManifestFile :=
  let textFiles := scanDirectory fs in
  mkManifestFile storyDir clock textFiles (List.length textFiles)
    "auto-updated" "1.1.0".

End Updater.

Section UpdaterFacts.

Variable fs : Updater.Fs.

(** An entry the loop adds for a directory item: the item ends with ".txt",
    its name holds no administrative word, and its file was read. *)
Definition ScannedItem (e : Entry.t) : Prop :=
  exists item content,
    e = Updater.fileInfoOf item content
    /\ Updater.readFileSync fs (Updater.pathJoin fs Updater.storyDir item)
       = inr content
    /\ TextPath item
    /\ ~ Administrative item
    /\ isStoryFile item (trim (hd EmptyString (splitChar newline content)))
         content = true.

Lemma isStoryFile_not_administrative (fileName firstLine content : string) :
  isStoryFile fileName firstLine content = true -> ~ Administrative fileName.
Proof.
  intros H A. rewrite (isStoryFile_administrative _ _ _ A) in H.
  discriminate H.
Qed.

Lemma scanItems_entries (items : list string) (files : list Entry.t) :
  forall e, In e (fst (Updater.scanItems fs items files)) ->
            In e files \/ ScannedItem e.
Proof.
  revert files. induction items as [|item rest IH]; intros files e;
    cbn [Updater.scanItems]; [now left|].
  destruct (Updater.statIsFile fs _) as [x|isFile]; [now left|].
  destruct (isFile && endsWith (toLowerCase item) ".txt") eqn:G;
    [|apply IH].
  apply andb_true_iff in G as [_ G].
  destruct (Updater.readFileSync fs _) as [x|content] eqn:R; [now left|].
  cbv zeta.
  destruct (isStoryFile item _ content) eqn:S; [|apply IH].
  intros H. apply IH in H as [H | H]; [|now right].
  apply in_app_or in H as [H | [<- | []]]; [now left|].
  right. exists item, content. split; [reflexivity|]. split; [exact R|].
  split; [now apply endsWith_iff|]. split; [|exact S].
  now apply isStoryFile_not_administrative in S.
Qed.

Lemma scanDirectory_entries (e : Entry.t) :
  In e (Updater.scanDirectory fs) -> e = Updater.fallbackEntry \/ ScannedItem e.
Proof.
  unfold Updater.scanDirectory.
  destruct (Updater.readdirSync fs Updater.storyDir) as [x|items].
  - intros [<- | []]. now left.
  - pose proof (scanItems_entries items [] e) as H.
    destruct (Updater.scanItems fs items []) as [files [x|]]; cbn [fst] in H.
    + intros Hin. apply in_app_or in Hin as [Hin | [<- | []]]; [|now left].
      destruct (H Hin) as [[] | Hs]. now right.
    + intros Hin. destruct (H Hin) as [[] | Hs]. now right.
Qed.

End UpdaterFacts.

(** In front of a file name the folder "./src/storytxt/" adds no
    administrative word. *)
Lemma storyDir_adds_no_word (item : string) :
  Administrative (Updater.storyDir ++ item) -> Administrative item.
Proof.
  unfold Administrative. rewrite toLowerCase_append.
  rewrite <- !includes_iff. intros H. exact H.
Qed.

Lemma scanned_isStoryEntry (fs : Updater.Fs) (e : Entry.t) :
  ScannedItem fs e -> isStoryEntry e = true.
Proof.
  intros (item & content & -> & _ & Ht & Ha & _).
  apply isStoryEntry_iff. cbn [Updater.fileInfoOf Entry.path]. split.
  - intros A. now apply storyDir_adds_no_word in A.
  - unfold TextPath in *. rewrite toLowerCase_append.
    now apply EndsWith_append.
Qed.

Module UpdaterFixture.

(** A folder with a story, a README and a note; every item is a file. *)
Definition folder : Updater.Fs :=
  Updater.mkFs
    (fun _ => inr ["alpha.txt"; "README.txt"; "notes.md"])
    (fun _ => inr true)
    (fun p =>
       if String.eqb p "./src/StoryTxt/alpha.txt" then inr Fixture.alphaText
       else if String.eqb p "./src/StoryTxt/README.txt"
       then inr ("Read me" ++ String newline "first")
       else inl (mkExn "Error" "ENOENT"))
    (fun dir item => dir ++ item).

(** The same folder with an item that cannot be read in second place. *)
Definition broken : Updater.Fs :=
  Updater.mkFs
    (fun _ => inr ["alpha.txt"; "lost.txt"; "gamma.txt"])
    (fun _ => inr true)
    (fun p =>
       if String.eqb p "./src/StoryTxt/alpha.txt" then inr Fixture.alphaText
       else if String.eqb p "./src/StoryTxt/gamma.txt"
       then inr Fixture.gammaText
       else inl (mkExn "Error" "ENOENT"))
    (fun dir item => dir ++ item).

End UpdaterFixture.

Example scanDirectory_of_folder :
  Updater.scanDirectory UpdaterFixture.folder
  = [Entry.mk "./src/StoryTxt/alpha.txt" "The Long Night"
       "Short story with 2 lines (6 words)"].
Proof. reflexivity. Qed.

Lemma filter_all_true {A : Type} (p : A -> bool) (l : list A) :
  (forall x, In x l -> p x = true) -> filter p l = l.
Proof.
  induction l as [|a l IH]; intros H; [reflexivity|].
  cbn [filter]. rewrite (H a (or_introl eq_refl)), IH; [reflexivity|].
  intros x Hx. apply H. now right.
Qed.

(** X16. Every entry the updater puts in the manifest passes the filter of
    the scanner, the fallback entry of its [catch] block included; so when
    the scanner fetches a manifest whose textFiles are the ones the updater
    wrote, it lists them all, in the same order.  totalFiles is their
    number. *)
Theorem updater_manifest_is_served_whole (fs : Updater.Fs) (env : Env)
  (clock : string) :
  Updater.totalFiles (Updater.manifestOf fs clock)
  = List.length (Updater.textFiles (Updater.manifestOf fs clock))
  /\ (forall e, In e (Updater.textFiles (Updater.manifestOf fs clock)) ->
        ~ Administrative (Entry.path e) /\ TextPath (Entry.path e))
  /\ (ManifestReachable env Stories.storyFolder
        (mkManifest (Some (Updater.textFiles (Updater.manifestOf fs clock)))) ->
      Updater.textFiles (Updater.manifestOf fs clock) <> [] ->
      getTextFilesFromFolder env Stories.storyFolder
      = Updater.textFiles (Updater.manifestOf fs clock)).
Proof.
  cbn [Updater.manifestOf Updater.totalFiles Updater.textFiles].
  assert (K : forall e, In e (Updater.scanDirectory fs) ->
                        isStoryEntry e = true).
  { intros e He. apply scanDirectory_entries in He as [-> | He].
    - reflexivity.
    - now apply scanned_isStoryEntry with fs. }
  split; [reflexivity|]. split.
  - intros e He. apply isStoryEntry_iff. now apply K.
  - intros Hreach Hne.
    rewrite (getTextFiles_reachable env _ _ Hreach).
    unfold storyFilesOf. cbn [textFiles].
    rewrite (filter_all_true _ _ K).
    destruct (Updater.scanDirectory fs); [congruence | reflexivity].
Qed.

(** The manifest written for the sample folder, served by the sample
    server, is listed whole, by [updater_manifest_is_served_whole]. *)
Lemma updater_manifest_is_served_whole_witness :
  getTextFilesFromFolder
    (Fixture.server (Updater.scanDirectory UpdaterFixture.folder))
    Stories.storyFolder
  = Updater.scanDirectory UpdaterFixture.folder.
Proof.
  destruct (updater_manifest_is_served_whole UpdaterFixture.folder
              (Fixture.server (Updater.scanDirectory UpdaterFixture.folder))
              Fixture.clock) as (_ & _ & Served).
  apply Served.
  - eexists. split; [reflexivity|]. split; reflexivity.
  - discriminate.
Defined.

(** X17. The title and the info the updater stores for a directory item are
    the ones getFileInfo derives at run time from the same content: for an
    item name without a slash that ends with ".txt", getFileInfo on the
    entry's path succeeds with the entry's path, title and info. *)
Theorem manifest_entry_matches_getFileInfo (env : Env)
  (item content : string) :
  occurrences "/" item = 0 ->
  TextPath item ->
  Fetched env (Updater.storyDir ++ item) content ->
  exists d,
    getFileInfo env (Entry.path (Updater.fileInfoOf item content)) = Success d
    /\ Doc.path d = Entry.path (Updater.fileInfoOf item content)
    /\ Doc.title d = Entry.title (Updater.fileInfoOf item content)
    /\ Doc.info d = Entry.info (Updater.fileInfoOf item content)
    /\ Doc.fileName d = removeFirst ".txt" item.
Proof.
  intros Hslash Ht Hf. cbn [Updater.fileInfoOf Entry.path Entry.title
                            Entry.info].
  assert (Hp : TextPath (Updater.storyDir ++ item)).
  { unfold TextPath in *. rewrite toLowerCase_append.
    now apply EndsWith_append. }
  rewrite (getFileInfo_fetched env _ content Hp Hf).
  eexists. split; [reflexivity|].
  unfold docOf. cbn [Doc.path Doc.title Doc.info Doc.fileName].
  assert (Hpop : pop (splitChar "/" (Updater.storyDir ++ item)) = item).
  { change (Updater.storyDir ++ item)
      with ("./src/StoryTxt" ++ String "/" item).
    now apply pop_splitChar_append. }
  rewrite Hpop. repeat split; reflexivity.
Qed.

(** alpha.txt: the entry scanDirectory makes and the record getFileInfo
    makes carry the same title, by [manifest_entry_matches_getFileInfo]. *)
Lemma manifest_entry_matches_getFileInfo_witness :
  exists d,
    getFileInfo (Fixture.server []) "./src/StoryTxt/alpha.txt" = Success d
    /\ Doc.title d = "The Long Night"
    /\ Doc.info d = "Short story with 2 lines (6 words)".
Proof.
  destruct (manifest_entry_matches_getFileInfo (Fixture.server [])
              "alpha.txt" Fixture.alphaText)
    as (d & Hd & _ & Htitle & Hinfo & _).
  - reflexivity.
  - apply endsWith_iff. reflexivity.
  - eexists. split; [reflexivity|]. split; reflexivity.
  - exists d. split; [exact Hd|]. split; [exact Htitle | exact Hinfo].
Defined.

Lemma scanItems_app (fs : Updater.Fs) (a b : list string)
  (files : list Entry.t) :
  Updater.scanItems fs (a ++ b)%list files =
  match Updater.scanItems fs a files with
  | (found, None) => Updater.scanItems fs b found
  | (found, Some e) => (found, Some e)
  end.
Proof.
  revert files. induction a as [|item a IH]; intros files;
    cbn [app Updater.scanItems]; [reflexivity|].
  destruct (Updater.statIsFile fs _) as [x|isFile]; [reflexivity|].
  destruct (isFile && endsWith (toLowerCase item) ".txt"); [|apply IH].
  destruct (Updater.readFileSync fs _) as [x|content]; [reflexivity|].
  cbv zeta. destruct (isStoryFile item _ content); apply IH.
Qed.

(** X18. How scanDirectory ends.  When the folder cannot be listed the
    result is the fallback entry alone.  When an item cannot be inspected or
    read, the scan stops there: the result is what was found before that
    item followed by the fallback entry, and the items after it are not
    looked at.  An empty folder gives the empty list. *)
Theorem scanDirectory_on_errors (fs : Updater.Fs) :
  (forall e, Updater.readdirSync fs Updater.storyDir = inl e ->
             Updater.scanDirectory fs = [Updater.fallbackEntry])
  /\ (Updater.readdirSync fs Updater.storyDir = inr [] ->
      Updater.scanDirectory fs = [])
  /\ (forall before bad after found,
        Updater.readdirSync fs Updater.storyDir
        = inr (before ++ bad :: after)%list ->
        Updater.scanItems fs before [] = (found, None) ->
        (exists e,
           Updater.statIsFile fs (Updater.pathJoin fs Updater.storyDir bad)
           = inl e)
        \/ (Updater.statIsFile fs (Updater.pathJoin fs Updater.storyDir bad)
            = inr true
            /\ TextPath bad
            /\ exists e,
                 Updater.readFileSync fs
                   (Updater.pathJoin fs Updater.storyDir bad) = inl e) ->
        Updater.scanDirectory fs = (found ++ [Updater.fallbackEntry])%list).
Proof.
  unfold Updater.scanDirectory. split; [|split].
  - intros e ->. reflexivity.
  - intros ->. reflexivity.
  - intros before bad after found -> Hbefore Hbad.
    rewrite scanItems_app, Hbefore. cbn [Updater.scanItems].
    destruct Hbad as [[e ->] | (-> & Ht & e & ->)]; [reflexivity|].
    apply endsWith_iff in Ht. rewrite Ht. reflexivity.
Qed.

(** The second item of the broken folder cannot be read: the result is the
    entry of the first item and the fallback entry, by
    [scanDirectory_on_errors]. *)
Lemma scanDirectory_on_errors_witness :
  Updater.scanDirectory UpdaterFixture.broken
  = [Updater.fileInfoOf "alpha.txt" Fixture.alphaText; Updater.fallbackEntry].
Proof.
  destruct (scanDirectory_on_errors UpdaterFixture.broken) as (_ & _ & Stops).
  apply (Stops ["alpha.txt"] "lost.txt" ["gamma.txt"]
           [Updater.fileInfoOf "alpha.txt" Fixture.alphaText]).
  - reflexivity.
  - reflexivity.
  - right. split; [reflexivity|]. split.
    + apply endsWith_iff. reflexivity.
    + eexists. reflexivity.
Defined.

(** ** The earlier FileScannerService: scanMultipleFolders and
    createFileManifest *)

Module Legacy.

(** The built-in list of the earlier getTextFilesFromFolder. *)
Definition knownTextFiles (folderPath : string) : list Entry.t :=
  [ Entry.mk (folderPath ++ "example.txt") "Example Text File"
      "Sample text file for testing the TextFileReaderService";
    Entry.mk (folderPath ++ "README.txt") "README File"
      "Project documentation and setup instructions" ].

(** The [try] block: [Some l] is [return l]. *)
Definition manifestAttempt (env : Env) (folderPath : string)
  : Exc (option (list Entry.t)) :=
  manifestResponse <- fetch env (folderPath ++ "file-manifest.json") ;;
  if ok manifestResponse then
    manifest <- json manifestResponse ;;
    (* manifest.textFiles || knownTextFiles: an array, even an empty one, is
       truthy *)
    ret (Some (match textFiles manifest with
               | Some files => files
               | None => knownTextFiles folderPath
               end))
  else ret None.

Definition getTextFilesFromFolder (env : Env) (folderPath : string)
  : list Entry.t :=
  match manifestAttempt env folderPath with
  | inr (Some files) => files
  | inr None => knownTextFiles folderPath
  | inl _ => knownTextFiles folderPath
  end.

Definition scanTextFiles (env : Env) (this : This) (folderPath : string)
  : Result Scan.t :=
  tryCatch env
    (if negb (truthy folderPath) then throwError "Invalid folder path provided"
     else
       let normalizedPath := normalizePath folderPath in
       response <- fetch env normalizedPath ;;
       if negb (ok response) then
         throwError ("Failed to access folder: "
                     ++ numberToString (status response) ++ " "
                     ++ statusText response)
       else
         files <- viaThis this "getTextFilesFromFolder"
                    (getTextFilesFromFolder env normalizedPath) ;;
         ret (Scan.mk normalizedPath (List.length files) files (now env)
                "folder-scan" "browser")).

Record failedScan : Type := mkFailedScan {
  folderPath : string;
  error : string
}.

(** The [data] of a successful scanMultipleFolders. *)
Record multi : Type := mkMulti {
  successfulScans : list (Result Scan.t);
  failedScans : list failedScan;
  totalFolders : nat;
  successfulFolders : nat;
  failedFolders : nat;
  totalFiles : nat;
  scanTimestamp : string
}.

(** folderPaths.map(folderPath => this.scanTextFiles(folderPath)): what the
    promises resolve to.  The arrow function takes [this] from the method;
    scanTextFiles is async with its whole body inside [try], so its promise
    always fulfils. *)
Definition promises (env : Env) (this : This) (folderPaths : list string)
  : Exc (list (Result Scan.t)) :=
  mapExc
    (fun folderPath =>
       viaThis this "scanTextFiles" (scanTextFiles env this folderPath))
    folderPaths.

(** Promise.allSettled on promises that all fulfil. *)
Definition allSettled (fulfilled : list (Result Scan.t))
  : list (Settled (Result Scan.t)) :=
  map Fulfilled fulfilled.

(** The callback of results.forEach, on successfulScans, failedScans and
    totalFiles. *)
Definition collect (folderPaths : list string)
  (acc : list (Result Scan.t) * list failedScan * nat)
  (item : nat * Settled (Result Scan.t))
  : list (Result Scan.t) * list failedScan * nat :=
  let '(successfulScans, failedScans, totalFiles) := acc in
  let '(index, result) := item in
  match result with
  | Fulfilled (Success data) =>
      ((successfulScans ++ [Success data])%list, failedScans,
       totalFiles + Scan.totalFiles data)
  | Fulfilled (Failure err) =>
      (successfulScans,
       (failedScans
          ++ [mkFailedScan (nth index folderPaths EmptyString)
                (message err)])%list,
       totalFiles)
  | Rejected reason =>
      (successfulScans,
       (failedScans
          ++ [mkFailedScan (nth index folderPaths EmptyString)
                (exnMessage reason)])%list,
       totalFiles)
  end.

Definition forEach (folderPaths : list string)
  (results : list (Settled (Result Scan.t)))
  : list (Result Scan.t) * list failedScan * nat :=
  fold_left (collect folderPaths)
    (combine (seq 0 (List.length results)) results) ([], [], 0).

Definition scanMultipleFolders (env : Env) (this : This) (arg : PathsArg)
  : Result multi :=
  tryCatch env
    (match arg with
     | NotAnArray => throwError "folderPaths must be an array"
     | PathArray folderPaths =>
         fulfilled <- promises env this folderPaths ;;
         let results := allSettled fulfilled in
         let '(successfulScans, failedScans, totalFiles) :=
           forEach folderPaths results in
         ret (mkMulti successfulScans failedScans
                (List.length folderPaths)
                (List.length successfulScans)
                (List.length failedScans)
                totalFiles (now env))
     end).

(** The [data] of a successful createFileManifest. *)
Record manifestData : Type := mkManifestData {
  manifestFolderPath : string;
  generatedAt : string;
  manifestTextFiles : list Entry.t;
  manifestTotalFiles : nat
}.

Definition createFileManifest (env : Env) (this : This)
  (folderPath : string) : Result manifestData :=
  let body : Exc (Result manifestData) :=
    scanResult <- viaThis this "scanTextFiles"
                    (scanTextFiles env this folderPath) ;;
    match scanResult with
    | Failure err => ret (Failure err)
    | Success data =>
        ret (Success
               (mkManifestData folderPath (now env)
                  (map (fun file =>
                          Entry.mk (Entry.path file) (Entry.title file)
                            (Entry.info file))
                       (Scan.files data))
                  (Scan.totalFiles data)))
    end in
  match body with
  | inr result => result
  | inl error =>
      Failure (mkErrorInfo (exnMessage error) (exnName error) (now env))
  end.

End Legacy.

(** What one folder adds to successfulScans, failedScans and totalFiles,
    when the scans are made on the class. *)
Definition scanSuccessOf (env : Env) (folderPath : string)
  : list (Result Scan.t) :=
  match Legacy.scanTextFiles env ThisClass folderPath with
  | Success data => [Success data]
  | Failure _ => []
  end.

Definition scanFailureOf (env : Env) (folderPath : string)
  : list Legacy.failedScan :=
  match Legacy.scanTextFiles env ThisClass folderPath with
  | Success _ => []
  | Failure err => [Legacy.mkFailedScan folderPath (message err)]
  end.

(** The number of files a scan of the folder lists; 0 when it fails. *)
Definition filesListed (env : Env) (folderPath : string) : nat :=
  match Legacy.scanTextFiles env ThisClass folderPath with
  | Success data => List.length (Scan.files data)
  | Failure _ => 0
  end.

Section LegacyFacts.

Variable env : Env.

(** The scan up to the point where [this] is used. *)
Lemma legacy_scan_cases (this : This) (folderPath : string) :
  folderPath <> "" ->
  Legacy.scanTextFiles env this folderPath =
  match fetch env (normalizePath folderPath) with
  | inl e => Failure (mkErrorInfo (exnMessage e) (exnName e) (now env))
  | inr response =>
      if ok response then
        match this with
        | ThisClass =>
            Success
              (Scan.mk (normalizePath folderPath)
                 (List.length
                    (Legacy.getTextFilesFromFolder env
                       (normalizePath folderPath)))
                 (Legacy.getTextFilesFromFolder env (normalizePath folderPath))
                 (now env) "folder-scan" "browser")
        | ThisUndefined =>
            Failure
              (mkErrorInfo
                 "Cannot read properties of undefined (reading 'getTextFilesFromFolder')"
                 "TypeError" (now env))
        end
      else
        Failure
          (mkErrorInfo
             ("Failed to access folder: " ++ numberToString (status response)
              ++ " " ++ statusText response) "Error" (now env))
  end.
Proof.
  intros Hne. unfold Legacy.scanTextFiles.
  destruct folderPath as [|c r]; [congruence|]. cbn [truthy negb].
  destruct (fetch env (normalizePath (String c r))) as [e|response];
    cbn [bind]; [reflexivity|].
  destruct (ok response); [|reflexivity].
  destruct this; reflexivity.
Qed.

Lemma legacy_scan_totalFiles (this : This) (folderPath : string)
  (data : Scan.t) :
  Legacy.scanTextFiles env this folderPath = Success data ->
  Scan.totalFiles data = List.length (Scan.files data)
  /\ Scan.files data
     = Legacy.getTextFilesFromFolder env (normalizePath folderPath)
  /\ folderPath <> "".
Proof.
  destruct folderPath as [|c r]; [discriminate|].
  rewrite legacy_scan_cases by discriminate.
  destruct (fetch env _) as [e|response]; [discriminate|].
  destruct (ok response); [|discriminate].
  destruct this; [|discriminate].
  intros H. injection H as <-. repeat split. discriminate.
Qed.

Lemma legacy_promises_of_class (folderPaths : list string) :
  Legacy.promises env ThisClass folderPaths
  = inr (map (Legacy.scanTextFiles env ThisClass) folderPaths).
Proof.
  unfold Legacy.promises.
  induction folderPaths as [|p l IH]; [reflexivity|].
  cbn [mapExc]. rewrite IH. reflexivity.
Qed.

Lemma legacy_forEach_from (pre suf : list string)
  (acc : list (Result Scan.t) * list Legacy.failedScan * nat) :
  fold_left (Legacy.collect (pre ++ suf)%list)
    (combine (seq (List.length pre) (List.length suf))
       (Legacy.allSettled (map (Legacy.scanTextFiles env ThisClass) suf)))
    acc
  = ((fst (fst acc) ++ flat_map (scanSuccessOf env) suf)%list,
     (snd (fst acc) ++ flat_map (scanFailureOf env) suf)%list,
     snd acc + list_sum (map (filesListed env) suf)).
Proof.
  revert pre acc. induction suf as [|p suf IH]; intros pre [[good bad] n].
  - simpl. now rewrite !app_nil_r, Nat.add_0_r.
  - cbn [List.length seq Legacy.allSettled map combine fold_left flat_map
         list_sum].
    replace (pre ++ p :: suf)%list with ((pre ++ [p]) ++ suf)%list
      by now rewrite <- app_assoc.
    replace (S (List.length pre)) with (List.length (pre ++ [p])%list)
      by (rewrite length_app; simpl; lia).
    fold (Legacy.allSettled (map (Legacy.scanTextFiles env ThisClass) suf)).
    assert (N : nth (List.length pre) ((pre ++ [p]) ++ suf)%list EmptyString
                = p).
    { rewrite <- app_assoc. simpl. apply nth_middle. }
    unfold Legacy.collect at 2.
    unfold scanSuccessOf at 1, scanFailureOf at 1, filesListed at 1.
    destruct (Legacy.scanTextFiles env ThisClass p) as [d|err] eqn:S.
    + rewrite IH. cbn [fst snd].
      destruct (legacy_scan_totalFiles ThisClass p d S) as [T _].
      rewrite <- !app_assoc, T. cbn [app].
      change (list_sum (List.length (Scan.files d)
                          :: map (filesListed env) suf))
        with (List.length (Scan.files d)
              + list_sum (map (filesListed env) suf)).
      f_equal. lia.
    + rewrite N, IH. cbn [fst snd]. now rewrite <- !app_assoc.
Qed.

Lemma legacy_forEach_eq (folderPaths : list string) :
  Legacy.forEach folderPaths
    (Legacy.allSettled (map (Legacy.scanTextFiles env ThisClass) folderPaths))
  = (flat_map (scanSuccessOf env) folderPaths,
     flat_map (scanFailureOf env) folderPaths,
     list_sum (map (filesListed env) folderPaths)).
Proof.
  unfold Legacy.forEach.
  replace (List.length
             (Legacy.allSettled
                (map (Legacy.scanTextFiles env ThisClass) folderPaths)))
    with (List.length folderPaths)
    by (unfold Legacy.allSettled; now rewrite !length_map).
  exact (legacy_forEach_from [] folderPaths ([], [], 0)).
Qed.

Lemma scanMultiple_of_class (folderPaths : list string) :
  Legacy.scanMultipleFolders env ThisClass (PathArray folderPaths)
  = Success
      (Legacy.mkMulti
         (flat_map (scanSuccessOf env) folderPaths)
         (flat_map (scanFailureOf env) folderPaths)
         (List.length folderPaths)
         (List.length (flat_map (scanSuccessOf env) folderPaths))
         (List.length (flat_map (scanFailureOf env) folderPaths))
         (list_sum (map (filesListed env) folderPaths))
         (now env)).
Proof.
  unfold Legacy.scanMultipleFolders. rewrite legacy_promises_of_class.
  cbn [bind]. now rewrite legacy_forEach_eq.
Qed.

Lemma scan_lengths (folderPaths : list string) :
  List.length (flat_map (scanSuccessOf env) folderPaths)
  + List.length (flat_map (scanFailureOf env) folderPaths)
  = List.length folderPaths.
Proof.
  induction folderPaths as [|p l IH]; [reflexivity|].
  cbn [flat_map]. rewrite !length_app.
  unfold scanSuccessOf at 1, scanFailureOf at 1.
  destruct (Legacy.scanTextFiles env ThisClass p); simpl; lia.
Qed.

Lemma scanSuccessOf_filter (folderPaths : list string) :
  flat_map (scanSuccessOf env) folderPaths
  = filter success (map (Legacy.scanTextFiles env ThisClass) folderPaths).
Proof.
  induction folderPaths as [|p l IH]; [reflexivity|].
  cbn [flat_map map filter]. unfold scanSuccessOf at 1.
  destruct (Legacy.scanTextFiles env ThisClass p); simpl; now rewrite IH.
Qed.

Lemma scanFailureOf_paths (folderPaths : list string) :
  map Legacy.folderPath (flat_map (scanFailureOf env) folderPaths)
  = filter
      (fun p => negb (success (Legacy.scanTextFiles env ThisClass p)))
      folderPaths.
Proof.
  induction folderPaths as [|p l IH]; [reflexivity|].
  cbn [flat_map filter]. unfold scanFailureOf at 1.
  destruct (Legacy.scanTextFiles env ThisClass p) as [d|err]; simpl;
    now rewrite IH.
Qed.

End LegacyFacts.

(** X19. Called on the class, the earlier scanMultipleFolders always
    succeeds for an array of folders: totalFolders is the length of the
    array, successfulFolders and failedFolders add up to it, the successful
    scans and the failed folders are kept in the order of the array, and
    totalFiles is the sum of the numbers of files the successful scans
    list; it fails exactly for an argument that is not an array.  Called
    through the named export of the module, where [this] is undefined, it
    fails with a TypeError for every non-empty array and succeeds, with
    nothing scanned, for the empty one. *)
Theorem scanMultipleFolders_accounts (env : Env) (folderPaths : list string) :
  (exists data,
     Legacy.scanMultipleFolders env ThisClass (PathArray folderPaths)
     = Success data
     /\ Legacy.totalFolders data = List.length folderPaths
     /\ Legacy.successfulFolders data + Legacy.failedFolders data
        = Legacy.totalFolders data
     /\ Legacy.successfulScans data
        = filter success
            (map (Legacy.scanTextFiles env ThisClass) folderPaths)
     /\ map Legacy.folderPath (Legacy.failedScans data)
        = filter
            (fun p => negb (success (Legacy.scanTextFiles env ThisClass p)))
            folderPaths
     /\ Legacy.totalFiles data = list_sum (map (filesListed env) folderPaths))
  /\ (forall arg,
        success (Legacy.scanMultipleFolders env ThisClass arg) = false
        <-> arg = NotAnArray)
  /\ (forall p rest,
        Legacy.scanMultipleFolders env ThisUndefined (PathArray (p :: rest))
        = Failure
            (mkErrorInfo
               "Cannot read properties of undefined (reading 'scanTextFiles')"
               "TypeError" (now env)))
  /\ Legacy.scanMultipleFolders env ThisUndefined (PathArray [])
     = Success (Legacy.mkMulti [] [] 0 0 0 0 (now env)).
Proof.
  pose proof (scanMultiple_of_class env folderPaths) as E.
  split.
  { eexists. split; [exact E|]. cbn.
    split; [reflexivity|]. split; [apply scan_lengths|].
    split; [apply scanSuccessOf_filter|].
    split; [apply scanFailureOf_paths | reflexivity]. }
  split.
  { intros [l|]; split; intros H; try congruence; try reflexivity.
    exfalso. rewrite scanMultiple_of_class in H. discriminate H. }
  split; [intros p rest; reflexivity | reflexivity].
Qed.

Lemma map_entry_id (l : list Entry.t) :
  map (fun file =>
         Entry.mk (Entry.path file) (Entry.title file) (Entry.info file)) l
  = l.
Proof.
  induction l as [|[p t i] l IH]; [reflexivity|]. cbn [map]. now rewrite IH.
Qed.

Lemma legacy_getTextFiles_reachable (env : Env) (folderPath : string)
  (files : list Entry.t) :
  ManifestReachable env folderPath (mkManifest (Some files)) ->
  Legacy.getTextFilesFromFolder env folderPath = files.
Proof.
  intros (response & Hf & Hok & Hj).
  unfold Legacy.getTextFilesFromFolder, Legacy.manifestAttempt.
  rewrite Hf. cbn [bind]. rewrite Hok, Hj. reflexivity.
Qed.

(** The folder itself answers with an ok response. *)
Definition FolderReachable (env : Env) (folderPath : string) : Prop :=
  exists response,
    fetch env (normalizePath folderPath) = inr response /\ ok response = true.

Lemma legacy_scan_listed (env : Env) (folderPath : string)
  (files : list Entry.t) :
  folderPath <> "" ->
  FolderReachable env folderPath ->
  ManifestReachable env (normalizePath folderPath) (mkManifest (Some files)) ->
  Legacy.scanTextFiles env ThisClass folderPath
  = Success (Scan.mk (normalizePath folderPath) (List.length files) files
               (now env) "folder-scan" "browser").
Proof.
  intros Hne (response & Hf & Hok) Hm.
  rewrite (legacy_scan_cases env ThisClass folderPath Hne), Hf, Hok.
  now rewrite (legacy_getTextFiles_reachable env _ files Hm).
Qed.

Lemma legacy_scan_detached (env : Env) (folderPath : string) :
  folderPath <> "" ->
  FolderReachable env folderPath ->
  Legacy.scanTextFiles env ThisUndefined folderPath
  = Failure
      (mkErrorInfo
         "Cannot read properties of undefined (reading 'getTextFilesFromFolder')"
         "TypeError" (now env)).
Proof.
  intros Hne (response & Hf & Hok).
  now rewrite (legacy_scan_cases env ThisUndefined folderPath Hne), Hf, Hok.
Qed.

(** X20. The earlier scanner needs the folder itself: for a non-empty path
    whose folder request is rejected or not ok, scanTextFiles fails -- with
    "Failed to access folder: <status> <statusText>" in the second case --
    whatever its receiver and even when the manifest could be had.  When
    the folder answers and the function is called on the class, the
    textFiles of a reachable manifest are listed as they are, unfiltered:
    an empty list stays empty and a README entry stays in.  When the folder
    answers and the function is called through the named export of the
    module, where [this] is undefined, it fails with a TypeError. *)
Theorem legacy_scan_needs_the_folder (env : Env) (folderPath : string) :
  folderPath <> "" ->
  (forall this e,
     fetch env (normalizePath folderPath) = inl e ->
     Legacy.scanTextFiles env this folderPath
     = Failure (mkErrorInfo (exnMessage e) (exnName e) (now env)))
  /\ (forall this r,
        fetch env (normalizePath folderPath) = inr r ->
        ok r = false ->
        Legacy.scanTextFiles env this folderPath
        = Failure (mkErrorInfo
                     ("Failed to access folder: " ++ numberToString (status r)
                      ++ " " ++ statusText r) "Error" (now env)))
  /\ (forall files,
        FolderReachable env folderPath ->
        ManifestReachable env (normalizePath folderPath)
          (mkManifest (Some files)) ->
        exists data,
          Legacy.scanTextFiles env ThisClass folderPath = Success data
          /\ Scan.files data = files
          /\ Scan.totalFiles data = List.length files)
  /\ (FolderReachable env folderPath ->
      Legacy.scanTextFiles env ThisUndefined folderPath
      = Failure
          (mkErrorInfo
             "Cannot read properties of undefined (reading 'getTextFilesFromFolder')"
             "TypeError" (now env))).
Proof.
  intros Hne. split; [|split; [|split]].
  - intros this e He.
    now rewrite (legacy_scan_cases env this folderPath Hne), He.
  - intros this r Hr Hok.
    now rewrite (legacy_scan_cases env this folderPath Hne), Hr, Hok.
  - intros files Hfolder Hm.
    rewrite (legacy_scan_listed env folderPath files Hne Hfolder Hm).
    eexists. split; [reflexivity|]. split; reflexivity.
  - now apply legacy_scan_detached.
Qed.

(** The sample server answers 404 for the folder itself, so the earlier
    scan fails although the manifest is there, by
    [legacy_scan_needs_the_folder]. *)
Lemma legacy_scan_needs_the_folder_witness :
  Legacy.scanTextFiles (Fixture.server [Fixture.alpha]) ThisClass
    "./src/StoryTxt/"
  = Failure (mkErrorInfo "Failed to access folder: 404 Not Found" "Error"
               Fixture.clock).
Proof.
  destruct (legacy_scan_needs_the_folder (Fixture.server [Fixture.alpha])
              "./src/StoryTxt/") as (_ & NotOk & _).
  - discriminate.
  - apply (NotOk ThisClass Fixture.notFound); reflexivity.
Defined.

(** X21. Called on the class, createFileManifest fails exactly as
    scanTextFiles does; on success the manifest holds the scanned entries
    unchanged and their number, under the folder path as it was given, and
    it is a fixed point: when the entries of the manifest are served back
    as the manifest of the folder, a second manifest has the same
    textFiles.  Called through the named export of the module, where [this]
    is undefined, it fails with a TypeError for every folder path. *)
Theorem createFileManifest_round_trip (env env' : Env) (folderPath : string) :
  (forall err,
     Legacy.scanTextFiles env ThisClass folderPath = Failure err ->
     Legacy.createFileManifest env ThisClass folderPath = Failure err)
  /\ (forall data,
        Legacy.scanTextFiles env ThisClass folderPath = Success data ->
        exists m,
          Legacy.createFileManifest env ThisClass folderPath = Success m
          /\ Legacy.manifestTextFiles m = Scan.files data
          /\ Legacy.manifestTotalFiles m
             = List.length (Legacy.manifestTextFiles m)
          /\ Legacy.manifestFolderPath m = folderPath
          /\ (FolderReachable env' folderPath ->
              ManifestReachable env' (normalizePath folderPath)
                (mkManifest (Some (Legacy.manifestTextFiles m))) ->
              exists m',
                Legacy.createFileManifest env' ThisClass folderPath
                = Success m'
                /\ Legacy.manifestTextFiles m' = Legacy.manifestTextFiles m))
  /\ Legacy.createFileManifest env ThisUndefined folderPath
     = Failure
         (mkErrorInfo
            "Cannot read properties of undefined (reading 'scanTextFiles')"
            "TypeError" (now env)).
Proof.
  split; [|split].
  - intros err H. unfold Legacy.createFileManifest. cbv zeta.
    cbn [viaThis ret bind]. now rewrite H.
  - intros data H. unfold Legacy.createFileManifest at 1. cbv zeta.
    cbn [viaThis ret bind]. rewrite H. rewrite map_entry_id.
    destruct (legacy_scan_totalFiles env ThisClass folderPath data H)
      as (T & _ & Hne).
    eexists. split; [reflexivity|].
    cbn [Legacy.manifestTextFiles Legacy.manifestTotalFiles
         Legacy.manifestFolderPath].
    split; [reflexivity|]. split; [exact T|]. split; [reflexivity|].
    intros Hfolder Hmanifest.
    unfold Legacy.createFileManifest. cbv zeta. cbn [viaThis ret bind].
    rewrite (legacy_scan_listed env' folderPath _ Hne Hfolder Hmanifest).
    rewrite map_entry_id. eexists. split; reflexivity.
  - reflexivity.
Qed.

Module LegacyFixture.

(** A server that answers for the folder and for its manifest. *)
Definition server (entries : list Entry.t) : Env :=
  mkEnv
    (fun url =>
       if String.eqb url "./docs/"
       then inr (Fixture.textResponse "<html>")
       else if String.eqb url "./docs/file-manifest.json"
       then inr (Fixture.manifestResponse (mkManifest (Some entries)))
       else inr Fixture.notFound)
    Fixture.clock.

End LegacyFixture.

(** A manifest of a folder with a README is made on the class and, served
    back, made again with the same entries, by
    [createFileManifest_round_trip]. *)
Lemma createFileManifest_round_trip_witness :
  exists m',
    Legacy.createFileManifest (LegacyFixture.server [Fixture.readme])
      ThisClass "./docs"
    = Success m'
    /\ Legacy.manifestTextFiles m' = [Fixture.readme].
Proof.
  destruct (createFileManifest_round_trip
              (LegacyFixture.server [Fixture.readme])
              (LegacyFixture.server [Fixture.readme]) "./docs")
    as (_ & Made & _).
  destruct (Made (Scan.mk "./docs/" 1 [Fixture.readme] Fixture.clock
                    "folder-scan" "browser") eq_refl)
    as (m & _ & Hfiles & _ & _ & Again).
  cbn [Scan.files] in Hfiles. rewrite Hfiles in Again.
  apply Again.
  - eexists. split; reflexivity.
  - eexists. split; [reflexivity|]. split; reflexivity.
Defined.

(** ** isStoryFile: short files *)

(** X22. The updater never takes a file of a single line for a story, and
    never a file with an administrative word in its name, whatever the
    content; what it decides does not depend on the first line it is
    given. *)
Theorem isStoryFile_needs_two_lines (fileName firstLine content : string) :
  (lineTotal content <= 1 -> isStoryFile fileName firstLine content = false)
  /\ (Administrative fileName ->
      isStoryFile fileName firstLine content = false)
  /\ (forall otherLine,
        isStoryFile fileName otherLine content
        = isStoryFile fileName firstLine content).
Proof.
  split; [|split].
  - unfold lineTotal. intros H.
    assert (H0 : occurrences newline content = 0) by lia.
    unfold isStoryFile. cbv zeta.
    rewrite (splitChar_without newline content H0).
    destruct (_ || _); [reflexivity|].
    cbn [filter]. destruct (0 <? String.length (trim content)); reflexivity.
  - apply isStoryFile_administrative.
  - reflexivity.
Qed.

(** A one-line file is no story, by [isStoryFile_needs_two_lines]. *)
Lemma isStoryFile_needs_two_lines_witness :
  isStoryFile "tale.txt" "Once" "Once upon a time" = false.
Proof.
  destruct (isStoryFile_needs_two_lines "tale.txt" "Once" "Once upon a time")
    as [Short _].
  apply Short. vm_compute. lia.
Defined.

(** ** The file name of a record *)

Lemma occurrences_append (d : ascii) (a b : string) :
  occurrences d (a ++ b) = occurrences d a + occurrences d b.
Proof.
  induction a as [|c a IH]; simpl; [reflexivity|]. rewrite IH. lia.
Qed.

(** Removing the first ".txt" of [base ++ ".txt"] gives [base] when [base]
    holds no ".txt". *)
Lemma removeFirst_extension (base : string) :
  ~ Contains base ".txt" -> removeFirst ".txt" (base ++ ".txt") = base.
Proof.
  induction base as [|c r IH]; intros H; [reflexivity|].
  cbn [append removeFirst].
  destruct (startsWith (String c (r ++ ".txt")) ".txt") eqn:E.
  - exfalso. apply H. apply includes_iff.
    destruct r as [|c1 [|c2 [|c3 r]]];
      cbn [append startsWith] in E; cbn [includes startsWith];
      [| | | rewrite E; reflexivity];
      repeat match type of E with
             | context [Ascii.eqb ?a ?b] =>
                 is_var b; destruct (Ascii.eqb a b)
             end;
      vm_compute in E; discriminate E.
  - f_equal. apply IH. intros (pre & post & ->). apply H.
    exists (String c pre), post. reflexivity.
Qed.

(** X23. For a path whose last segment is [base ++ ".txt"], where [base]
    holds neither a slash nor ".txt", the fileName of the record of
    getFileInfo is [base], and that of readTextFile is the whole segment. *)
Theorem fileName_is_base_name (env : Env) (dir base content : string) :
  occurrences "/" base = 0 ->
  ~ Contains base ".txt" ->
  Fetched env (dir ++ String "/" (base ++ ".txt")) content ->
  (exists d,
     getFileInfo env (dir ++ String "/" (base ++ ".txt")) = Success d
     /\ Doc.fileName d = base)
  /\ (exists r,
        readTextFile env (dir ++ String "/" (base ++ ".txt")) = Success r
        /\ Read.fileName r = base ++ ".txt").
Proof.
  intros Hslash Htxt Hf.
  assert (Hpop : pop (splitChar "/" (dir ++ String "/" (base ++ ".txt")))
                 = base ++ ".txt").
  { apply pop_splitChar_append. rewrite occurrences_append, Hslash.
    reflexivity. }
  assert (Ht : TextPath (dir ++ String "/" (base ++ ".txt"))).
  { unfold TextPath.
    change (dir ++ String "/" (base ++ ".txt"))
      with (dir ++ (String "/" base ++ ".txt")).
    rewrite <- append_assoc, toLowerCase_append. apply EndsWith_append.
    apply endsWith_iff. reflexivity. }
  split.
  - rewrite (getFileInfo_fetched env _ content Ht Hf).
    eexists. split; [reflexivity|]. unfold docOf. cbn [Doc.fileName].
    rewrite Hpop. now apply removeFirst_extension.
  - destruct (readTextFile_fetched env _ content Ht Hf) as (r & Hr & _).
    exists r. split; [exact Hr|].
    apply readTextFile_success_inv in Hr as (? & ? & _ & _ & _ & ->).
    cbn [Read.fileName]. exact Hpop.
Qed.

(** alpha.txt on the sample server, by [fileName_is_base_name]. *)
Lemma fileName_is_base_name_witness :
  exists d,
    getFileInfo (Fixture.server []) "./src/StoryTxt/alpha.txt" = Success d
    /\ Doc.fileName d = "alpha".
Proof.
  destruct (fileName_is_base_name (Fixture.server []) "./src/StoryTxt"
              "alpha" Fixture.alphaText) as [H _].
  - reflexivity.
  - apply includes_false_iff. reflexivity.
  - eexists. split; [reflexivity|]. split; reflexivity.
  - exact H.
Defined.

(** The first ".txt" is the one removed, and an upper-case extension is
    kept. *)
Example fileName_of_double_extension :
  removeFirst ".txt" (pop (splitChar "/" "./a.txt.bak.txt")) = "a.bak.txt".
Proof. reflexivity. Qed.

Example fileName_of_upper_case_extension :
  removeFirst ".txt" (pop (splitChar "/" "./A.TXT")) = "A.TXT".
Proof. reflexivity. Qed.
